(** * mayones: a MOS 6502 core for the NES, its CPU memory bus and the
    iNES cartridge loader -- a shallow embedding of the C++ sources and the
    properties established about them.

    Layout (leaves first, as in the sources):
    - fixed-width integers and undefined behaviour;
    - [Mapper0]       (src/mapper.cpp);
    - [Cartridge]     (src/cartridge.cpp);
    - [CPUMemoryBus]  (src/bus.cpp);
    - [CPU]           (src/cpu.cpp, include/cpu.h);
    - the theorems.

    Integers are [Z] with the wrap-around of the C++ types written out:
    a value stored into a [uint8_t] goes through [u8], into a [uint16_t]
    through [u16], into a [size_t] (taken as 64 bits) through [usize].  A
    function parameter of such a type converts its argument inside the
    callee, as the C++ call does. *)

From Stdlib Require Import ZArith Lia String Bool.
From stdpp Require Import base numbers list.

Open Scope Z_scope.

(** ** Fixed-width integers *)

Definition u8 (z : Z) : Z := z mod 256.
Definition u16 (z : Z) : Z := z mod 65536.
Definition usize (z : Z) : Z := z mod 2 ^ 64.
(** [int8_t]: two's complement on eight bits. *)
Definition i8 (z : Z) : Z := (z + 128) mod 256 - 128.

Definition is_u8 (z : Z) : Prop := 0 <= z <= 255.
Definition is_u16 (z : Z) : Prop := 0 <= z <= 65535.

(** ** Undefined behaviour

    The sources contain operations whose behaviour C++ leaves undefined on
    some inputs.  The embedding makes each of them an explicit outcome. *)

Inductive fault : Type :=
| NullCartridge        (* [cartridge->...] through an empty shared_ptr *)
| IndexOutOfRange      (* [v[i]] on a vector or array with [i >= size] *)
| MissingReturn        (* a non-void function flows off its end *)
| TableOutOfRange      (* [INSTRUCTIONS[i]] with [i] past the last slot *)
| NullHandler.         (* a call through a null pointer to member function *)

Inductive result (A : Type) : Type :=
| Ok (v : A)
| Undefined (f : fault).
Arguments Ok {A} v.
Arguments Undefined {A} f.

(** [v[i]] and [v[i] = d] on a [std::vector] or [std::array]. *)
Definition at_index (v : list Z) (i : Z) : result Z :=
  if (0 <=? i) && (i <? Z.of_nat (length v)) then
    match v !! Z.to_nat i with
    | Some b => Ok b
    | None => Undefined IndexOutOfRange
    end
  else Undefined IndexOutOfRange.

Definition assign_index (v : list Z) (i : Z) (d : Z) : result (list Z) :=
  if (0 <=? i) && (i <? Z.of_nat (length v)) then Ok (<[Z.to_nat i := d]> v)
  else Undefined IndexOutOfRange.

(** ** Mapper 0 (NROM) -- src/mapper.cpp *)

Module Mapper0.

Record t : Type := make {
  prg_rom : list Z;
  chr_rom : list Z
}.

(** [Mapper0::Mapper0()]: both vectors empty. *)
Definition default : t := make [] [].

(** [Mapper0::read].  The function has no [return] after its two ranges. *)
Definition read (m : t) (address : Z) : result Z :=
  let address := u16 address in
  if (0x8000 <=? address) && (address <=? 0xFFFF) then
    at_index (prg_rom m) (Z.land address 0x3FFF)
  else if (0x0000 <=? address) && (address <=? 0x1FFF) then
    at_index (chr_rom m) address
  else Undefined MissingReturn.

(** [Mapper0::write]: an empty body. *)
Definition write (m : t) (address data : Z) : t := m.

End Mapper0.

(** ** Cartridge and iNES loader -- src/cartridge.cpp *)

Module Cartridge.

Definition HEADER_SIZE : Z := 16.

(** [struct Header], filled by [stream.read] from the first sixteen bytes
    of the file over a zero-initialised object ([Header header{}]). *)
Record Header : Type := {
  title : list Z;
  prg_banks : Z;
  chr_banks : Z;
  flags6 : Z;
  flags7 : Z;
  flags8 : Z;
  flags9 : Z;
  flags10 : Z;
  padding : list Z
}.

Definition byte_at (bytes : list Z) (i : nat) : Z := default 0 (bytes !! i).

Definition read_header (bytes : list Z) : Header :=
  {| title := [byte_at bytes 0; byte_at bytes 1; byte_at bytes 2; byte_at bytes 3];
     prg_banks := byte_at bytes 4;
     chr_banks := byte_at bytes 5;
     flags6 := byte_at bytes 6;
     flags7 := byte_at bytes 7;
     flags8 := byte_at bytes 8;
     flags9 := byte_at bytes 9;
     flags10 := byte_at bytes 10;
     padding := [byte_at bytes 11; byte_at bytes 12; byte_at bytes 13;
                 byte_at bytes 14; byte_at bytes 15] |}.

(** [std::strncmp]: compares at most [n] characters as [unsigned char],
    stops after a terminating NUL; a string that ended reads as NUL. *)
Fixpoint strncmp (s1 s2 : list Z) (n : nat) : Z :=
  match n with
  | O => 0
  | S n' =>
      let c1 := hd 0 s1 in
      let c2 := hd 0 s2 in
      if c1 =? c2 then
        if c1 =? 0 then 0 else strncmp (tl s1) (tl s2) n'
      else c1 - c2
  end.

(** The literal ["NES\x1A"] with its terminator. *)
Definition MAGIC : list Z := [0x4E; 0x45; 0x53; 0x1A; 0x00].

Inductive Mirroring : Type := HORIZONTAL | VERTICAL.
Inductive ConsoleType : Type := FAMILY | VS_SYSTEM | PLAYCHOICE10 | EXTENDED.
Inductive TVSystem : Type := NTSC | PAL.

Definition to_Mirroring (z : Z) : Mirroring :=
  if z =? 0 then HORIZONTAL else VERTICAL.
Definition to_ConsoleType (z : Z) : ConsoleType :=
  if z =? 0 then FAMILY else if z =? 1 then VS_SYSTEM
  else if z =? 2 then PLAYCHOICE10 else EXTENDED.
Definition to_TVSystem (z : Z) : TVSystem :=
  if z =? 0 then NTSC else PAL.

(** The scalar members the constructor assigns from the header. *)
Record Fields : Type := {
  mirroring : Mirroring;
  has_battery_ram : bool;
  has_trainer : bool;
  ignore_mirroring : bool;
  console_type : ConsoleType;
  prg_ram_banks : Z;
  tv_system : TVSystem;
  is_dual_tv_system : bool;
  has_prg_ram : bool;
  has_bus_conflicts : bool
}.

(** A constructed cartridge.  [fields] is [None] when the constructor
    returned before assigning the scalar members (they are then left
    uninitialised); [mapper] is default-constructed before the body runs. *)
Record t : Type := make {
  fields : option Fields;
  mapper : Mapper0.t
}.

(** What the constructor finds at [rom_path]. *)
Inductive file : Type :=
| Missing                      (* no such file *)
| Unreadable (size : Z)        (* the file exists, the stream does not open *)
| Readable (bytes : list Z).   (* the bytes of the file *)

(** Lines the constructor writes to [std::cout]. *)
Inductive diagnostic : Type :=
| error_open_file
| mailformed_rom (rom_size : Z)
| invalid_header_title (title : list Z)
| unsupported_mapper (mapper_number : Z).

(** How a call of the constructor ends. *)
Inductive outcome : Type :=
| Returned (out : list diagnostic) (c : t)  (* the constructor returned: the caller holds [c] *)
| Thrown                                    (* [std::filesystem::file_size] threw *)
| Terminated (out : list diagnostic).       (* [throw;] with no exception in flight: std::terminate *)

Definition decode_fields (header : Header) : Fields :=
  let tv_system_id := Z.land (flags10 header) 3 in
  {| mirroring := to_Mirroring (Z.land (flags6 header) 1);
     has_battery_ram := Z.land (Z.shiftr (flags6 header) 1) 1 =? 1;
     has_trainer := Z.land (Z.shiftr (flags6 header) 2) 1 =? 1;
     ignore_mirroring := Z.land (Z.shiftr (flags6 header) 3) 1 =? 1;
     console_type := to_ConsoleType (Z.land (flags7 header) 3);
     prg_ram_banks := flags8 header;
     tv_system := to_TVSystem (Z.land (flags9 header) 1);
     is_dual_tv_system := (tv_system_id =? 1) || (tv_system_id =? 3);
     has_prg_ram := Z.land (Z.shiftr (flags10 header) 4) 1 =? 1;
     has_bus_conflicts := Z.land (Z.shiftr (flags10 header) 5) 1 =? 1 |}.

(** [uint8_t mapper_number = flags6 >> 4; mapper_number |= flags7 & 0xF0]. *)
Definition mapper_number (header : Header) : Z :=
  u8 (Z.lor (u8 (Z.shiftr (flags6 header) 4)) (Z.land (flags7 header) 0xF0)).

Definition prg_rom_size (header : Header) : Z := 16 * 1024 * prg_banks header.
Definition chr_rom_size (header : Header) : Z := 8 * 1024 * chr_banks header.

(** [v.resize(n)] on a fresh vector, then [stream.read(v.data(), n)]:
    the bytes the stream still holds, zero where it ran out. *)
Definition read_vector (stream : list Z) (n : Z) : list Z :=
  let got := take (Z.to_nat n) stream in
  got ++ replicate (Z.to_nat n - length got) 0.

(** [Cartridge::Cartridge(const std::string& rom_path)]. *)
Definition construct (f : file) : outcome :=
  match f with
  | Missing => Thrown
  | Unreadable _ => Returned [error_open_file] (make None Mapper0.default)
  | Readable bytes =>
      let file_size := Z.of_nat (length bytes) in
      if file_size <? HEADER_SIZE then
        Returned [mailformed_rom file_size] (make None Mapper0.default)
      else
        let header := read_header bytes in
        let stream := drop 16 bytes in
        if negb (strncmp (title header) MAGIC 4 =? 0) then
          Returned [invalid_header_title (title header)] (make None Mapper0.default)
        else if negb (HEADER_SIZE + prg_rom_size header + chr_rom_size header =? file_size) then
          Returned [mailformed_rom file_size] (make None Mapper0.default)
        else
          let prg_rom := read_vector stream (prg_rom_size header) in
          let stream := drop (Z.to_nat (prg_rom_size header)) stream in
          let chr_rom := read_vector stream (chr_rom_size header) in
          if negb (mapper_number header =? 0) then
            Terminated [unsupported_mapper (mapper_number header)]
          else
            Returned [] (make (Some (decode_fields header)) (Mapper0.make prg_rom chr_rom))
  end.

(** [Cartridge::read] and [Cartridge::write] forward to the mapper. *)
Definition read (c : t) (address : Z) : result Z := Mapper0.read (mapper c) address.
Definition write (c : t) (address data : Z) : t :=
  make (fields c) (Mapper0.write (mapper c) address data).

End Cartridge.

(** ** CPU memory bus -- src/bus.cpp *)

Module CPUMemoryBus.

Record t : Type := make {
  ram : list Z;                       (* std::array<uint8_t, 2048> *)
  cartridge : option Cartridge.t      (* std::shared_ptr<Cartridge>, None when empty *)
}.

(** [CPUMemoryBus::CPUMemoryBus() : cartridge() {}].  The member [ram] has
    no initialiser, so the array keeps the bytes its storage held before;
    [storage] stands for them (2048 bytes). *)
Definition construct (storage : list Z) : t := make storage None.

Definition connect_cartridge (b : t) (cartridge_ : Cartridge.t) : t :=
  make (ram b) (Some cartridge_).

Definition read (b : t) (address : Z) : result Z :=
  let address := u16 address in
  if (0x0000 <=? address) && (address <=? 0x1FFF) then
    at_index (ram b) (Z.land address 0x07FF)
  else if (0x2000 <=? address) && (address <=? 0x3FFF) then Ok 0
  else if (0x4000 <=? address) && (address <=? 0x4017) then Ok 0
  else if (0x4018 <=? address) && (address <=? 0x401F) then Ok 0
  else if (0x4020 <=? address) && (address <=? 0xFFFF) then
    match cartridge b with
    | Some c => Cartridge.read c address
    | None => Undefined NullCartridge
    end
  else Ok 0.

Definition write (b : t) (address data : Z) : result t :=
  let address := u16 address in
  let data := u8 data in
  if (0x0000 <=? address) && (address <=? 0x1FFF) then
    match assign_index (ram b) (Z.land address 0x07FF) data with
    | Ok ram' => Ok (make ram' (cartridge b))
    | Undefined f => Undefined f
    end
  else if (0x2000 <=? address) && (address <=? 0x3FFF) then Ok b
  else if address =? 0x4014 then Ok b
  else if (0x4000 <=? address) && (address <=? 0x4017) then Ok b
  else if (0x4018 <=? address) && (address <=? 0x401F) then Ok b
  else if (0x4020 <=? address) && (address <=? 0xFFFF) then
    match cartridge b with
    | Some c => Ok (make (ram b) (Some (Cartridge.write c address data)))
    | None => Undefined NullCartridge
    end
  else Ok b.

End CPUMemoryBus.

(** ** The 6502 -- src/cpu.cpp, include/cpu.h *)

Module CPU.

(** [enum Flag : uint8_t]. *)
Definition CARRY : Z := Z.shiftl 1 0.
Definition ZERO : Z := Z.shiftl 1 1.
Definition INTERRUPT : Z := Z.shiftl 1 2.
Definition DECIMAL : Z := Z.shiftl 1 3.
Definition BREAK : Z := Z.shiftl 1 4.
Definition UNUSED : Z := Z.shiftl 1 5.
Definition OVERFLOW_ : Z := Z.shiftl 1 6.
Definition NEGATIVE : Z := Z.shiftl 1 7.

Inductive AddressMode : Type :=
| NONE | ACCUMULATOR | IMPLIED | IMMEDIATE | ABSOLUTE | ZEROPAGE
| ABSOLUTE_X | ABSOLUTE_Y | ZEROPAGE_X | ZEROPAGE_Y
| INDIRECT | X_INDIRECT | INDIRECT_Y | RELATIVE.

Definition STACK_BASE_ADDRESS : Z := 0x0100.
Definition NMI_VECTOR_ADDRESS : Z := 0xFFFA.
Definition RESET_VECTOR_ADDRESS : Z := 0xFFFC.
Definition IRQ_VECTOR_ADDRESS : Z := 0xFFFE.

(** The data members of [class CPU].  [bus] is the bus the CPU refers to
    ([CPUMemoryBus&]); nothing else writes to it while the CPU runs. *)
Record t : Type := make {
  nmi : bool;
  a : Z;
  x : Z;
  y : Z;
  p : Z;
  sp : Z;
  pc : Z;
  addr_mode : AddressMode;
  operand_addr : Z;
  curr_cycle : Z;
  total_cycles : Z;
  page_crossed : bool;
  bus : CPUMemoryBus.t
}.

Definition with_a (v : Z) (s : t) : t :=
  make (nmi s) v (x s) (y s) (p s) (sp s) (pc s) (addr_mode s) (operand_addr s)
       (curr_cycle s) (total_cycles s) (page_crossed s) (bus s).
Definition with_x (v : Z) (s : t) : t :=
  make (nmi s) (a s) v (y s) (p s) (sp s) (pc s) (addr_mode s) (operand_addr s)
       (curr_cycle s) (total_cycles s) (page_crossed s) (bus s).
Definition with_y (v : Z) (s : t) : t :=
  make (nmi s) (a s) (x s) v (p s) (sp s) (pc s) (addr_mode s) (operand_addr s)
       (curr_cycle s) (total_cycles s) (page_crossed s) (bus s).
Definition with_p (v : Z) (s : t) : t :=
  make (nmi s) (a s) (x s) (y s) v (sp s) (pc s) (addr_mode s) (operand_addr s)
       (curr_cycle s) (total_cycles s) (page_crossed s) (bus s).
Definition with_sp (v : Z) (s : t) : t :=
  make (nmi s) (a s) (x s) (y s) (p s) v (pc s) (addr_mode s) (operand_addr s)
       (curr_cycle s) (total_cycles s) (page_crossed s) (bus s).
Definition with_pc (v : Z) (s : t) : t :=
  make (nmi s) (a s) (x s) (y s) (p s) (sp s) v (addr_mode s) (operand_addr s)
       (curr_cycle s) (total_cycles s) (page_crossed s) (bus s).
Definition with_addr_mode (v : AddressMode) (s : t) : t :=
  make (nmi s) (a s) (x s) (y s) (p s) (sp s) (pc s) v (operand_addr s)
       (curr_cycle s) (total_cycles s) (page_crossed s) (bus s).
Definition with_operand_addr (v : Z) (s : t) : t :=
  make (nmi s) (a s) (x s) (y s) (p s) (sp s) (pc s) (addr_mode s) v
       (curr_cycle s) (total_cycles s) (page_crossed s) (bus s).
Definition with_curr_cycle (v : Z) (s : t) : t :=
  make (nmi s) (a s) (x s) (y s) (p s) (sp s) (pc s) (addr_mode s) (operand_addr s)
       v (total_cycles s) (page_crossed s) (bus s).
Definition with_total_cycles (v : Z) (s : t) : t :=
  make (nmi s) (a s) (x s) (y s) (p s) (sp s) (pc s) (addr_mode s) (operand_addr s)
       (curr_cycle s) v (page_crossed s) (bus s).
Definition with_page_crossed (v : bool) (s : t) : t :=
  make (nmi s) (a s) (x s) (y s) (p s) (sp s) (pc s) (addr_mode s) (operand_addr s)
       (curr_cycle s) (total_cycles s) v (bus s).
Definition with_bus (v : CPUMemoryBus.t) (s : t) : t :=
  make (nmi s) (a s) (x s) (y s) (p s) (sp s) (pc s) (addr_mode s) (operand_addr s)
       (curr_cycle s) (total_cycles s) (page_crossed s) v.

(** *** Member functions as state transformers that may be undefined *)

Definition M (A : Type) : Type := t -> result (A * t).

Definition ret {A : Type} (v : A) : M A := fun s => Ok (v, s).

Definition bind {A B : Type} (m : M A) (k : A -> M B) : M B :=
  fun s =>
    match m s with
    | Ok (v, s') => k v s'
    | Undefined f => Undefined f
    end.

Definition undefined {A : Type} (f : fault) : M A := fun _ => Undefined f.

Definition gets {A : Type} (proj : t -> A) : M A := fun s => Ok (proj s, s).
Definition modify (upd : t -> t) : M unit := fun s => Ok (tt, upd s).

Declare Scope cpu_scope.
Delimit Scope cpu_scope with cpu.
Notation "v <- m ;; k" := (bind m (fun v => k))
  (at level 100, m at next level, k at level 200, right associativity) : cpu_scope.
Notation "m ;; k" := (bind m (fun _ => k))
  (at level 100, k at level 200, right associativity) : cpu_scope.
Local Open Scope cpu_scope.

(** Assignment to a data member converts to the member's type. *)
Definition assign_a (v : Z) : M unit := modify (with_a (u8 v)).
Definition assign_x (v : Z) : M unit := modify (with_x (u8 v)).
Definition assign_y (v : Z) : M unit := modify (with_y (u8 v)).
Definition assign_p (v : Z) : M unit := modify (with_p (u8 v)).
Definition assign_sp (v : Z) : M unit := modify (with_sp (u8 v)).
Definition assign_pc (v : Z) : M unit := modify (with_pc (u16 v)).
Definition assign_addr_mode (v : AddressMode) : M unit := modify (with_addr_mode v).
Definition assign_operand_addr (v : Z) : M unit := modify (with_operand_addr (u16 v)).
Definition assign_curr_cycle (v : Z) : M unit := modify (with_curr_cycle (usize v)).
Definition assign_total_cycles (v : Z) : M unit := modify (with_total_cycles (usize v)).
Definition assign_page_crossed (v : bool) : M unit := modify (with_page_crossed v).

(** [bus.read(address)] and [bus.write(address, data)]. *)
Definition bus_read (address : Z) : M Z :=
  fun s =>
    match CPUMemoryBus.read (bus s) address with
    | Ok v => Ok (v, s)
    | Undefined f => Undefined f
    end.

Definition bus_write (address data : Z) : M unit :=
  fun s =>
    match CPUMemoryBus.write (bus s) address data with
    | Ok b => Ok (tt, with_bus b s)
    | Undefined f => Undefined f
    end.

(** [bus.write(STACK_BASE_ADDRESS | sp--, data)]. *)
Definition push_stack (data : Z) : M unit :=
  sp0 <- gets sp ;;
  assign_sp (sp0 - 1) ;;
  bus_write (Z.lor STACK_BASE_ADDRESS sp0) data.

(** [return bus.read(STACK_BASE_ADDRESS | ++sp)]. *)
Definition pop_stack : M Z :=
  sp0 <- gets sp ;;
  assign_sp (sp0 + 1) ;;
  sp1 <- gets sp ;;
  bus_read (Z.lor STACK_BASE_ADDRESS sp1).

Definition set_flag (flag value : Z) : M unit :=
  p0 <- gets p ;;
  if negb (u8 value =? 0) then assign_p (Z.lor p0 flag)
  else assign_p (Z.land p0 (Z.lnot flag)).

Definition set_nz_flags (data : Z) : M unit :=
  let data := u8 data in
  set_flag ZERO (if data =? 0 then 1 else 0) ;;
  set_flag NEGATIVE (Z.land (Z.shiftr data 7) 1).

Definition is_page_crossed (address1 address2 : Z) : bool :=
  negb (Z.land (u16 address1) 0xFF00 =? Z.land (u16 address2) 0xFF00).

Definition read_wrapped_page (address : Z) : M Z :=
  let address := u16 address in
  lo <- bus_read address ;;
  let pointer := u16 lo in
  if is_page_crossed address (address + 1) then
    hi <- bus_read (Z.land address 0xFF00) ;;
    ret (u16 (Z.lor pointer (Z.shiftl hi 8)))
  else
    hi <- bus_read (address + 1) ;;
    ret (u16 (Z.lor pointer (Z.shiftl hi 8))).

(** *** Operand address resolution *)

Definition resolve_immediate : M Z :=
  pc0 <- gets pc ;;
  assign_pc (pc0 + 1) ;;
  ret pc0.

Definition resolve_zeropage (offset : Z) : M Z :=
  let offset := u8 offset in
  pc0 <- gets pc ;;
  assign_pc (pc0 + 1) ;;
  v <- bus_read pc0 ;;
  ret (u16 (Z.land (v + offset) 0xFF)).

Definition resolve_absolute (offset : Z) : M Z :=
  let offset := u8 offset in
  pc0 <- gets pc ;;
  lo <- bus_read pc0 ;;
  hi <- bus_read (pc0 + 1) ;;
  let base_addr := u16 (Z.lor lo (Z.shiftl hi 8)) in
  assign_pc (pc0 + 2) ;;
  let effective_addr := u16 (Z.land (base_addr + offset) 0xFFFF) in
  assign_page_crossed (is_page_crossed base_addr effective_addr) ;;
  ret effective_addr.

Definition resolve_indirect : M Z :=
  pc0 <- gets pc ;;
  lo <- bus_read pc0 ;;
  hi <- bus_read (pc0 + 1) ;;
  let addr := u16 (Z.lor lo (Z.shiftl hi 8)) in
  assign_pc (pc0 + 2) ;;
  read_wrapped_page addr.

Definition resolve_preindex_indirect : M Z :=
  pc0 <- gets pc ;;
  assign_pc (pc0 + 1) ;;
  v <- bus_read pc0 ;;
  x0 <- gets x ;;
  let zeropage_addr := u16 (Z.land (v + x0) 0xFF) in
  read_wrapped_page zeropage_addr.

Definition resolve_postindex_indirect : M Z :=
  pc0 <- gets pc ;;
  assign_pc (pc0 + 1) ;;
  v <- bus_read pc0 ;;
  base <- read_wrapped_page v ;;
  let base_addr := u16 base in
  y0 <- gets y ;;
  let effective_addr := u16 (Z.land (base_addr + y0) 0xFFFF) in
  assign_page_crossed (is_page_crossed base_addr effective_addr) ;;
  ret effective_addr.

Definition resolve_relative : M Z := resolve_immediate.

Definition get_operand : M Z :=
  mode <- gets addr_mode ;;
  match mode with
  | ACCUMULATOR => gets a
  | _ => addr <- gets operand_addr ;; bus_read addr
  end.

Definition store (data : Z) : M unit :=
  mode <- gets addr_mode ;;
  match mode with
  | ACCUMULATOR => assign_a data
  | _ => addr <- gets operand_addr ;; bus_write addr data
  end.

(** *** Instruction handlers

    Where C++ leaves the order of two calls in one expression open
    ([pop_stack() | pop_stack() << 8]), the calls are taken left to right. *)

Definition brk : M unit :=
  pc0 <- gets pc ;;
  assign_pc (pc0 + 1) ;;
  return_addr <- gets pc ;;
  push_stack (Z.shiftr return_addr 8) ;;
  push_stack (Z.land return_addr 0xFF) ;;
  p0 <- gets p ;;
  push_stack (Z.lor p0 BREAK) ;;
  p1 <- gets p ;;
  assign_p (Z.lor p1 INTERRUPT) ;;
  lo <- bus_read IRQ_VECTOR_ADDRESS ;;
  hi <- bus_read (IRQ_VECTOR_ADDRESS + 1) ;;
  assign_pc (Z.lor lo (Z.shiftl hi 8)).

Definition ora : M unit :=
  v <- get_operand ;;
  a0 <- gets a ;;
  assign_a (Z.lor a0 v) ;;
  a1 <- gets a ;;
  set_nz_flags a1.

Definition and_ : M unit :=
  v <- get_operand ;;
  a0 <- gets a ;;
  assign_a (Z.land a0 v) ;;
  a1 <- gets a ;;
  set_nz_flags a1.

Definition eor : M unit :=
  v <- get_operand ;;
  a0 <- gets a ;;
  assign_a (Z.lxor a0 v) ;;
  a1 <- gets a ;;
  set_nz_flags a1.

Definition asl : M unit :=
  v <- get_operand ;;
  let operand := u8 v in
  let result := u8 (Z.land (Z.shiftl operand 1) 0xFF) in
  set_flag CARRY (Z.shiftr operand 7) ;;
  set_nz_flags result ;;
  store result.

Definition lsr : M unit :=
  v <- get_operand ;;
  let operand := u8 v in
  let result := u8 (Z.shiftr operand 1) in
  set_flag CARRY (Z.land operand 1) ;;
  set_nz_flags result ;;
  store result.

Definition rol : M unit :=
  v <- get_operand ;;
  let operand := u8 v in
  p0 <- gets p ;;
  let result := u8 (Z.land (Z.lor (Z.shiftl operand 1) (Z.land p0 CARRY)) 0xFF) in
  set_flag CARRY (Z.shiftr operand 7) ;;
  set_nz_flags result ;;
  store result.

Definition ror : M unit :=
  v <- get_operand ;;
  let operand := u8 v in
  p0 <- gets p ;;
  let result := u8 (Z.land (Z.lor (Z.shiftr operand 1) (Z.shiftl (Z.land p0 CARRY) 7)) 0xFF) in
  set_flag CARRY (Z.land operand 1) ;;
  set_nz_flags result ;;
  store result.

Definition bit : M unit :=
  v <- get_operand ;;
  let operand := u8 v in
  a0 <- gets a ;;
  set_flag ZERO (if Z.land a0 operand =? 0 then 1 else 0) ;;
  set_flag OVERFLOW_ (Z.land (Z.shiftr operand 6) 1) ;;
  set_flag NEGATIVE (Z.shiftr operand 7).

Definition php : M unit :=
  p0 <- gets p ;;
  push_stack (Z.lor p0 BREAK).

Definition plp : M unit :=
  v <- pop_stack ;;
  assign_p (Z.lor (Z.land v (Z.lnot BREAK)) UNUSED).

Definition pha : M unit :=
  a0 <- gets a ;;
  push_stack a0.

Definition pla : M unit :=
  v <- pop_stack ;;
  assign_a v ;;
  a1 <- gets a ;;
  set_nz_flags a1.

Definition clc : M unit := p0 <- gets p ;; assign_p (Z.land p0 (Z.lnot CARRY)).
Definition sec : M unit := p0 <- gets p ;; assign_p (Z.lor p0 CARRY).
Definition cli : M unit := p0 <- gets p ;; assign_p (Z.land p0 (Z.lnot INTERRUPT)).
Definition sei : M unit := p0 <- gets p ;; assign_p (Z.lor p0 INTERRUPT).
Definition clv : M unit := p0 <- gets p ;; assign_p (Z.land p0 (Z.lnot OVERFLOW_)).
Definition cld : M unit := p0 <- gets p ;; assign_p (Z.land p0 (Z.lnot DECIMAL)).
Definition sed : M unit := p0 <- gets p ;; assign_p (Z.lor p0 DECIMAL).

Definition rti : M unit :=
  v <- pop_stack ;;
  assign_p (Z.lor v UNUSED) ;;
  lo <- pop_stack ;;
  hi <- pop_stack ;;
  assign_pc (Z.lor lo (Z.shiftl hi 8)).

Definition rts : M unit :=
  lo <- pop_stack ;;
  hi <- pop_stack ;;
  assign_pc (Z.lor lo (Z.shiftl hi 8) + 1).

Definition jmp : M unit :=
  addr <- gets operand_addr ;;
  assign_pc addr.

Definition adc_ (operand : Z) : M unit :=
  let operand := u8 operand in
  a0 <- gets a ;;
  p0 <- gets p ;;
  let result := u16 (a0 + operand + Z.land p0 CARRY) in
  set_flag CARRY (if 0xFF <? result then 1 else 0) ;;
  set_flag OVERFLOW_
    (if negb (Z.shiftr (Z.land (Z.land (Z.lxor a0 result) (Z.lxor operand result)) 0x80) 7 =? 0)
     then 1 else 0) ;;
  let result := u16 (Z.land result 0xFF) in
  set_nz_flags result ;;
  assign_a result.

Definition adc : M unit :=
  v <- get_operand ;;
  adc_ v.

Definition sbc : M unit :=
  v <- get_operand ;;
  adc_ (Z.lxor v 0xFF).

Definition sta : M unit := a0 <- gets a ;; store a0.
Definition stx : M unit := x0 <- gets x ;; store x0.
Definition sty : M unit := y0 <- gets y ;; store y0.

Definition inx : M unit :=
  x0 <- gets x ;; assign_x (Z.land (x0 + 1) 0xFF) ;; x1 <- gets x ;; set_nz_flags x1.
Definition dex : M unit :=
  x0 <- gets x ;; assign_x (Z.land (x0 - 1) 0xFF) ;; x1 <- gets x ;; set_nz_flags x1.
Definition iny : M unit :=
  y0 <- gets y ;; assign_y (Z.land (y0 + 1) 0xFF) ;; y1 <- gets y ;; set_nz_flags y1.
Definition dey : M unit :=
  y0 <- gets y ;; assign_y (Z.land (y0 - 1) 0xFF) ;; y1 <- gets y ;; set_nz_flags y1.

Definition inc : M unit :=
  v <- get_operand ;;
  let result := u8 (Z.land (v + 1) 0xFF) in
  set_nz_flags result ;;
  store result.

Definition dec : M unit :=
  v <- get_operand ;;
  let result := u8 (Z.land (v - 1) 0xFF) in
  set_nz_flags result ;;
  store result.

Definition txa : M unit := x0 <- gets x ;; assign_a x0 ;; a1 <- gets a ;; set_nz_flags a1.
Definition tya : M unit := y0 <- gets y ;; assign_a y0 ;; a1 <- gets a ;; set_nz_flags a1.
Definition txs : M unit := x0 <- gets x ;; assign_sp x0.
Definition tay : M unit := a0 <- gets a ;; assign_y a0 ;; y1 <- gets y ;; set_nz_flags y1.
Definition tax : M unit := a0 <- gets a ;; assign_x a0 ;; x1 <- gets x ;; set_nz_flags x1.
Definition tsx : M unit := sp0 <- gets sp ;; assign_x sp0 ;; x1 <- gets x ;; set_nz_flags x1.

Definition lda : M unit := v <- get_operand ;; assign_a v ;; a1 <- gets a ;; set_nz_flags a1.
Definition ldx : M unit := v <- get_operand ;; assign_x v ;; x1 <- gets x ;; set_nz_flags x1.
Definition ldy : M unit := v <- get_operand ;; assign_y v ;; y1 <- gets y ;; set_nz_flags y1.

Definition cpx : M unit :=
  v <- get_operand ;;
  let operand := u8 v in
  x0 <- gets x ;;
  let result := u8 (x0 - operand) in
  set_flag CARRY (if operand <=? x0 then 1 else 0) ;;
  set_nz_flags result.

Definition cpy : M unit :=
  v <- get_operand ;;
  let operand := u8 v in
  y0 <- gets y ;;
  let result := u8 (y0 - operand) in
  set_flag CARRY (if operand <=? y0 then 1 else 0) ;;
  set_nz_flags result.

Definition cmp : M unit :=
  v <- get_operand ;;
  let operand := u8 v in
  a0 <- gets a ;;
  let result := u8 (a0 - operand) in
  set_flag CARRY (if operand <=? a0 then 1 else 0) ;;
  set_nz_flags result.

Definition branch (condition : bool) : M unit :=
  if negb condition then ret tt
  else
    c0 <- gets curr_cycle ;;
    assign_curr_cycle (c0 + 1) ;;
    v <- get_operand ;;
    let operand := u8 v in
    let offset := i8 (if Z.land operand 0x80 =? 0x80 then - (0x100 - operand) else operand) in
    pc0 <- gets pc ;;
    let addr := u16 (pc0 + offset) in
    assign_page_crossed (is_page_crossed pc0 addr) ;;
    assign_pc addr.

Definition bpl : M unit := p0 <- gets p ;; branch (Z.land p0 NEGATIVE =? 0).
Definition bmi : M unit := p0 <- gets p ;; branch (negb (Z.land p0 NEGATIVE =? 0)).
Definition bvc : M unit := p0 <- gets p ;; branch (Z.land p0 OVERFLOW_ =? 0).
Definition bvs : M unit := p0 <- gets p ;; branch (negb (Z.land p0 OVERFLOW_ =? 0)).
Definition bcc : M unit := p0 <- gets p ;; branch (Z.land p0 CARRY =? 0).
Definition bcs : M unit := p0 <- gets p ;; branch (negb (Z.land p0 CARRY =? 0)).
Definition bne : M unit := p0 <- gets p ;; branch (Z.land p0 ZERO =? 0).
Definition beq : M unit := p0 <- gets p ;; branch (negb (Z.land p0 ZERO =? 0)).

Definition jsr : M unit :=
  pc0 <- gets pc ;;
  let return_addr := u16 (pc0 - 1) in
  push_stack (Z.shiftr return_addr 8) ;;
  push_stack (Z.land return_addr 0xFF) ;;
  addr <- gets operand_addr ;;
  assign_pc addr.

Definition nop : M unit := ret tt.

(** *** The decode table *)

Module Instruction.
(** [struct Instruction]; [func] is the pointer to the handler, [None]
    for [nullptr]. *)
Record t : Type := make {
  mnemonic : string;
  addr_mode : AddressMode;
  cycles : Z;
  check_page_cross : bool;
  func : option (M unit)
}.
(** [Instruction::Instruction()]. *)
Definition default : t := make EmptyString NONE 0 false None.
End Instruction.

Definition INSTRUCTIONS : list Instruction.t := [
  (* 0x00 *) Instruction.make "BRK" IMPLIED 7 false (Some brk);
  (* 0x01 *) Instruction.make "ORA" X_INDIRECT 6 false (Some ora);
  (* 0x02 *) Instruction.default;
  (* 0x03 *) Instruction.default;
  (* 0x04 *) Instruction.default;
  (* 0x05 *) Instruction.make "ORA" ZEROPAGE 3 false (Some ora);
  (* 0x06 *) Instruction.make "ASL" ZEROPAGE 5 false (Some asl);
  (* 0x07 *) Instruction.default;
  (* 0x08 *) Instruction.make "PHP" IMPLIED 3 false (Some php);
  (* 0x09 *) Instruction.make "ORA" IMMEDIATE 2 false (Some ora);
  (* 0x0A *) Instruction.make "ASL" ACCUMULATOR 2 false (Some asl);
  (* 0x0B *) Instruction.default;
  (* 0x0C *) Instruction.default;
  (* 0x0D *) Instruction.make "ORA" ABSOLUTE 4 false (Some ora);
  (* 0x0E *) Instruction.make "ASL" ABSOLUTE 6 false (Some asl);
  (* 0x0F *) Instruction.default;
  (* 0x10 *) Instruction.make "BPL" RELATIVE 2 false (Some bpl);
  (* 0x11 *) Instruction.make "ORA" INDIRECT_Y 5 true (Some ora);
  (* 0x12 *) Instruction.default;
  (* 0x13 *) Instruction.default;
  (* 0x14 *) Instruction.default;
  (* 0x15 *) Instruction.make "ORA" ZEROPAGE_X 4 false (Some ora);
  (* 0x16 *) Instruction.make "ASL" ZEROPAGE_X 6 false (Some asl);
  (* 0x17 *) Instruction.default;
  (* 0x18 *) Instruction.make "CLC" IMPLIED 2 false (Some clc);
  (* 0x19 *) Instruction.make "ORA" ABSOLUTE_Y 4 true (Some ora);
  (* 0x1A *) Instruction.default;
  (* 0x1B *) Instruction.default;
  (* 0x1C *) Instruction.default;
  (* 0x1D *) Instruction.make "ORA" ABSOLUTE_X 4 true (Some ora);
  (* 0x1E *) Instruction.make "ASL" ABSOLUTE_X 7 false (Some asl);
  (* 0x1F *) Instruction.default;
  (* 0x20 *) Instruction.make "JSR" ABSOLUTE 6 false (Some jsr);
  (* 0x21 *) Instruction.make "AND" X_INDIRECT 6 false (Some and_);
  (* 0x22 *) Instruction.default;
  (* 0x23 *) Instruction.default;
  (* 0x24 *) Instruction.make "BIT" ZEROPAGE 3 false (Some bit);
  (* 0x25 *) Instruction.make "AND" ZEROPAGE 3 false (Some and_);
  (* 0x26 *) Instruction.make "ROL" ZEROPAGE 5 false (Some rol);
  (* 0x27 *) Instruction.default;
  (* 0x28 *) Instruction.make "PLP" IMPLIED 4 false (Some plp);
  (* 0x29 *) Instruction.make "AND" IMMEDIATE 2 false (Some and_);
  (* 0x2A *) Instruction.make "ROL" ACCUMULATOR 2 false (Some rol);
  (* 0x2B *) Instruction.default;
  (* 0x2C *) Instruction.make "BIT" ABSOLUTE 4 false (Some bit);
  (* 0x2D *) Instruction.make "AND" ABSOLUTE 4 false (Some and_);
  (* 0x2E *) Instruction.make "ROL" ABSOLUTE 6 false (Some rol);
  (* 0x2F *) Instruction.default;
  (* 0x30 *) Instruction.make "BMI" RELATIVE 2 false (Some bmi);
  (* 0x31 *) Instruction.make "AND" INDIRECT_Y 5 true (Some and_);
  (* 0x32 *) Instruction.default;
  (* 0x33 *) Instruction.default;
  (* 0x34 *) Instruction.default;
  (* 0x35 *) Instruction.make "AND" ZEROPAGE_X 4 false (Some and_);
  (* 0x36 *) Instruction.make "ROL" ZEROPAGE_X 6 false (Some rol);
  (* 0x37 *) Instruction.default;
  (* 0x38 *) Instruction.make "SEC" IMPLIED 2 false (Some sec);
  (* 0x39 *) Instruction.make "AND" ABSOLUTE_Y 4 true (Some and_);
  (* 0x3A *) Instruction.default;
  (* 0x3B *) Instruction.default;
  (* 0x3C *) Instruction.default;
  (* 0x3D *) Instruction.make "AND" ABSOLUTE_X 4 true (Some and_);
  (* 0x3E *) Instruction.make "ROL" ABSOLUTE_X 7 false (Some rol);
  (* 0x3F *) Instruction.default;
  (* 0x40 *) Instruction.make "RTI" IMPLIED 6 false (Some rti);
  (* 0x41 *) Instruction.make "EOR" X_INDIRECT 6 false (Some eor);
  (* 0x42 *) Instruction.default;
  (* 0x43 *) Instruction.default;
  (* 0x44 *) Instruction.default;
  (* 0x45 *) Instruction.make "EOR" ZEROPAGE 3 false (Some eor);
  (* 0x46 *) Instruction.make "LSR" ZEROPAGE 5 false (Some lsr);
  (* 0x47 *) Instruction.default;
  (* 0x48 *) Instruction.make "PHA" IMPLIED 3 false (Some pha);
  (* 0x49 *) Instruction.make "EOR" IMMEDIATE 2 false (Some eor);
  (* 0x4A *) Instruction.make "LSR" ACCUMULATOR 2 false (Some lsr);
  (* 0x4B *) Instruction.default;
  (* 0x4C *) Instruction.make "JMP" ABSOLUTE 3 false (Some jmp);
  (* 0x4D *) Instruction.make "EOR" ABSOLUTE 4 false (Some eor);
  (* 0x4E *) Instruction.make "LSR" ABSOLUTE 6 false (Some lsr);
  (* 0x4F *) Instruction.default;
  (* 0x50 *) Instruction.make "BVC" RELATIVE 2 false (Some bvc);
  (* 0x51 *) Instruction.make "EOR" INDIRECT_Y 5 true (Some eor);
  (* 0x52 *) Instruction.default;
  (* 0x53 *) Instruction.default;
  (* 0x54 *) Instruction.default;
  (* 0x55 *) Instruction.make "EOR" ZEROPAGE_X 4 false (Some eor);
  (* 0x56 *) Instruction.make "LSR" ZEROPAGE_X 6 false (Some lsr);
  (* 0x57 *) Instruction.default;
  (* 0x58 *) Instruction.make "CLI" IMPLIED 2 false (Some cli);
  (* 0x59 *) Instruction.make "EOR" ABSOLUTE_Y 4 true (Some eor);
  (* 0x5A *) Instruction.default;
  (* 0x5B *) Instruction.default;
  (* 0x5C *) Instruction.default;
  (* 0x5D *) Instruction.make "EOR" ABSOLUTE_X 4 true (Some eor);
  (* 0x5E *) Instruction.make "LSR" ABSOLUTE_X 7 false (Some lsr);
  (* 0x5F *) Instruction.default;
  (* 0x60 *) Instruction.make "RTS" IMPLIED 6 false (Some rts);
  (* 0x61 *) Instruction.make "ADC" X_INDIRECT 6 false (Some adc);
  (* 0x62 *) Instruction.default;
  (* 0x63 *) Instruction.default;
  (* 0x64 *) Instruction.default;
  (* 0x65 *) Instruction.make "ADC" ZEROPAGE 3 false (Some adc);
  (* 0x66 *) Instruction.make "ROR" ZEROPAGE 5 false (Some ror);
  (* 0x67 *) Instruction.default;
  (* 0x68 *) Instruction.make "PLA" IMPLIED 4 false (Some pla);
  (* 0x69 *) Instruction.make "ADC" IMMEDIATE 2 false (Some adc);
  (* 0x6A *) Instruction.make "ROR" ACCUMULATOR 2 false (Some ror);
  (* 0x6B *) Instruction.default;
  (* 0x6C *) Instruction.make "JMP" INDIRECT 5 false (Some jmp);
  (* 0x6D *) Instruction.make "ADC" ABSOLUTE 4 false (Some adc);
  (* 0x6E *) Instruction.make "ROR" ABSOLUTE 6 false (Some ror);
  (* 0x6F *) Instruction.default;
  (* 0x70 *) Instruction.make "BVS" RELATIVE 2 false (Some bvs);
  (* 0x71 *) Instruction.make "ADC" INDIRECT_Y 5 true (Some adc);
  (* 0x72 *) Instruction.default;
  (* 0x73 *) Instruction.default;
  (* 0x74 *) Instruction.default;
  (* 0x75 *) Instruction.make "ADC" ZEROPAGE_X 4 false (Some adc);
  (* 0x76 *) Instruction.make "ROR" ZEROPAGE_X 6 false (Some ror);
  (* 0x77 *) Instruction.default;
  (* 0x78 *) Instruction.make "SEI" IMPLIED 2 false (Some sei);
  (* 0x79 *) Instruction.make "ADC" ABSOLUTE_Y 4 true (Some adc);
  (* 0x7A *) Instruction.default;
  (* 0x7B *) Instruction.default;
  (* 0x7C *) Instruction.default;
  (* 0x7D *) Instruction.make "ADC" ABSOLUTE_X 4 true (Some adc);
  (* 0x7E *) Instruction.make "ROR" ABSOLUTE_X 7 false (Some ror);
  (* 0x7F *) Instruction.default;
  (* 0x80 *) Instruction.default;
  (* 0x81 *) Instruction.make "STA" X_INDIRECT 6 false (Some sta);
  (* 0x82 *) Instruction.default;
  (* 0x83 *) Instruction.default;
  (* 0x84 *) Instruction.make "STY" ZEROPAGE 3 false (Some sty);
  (* 0x85 *) Instruction.make "STA" ZEROPAGE 3 false (Some sta);
  (* 0x86 *) Instruction.make "STX" ZEROPAGE 3 false (Some stx);
  (* 0x87 *) Instruction.default;
  (* 0x88 *) Instruction.make "DEY" IMPLIED 2 false (Some dey);
  (* 0x89 *) Instruction.default;
  (* 0x8A *) Instruction.make "TXA" IMPLIED 2 false (Some txa);
  (* 0x8B *) Instruction.default;
  (* 0x8C *) Instruction.make "STY" ABSOLUTE 4 false (Some sty);
  (* 0x8D *) Instruction.make "STA" ABSOLUTE 4 false (Some sta);
  (* 0x8E *) Instruction.make "STX" ABSOLUTE 4 false (Some stx);
  (* 0x8F *) Instruction.default;
  (* 0x90 *) Instruction.make "BCC" RELATIVE 2 false (Some bcc);
  (* 0x91 *) Instruction.make "STA" INDIRECT_Y 6 false (Some sta);
  (* 0x92 *) Instruction.default;
  (* 0x93 *) Instruction.default;
  (* 0x94 *) Instruction.make "STY" ZEROPAGE_X 4 false (Some sty);
  (* 0x95 *) Instruction.make "STA" ZEROPAGE_X 4 false (Some sta);
  (* 0x96 *) Instruction.make "STX" ZEROPAGE_Y 4 false (Some stx);
  (* 0x97 *) Instruction.default;
  (* 0x98 *) Instruction.make "TYA" IMPLIED 2 false (Some tya);
  (* 0x99 *) Instruction.make "STA" ABSOLUTE_Y 5 false (Some sta);
  (* 0x9A *) Instruction.make "TXS" IMPLIED 2 false (Some txs);
  (* 0x9B *) Instruction.default;
  (* 0x9C *) Instruction.default;
  (* 0x9D *) Instruction.make "STA" ABSOLUTE_X 5 false (Some sta);
  (* 0x9E *) Instruction.default;
  (* 0x9F *) Instruction.default;
  (* 0xA0 *) Instruction.make "LDY" IMMEDIATE 2 false (Some ldy);
  (* 0xA1 *) Instruction.make "LDA" X_INDIRECT 6 false (Some lda);
  (* 0xA2 *) Instruction.make "LDX" IMMEDIATE 2 false (Some ldx);
  (* 0xA3 *) Instruction.default;
  (* 0xA4 *) Instruction.make "LDY" ZEROPAGE 3 false (Some ldy);
  (* 0xA5 *) Instruction.make "LDA" ZEROPAGE 3 false (Some lda);
  (* 0xA6 *) Instruction.make "LDX" ZEROPAGE 3 false (Some ldx);
  (* 0xA7 *) Instruction.default;
  (* 0xA8 *) Instruction.make "TAY" IMPLIED 2 false (Some tay);
  (* 0xA9 *) Instruction.make "LDA" IMMEDIATE 2 false (Some lda);
  (* 0xAA *) Instruction.make "TAX" IMPLIED 2 false (Some tax);
  (* 0xAB *) Instruction.default;
  (* 0xAC *) Instruction.make "LDY" ABSOLUTE 4 false (Some ldy);
  (* 0xAD *) Instruction.make "LDA" ABSOLUTE 4 false (Some lda);
  (* 0xAE *) Instruction.make "LDX" ABSOLUTE 4 false (Some ldx);
  (* 0xAF *) Instruction.default;
  (* 0xB0 *) Instruction.make "BCS" RELATIVE 2 false (Some bcs);
  (* 0xB1 *) Instruction.make "LDA" INDIRECT_Y 5 true (Some lda);
  (* 0xB2 *) Instruction.default;
  (* 0xB3 *) Instruction.default;
  (* 0xB4 *) Instruction.make "LDY" ZEROPAGE_X 4 false (Some ldy);
  (* 0xB5 *) Instruction.make "LDA" ZEROPAGE_X 4 false (Some lda);
  (* 0xB6 *) Instruction.make "LDX" ZEROPAGE_Y 4 false (Some ldx);
  (* 0xB7 *) Instruction.default;
  (* 0xB8 *) Instruction.make "CLV" IMPLIED 2 false (Some clv);
  (* 0xB9 *) Instruction.make "LDA" ABSOLUTE_Y 4 true (Some lda);
  (* 0xBA *) Instruction.make "TSX" IMPLIED 2 false (Some tsx);
  (* 0xBB *) Instruction.default;
  (* 0xBC *) Instruction.make "LDY" ABSOLUTE_X 4 true (Some ldy);
  (* 0xBD *) Instruction.make "LDA" ABSOLUTE_X 4 true (Some lda);
  (* 0xBE *) Instruction.make "LDX" ABSOLUTE_Y 4 true (Some ldx);
  (* 0xBF *) Instruction.default;
  (* 0xC0 *) Instruction.make "CPY" IMMEDIATE 2 false (Some cpy);
  (* 0xC1 *) Instruction.make "CMP" X_INDIRECT 6 false (Some cmp);
  (* 0xC2 *) Instruction.default;
  (* 0xC3 *) Instruction.default;
  (* 0xC4 *) Instruction.make "CPY" ZEROPAGE 3 false (Some cpy);
  (* 0xC5 *) Instruction.make "CMP" ZEROPAGE 3 false (Some cmp);
  (* 0xC6 *) Instruction.make "DEC" ZEROPAGE 5 false (Some dec);
  (* 0xC7 *) Instruction.default;
  (* 0xC8 *) Instruction.make "INY" IMPLIED 2 false (Some iny);
  (* 0xC9 *) Instruction.make "CMP" IMMEDIATE 2 false (Some cmp);
  (* 0xCA *) Instruction.make "DEX" IMPLIED 2 false (Some dex);
  (* 0xCB *) Instruction.default;
  (* 0xCC *) Instruction.make "CPY" ABSOLUTE 4 false (Some cpy);
  (* 0xCD *) Instruction.make "CMP" ABSOLUTE 4 false (Some cmp);
  (* 0xCE *) Instruction.make "DEC" ABSOLUTE 6 false (Some dec);
  (* 0xCF *) Instruction.default;
  (* 0xD0 *) Instruction.make "BNE" RELATIVE 2 false (Some bne);
  (* 0xD1 *) Instruction.make "CMP" INDIRECT_Y 5 true (Some cmp);
  (* 0xD2 *) Instruction.default;
  (* 0xD3 *) Instruction.default;
  (* 0xD4 *) Instruction.default;
  (* 0xD5 *) Instruction.make "CMP" ZEROPAGE_X 4 false (Some cmp);
  (* 0xD6 *) Instruction.make "DEC" ZEROPAGE_X 6 false (Some dec);
  (* 0xD7 *) Instruction.default;
  (* 0xD8 *) Instruction.make "CLD" IMPLIED 2 false (Some cld);
  (* 0xD9 *) Instruction.make "CMP" ABSOLUTE_Y 4 true (Some cmp);
  (* 0xDA *) Instruction.default;
  (* 0xDB *) Instruction.default;
  (* 0xDC *) Instruction.default;
  (* 0xDD *) Instruction.make "CMP" ABSOLUTE_X 4 true (Some cmp);
  (* 0xDE *) Instruction.make "DEC" ABSOLUTE_X 7 false (Some dec);
  (* 0xDF *) Instruction.default;
  (* 0xE0 *) Instruction.make "CPX" IMMEDIATE 2 false (Some cpx);
  (* 0xE1 *) Instruction.make "SBC" X_INDIRECT 6 false (Some sbc);
  (* 0xE2 *) Instruction.default;
  (* 0xE3 *) Instruction.default;
  (* 0xE4 *) Instruction.make "CPX" ZEROPAGE 3 false (Some cpx);
  (* 0xE5 *) Instruction.make "SBC" ZEROPAGE 3 false (Some sbc);
  (* 0xE6 *) Instruction.make "INC" ZEROPAGE 5 false (Some inc);
  (* 0xE7 *) Instruction.default;
  (* 0xE8 *) Instruction.make "INX" IMPLIED 2 false (Some inx);
  (* 0xE9 *) Instruction.make "SBC" IMMEDIATE 2 false (Some sbc);
  (* 0xEA *) Instruction.make "NOP" IMPLIED 2 false (Some nop);
  (* 0xEB *) Instruction.default;
  (* 0xEC *) Instruction.make "CPX" ABSOLUTE 4 false (Some cpx);
  (* 0xED *) Instruction.make "SBC" ABSOLUTE 4 false (Some sbc);
  (* 0xEE *) Instruction.make "INC" ABSOLUTE 6 false (Some inc);
  (* 0xEF *) Instruction.default;
  (* 0xF0 *) Instruction.make "BEQ" RELATIVE 2 false (Some beq);
  (* 0xF1 *) Instruction.make "SBC" INDIRECT_Y 5 true (Some sbc);
  (* 0xF2 *) Instruction.default;
  (* 0xF3 *) Instruction.default;
  (* 0xF4 *) Instruction.default;
  (* 0xF5 *) Instruction.make "SBC" ZEROPAGE_X 4 false (Some sbc);
  (* 0xF6 *) Instruction.make "INC" ZEROPAGE_X 6 false (Some inc);
  (* 0xF7 *) Instruction.default;
  (* 0xF8 *) Instruction.make "SED" IMPLIED 2 false (Some sed);
  (* 0xF9 *) Instruction.make "SBC" ABSOLUTE_Y 4 true (Some sbc);
  (* 0xFA *) Instruction.default;
  (* 0xFB *) Instruction.default;
  (* 0xFC *) Instruction.default;
  (* 0xFD *) Instruction.make "SBC" ABSOLUTE_X 4 true (Some sbc);
  (* 0xFE *) Instruction.make "INC" ABSOLUTE_X 7 false (Some inc)
].

(** [INSTRUCTIONS[i]] on the array as declared. *)
Definition instruction_at (i : Z) : M Instruction.t :=
  match INSTRUCTIONS !! Z.to_nat i with
  | Some instruction => ret instruction
  | None => undefined TableOutOfRange
  end.

(** [(this->*instruction.func)()]. *)
Definition call (f : option (M unit)) : M unit :=
  match f with
  | Some handler => handler
  | None => undefined NullHandler
  end.

(** [CPU::CPU(CPUMemoryBus& bus)]. *)
Definition construct (b : CPUMemoryBus.t) : t :=
  make false 0 0 0 0 0 0 NONE 0 0 0 false b.

Definition reset : M unit :=
  assign_a 0x00 ;;
  assign_x 0x00 ;;
  assign_y 0x00 ;;
  assign_sp 0xFD ;;
  assign_p (Z.lor INTERRUPT UNUSED) ;;
  lo <- bus_read RESET_VECTOR_ADDRESS ;;
  hi <- bus_read (RESET_VECTOR_ADDRESS + 1) ;;
  assign_pc (Z.lor lo (Z.shiftl hi 8)) ;;
  t0 <- gets total_cycles ;;
  assign_total_cycles (t0 + 7).

Definition resolve (mode : AddressMode) : M unit :=
  match mode with
  | ACCUMULATOR | IMPLIED => ret tt
  | IMMEDIATE => addr <- resolve_immediate ;; assign_operand_addr addr
  | ABSOLUTE => addr <- resolve_absolute 0 ;; assign_operand_addr addr
  | ZEROPAGE => addr <- resolve_zeropage 0 ;; assign_operand_addr addr
  | ABSOLUTE_X => x0 <- gets x ;; addr <- resolve_absolute x0 ;; assign_operand_addr addr
  | ABSOLUTE_Y => y0 <- gets y ;; addr <- resolve_absolute y0 ;; assign_operand_addr addr
  | ZEROPAGE_X => x0 <- gets x ;; addr <- resolve_zeropage x0 ;; assign_operand_addr addr
  | ZEROPAGE_Y => y0 <- gets y ;; addr <- resolve_zeropage y0 ;; assign_operand_addr addr
  | INDIRECT => addr <- resolve_indirect ;; assign_operand_addr addr
  | X_INDIRECT => addr <- resolve_preindex_indirect ;; assign_operand_addr addr
  | INDIRECT_Y => addr <- resolve_postindex_indirect ;; assign_operand_addr addr
  | RELATIVE => addr <- resolve_relative ;; assign_operand_addr addr
  | NONE => ret tt
  end.

(** [CPU::execute]; [resolve] is its [switch (addr_mode)]. *)
Definition execute (instruction : Instruction.t) : M unit :=
  assign_addr_mode (Instruction.addr_mode instruction) ;;
  mode <- gets addr_mode ;;
  resolve mode ;;
  call (Instruction.func instruction) ;;
  crossed <- gets page_crossed ;;
  (if Instruction.check_page_cross instruction && crossed then
     c0 <- gets curr_cycle ;;
     assign_curr_cycle (c0 + 1) ;;
     assign_page_crossed false
   else ret tt) ;;
  c1 <- gets curr_cycle ;;
  assign_curr_cycle (c1 + Instruction.cycles instruction) ;;
  c2 <- gets curr_cycle ;;
  t0 <- gets total_cycles ;;
  assign_total_cycles (t0 + c2).

(** [CPU::step].  The mnemonic it writes to [std::cout] is not kept. *)
Definition step : M Z :=
  assign_curr_cycle 0 ;;
  pc0 <- gets pc ;;
  assign_pc (pc0 + 1) ;;
  opcode <- bus_read pc0 ;;
  instruction <- instruction_at opcode ;;
  execute instruction ;;
  gets curr_cycle.

End CPU.

(** ** The loader as the specification words it

    Section 4.2 of the specification lists the loader's steps and the error
    each one fails with.  [spec_load] follows those words, for comparison
    with [Cartridge.construct], which follows the code. *)

Inductive LoadError : Type := MalformedROM | InvalidMagic | UnsupportedMapper.

Definition spec_load (bytes : list Z) : LoadError + Mapper0.t :=
  let file_size := Z.of_nat (length bytes) in
  if file_size <? 16 then inl MalformedROM
  else if negb (bool_decide (take 4 bytes = [0x4E; 0x45; 0x53; 0x1A])) then inl InvalidMagic
  else
    let prg_size := 16 * 1024 * Cartridge.byte_at bytes 4 in
    let chr_size := 8 * 1024 * Cartridge.byte_at bytes 5 in
    if negb (16 + prg_size + chr_size =? file_size) then inl MalformedROM
    else if negb (Z.lor (Z.shiftr (Cartridge.byte_at bytes 6) 4)
                        (Z.land (Cartridge.byte_at bytes 7) 0xF0) =? 0)
    then inl UnsupportedMapper
    else inr (Mapper0.make (take (Z.to_nat prg_size) (drop 16 bytes))
                           (take (Z.to_nat chr_size) (drop (16 + Z.to_nat prg_size) bytes))).

(** The error a caller of the constructor can observe: only an exception
    reaches the caller, and the only one is [file_size]'s. *)
Inductive caller_sees : Type :=
| sees_object (c : Cartridge.t)
| sees_filesystem_error
| sees_nothing.          (* the process was terminated *)

Definition observed (o : Cartridge.outcome) : caller_sees :=
  match o with
  | Cartridge.Returned _ c => sees_object c
  | Cartridge.Thrown => sees_filesystem_error
  | Cartridge.Terminated _ => sees_nothing
  end.

(** ** Machines used in the examples

    A 16 KiB NROM image with [code] at 0x8000 and the reset and IRQ vectors
    in its last four bytes, a bus over zeroed RAM with that cartridge, and
    the CPU after [reset]. *)

Definition nrom_image (code : list Z) (reset_vector irq_vector : Z) : list Z :=
  code ++ replicate (Z.to_nat 0x3FFC - length code) 0 ++
  [Z.land reset_vector 0xFF; Z.shiftr reset_vector 8;
   Z.land irq_vector 0xFF; Z.shiftr irq_vector 8].

Definition nrom_cartridge (code : list Z) (reset_vector irq_vector : Z) : Cartridge.t :=
  Cartridge.make None (Mapper0.make (nrom_image code reset_vector irq_vector) []).

Definition zeroed_ram : list Z := replicate (Z.to_nat 2048) 0.

Definition nrom_bus (ram : list Z) (code : list Z) : CPUMemoryBus.t :=
  CPUMemoryBus.connect_cartridge (CPUMemoryBus.construct ram)
    (nrom_cartridge code 0x8000 0x9000).

(** The state a successful call leaves, [s] itself when it was undefined. *)
Definition state_after {A : Type} (m : CPU.M A) (s : CPU.t) : CPU.t :=
  match m s with
  | Ok (_, s') => s'
  | Undefined _ => s
  end.

Definition power_on (ram code : list Z) : CPU.t :=
  state_after CPU.reset (CPU.construct (nrom_bus ram code)).

(** Writes through the bus, for setting up memory in the examples. *)
Definition poke (address data : Z) (b : CPUMemoryBus.t) : CPUMemoryBus.t :=
  match CPUMemoryBus.write b address data with
  | Ok b' => b'
  | Undefined _ => b
  end.

(** What a call returns together with one field of the state it leaves. *)
Definition observe {A B : Type} (proj : CPU.t -> B) (r : result (A * CPU.t)) : result (A * B) :=
  match r with
  | Ok (v, s) => Ok (v, proj s)
  | Undefined f => Undefined f
  end.

(** A 32 KiB PRG ROM whose banks differ: 0x11 throughout the first bank,
    0x22 throughout the second. *)
Definition two_bank_mapper : Mapper0.t :=
  Mapper0.make (replicate (Z.to_nat 0x4000) 0x11 ++ replicate (Z.to_nat 0x4000) 0x22) [].

(** A header with the magic tag, no banks, and the low mapper nibble 1. *)
Definition mapper1_header : list Z :=
  [0x4E; 0x45; 0x53; 0x1A; 0; 0; 0x10; 0; 0; 0; 0; 0; 0; 0; 0; 0].

(** SBC #$30 at 0x8000 and ADC #$CF at 0x8002, each with its operand
    address resolved, from the state after reset. *)
Definition sbc_adc_machine (operand_addr : Z) : CPU.t :=
  CPU.with_operand_addr operand_addr
    (CPU.with_addr_mode CPU.IMMEDIATE (power_on zeroed_ram [0xE9; 0x30; 0x69; 0xCF])).

(** JMP ($02FF) at 0x8000, after writing 0x40 to 0x02FF, 0x80 to 0x0200 and
    0xFF to 0x0300. *)
Definition jmp_02FF_machine : CPU.t :=
  state_after CPU.reset
    (CPU.construct
       (poke 0x0300 0xFF (poke 0x0200 0x80 (poke 0x02FF 0x40
          (nrom_bus zeroed_ram [0x6C; 0xFF; 0x02]))))).

(** JMP ($30FF) at 0x8000, after writing 0x40 to 0x30FF, 0x80 to 0x3000 and
    0xFF to 0x3100. *)
Definition jmp_30FF_machine : CPU.t :=
  state_after CPU.reset
    (CPU.construct
       (poke 0x3100 0xFF (poke 0x3000 0x80 (poke 0x30FF 0x40
          (nrom_bus zeroed_ram [0x6C; 0xFF; 0x30]))))).

(** A state whose next two bytes are FF 00, with X = 0, RAM holding 0x40 at
    0x00FF and 0x80 at 0x0000 (and 0xFF at 0x0100): the pointer 0x00FF of
    each of the three modes. *)
Definition zero_page_pointer_machine : CPU.t :=
  state_after CPU.reset
    (CPU.construct
       (poke 0x0100 0xFF (poke 0x0000 0x80 (poke 0x00FF 0x40
          (nrom_bus zeroed_ram [0xFF; 0x00]))))).

(** LDA #$00, PHA, PLP: the byte pulled into P has U clear. *)
Definition pull_zero_machine : CPU.t := power_on zeroed_ram [0xA9; 0x00; 0x48; 0x28].
Definition pull_zero_machine_1 : CPU.t := state_after CPU.step pull_zero_machine.
Definition pull_zero_machine_2 : CPU.t := state_after CPU.step pull_zero_machine_1.
Definition pull_zero_machine_3 : CPU.t := state_after CPU.step pull_zero_machine_2.

(** PHP, RTI and PHP, PLP from the state after reset. *)
Definition php_rti_machine : CPU.t := power_on zeroed_ram [0x08; 0x40].
Definition php_rti_machine_1 : CPU.t := state_after CPU.step php_rti_machine.
Definition php_rti_machine_2 : CPU.t := state_after CPU.step php_rti_machine_1.
Definition php_plp_machine : CPU.t := power_on zeroed_ram [0x08; 0x28].
Definition php_plp_machine_2 : CPU.t :=
  state_after CPU.step (state_after CPU.step php_plp_machine).

(** ** States reachable after [reset()] *)

Inductive reachable : CPU.t -> Prop :=
| reachable_reset (s0 s : CPU.t) :
    CPU.reset s0 = Ok (tt, s) -> reachable s
| reachable_step (s s' : CPU.t) (cycles : Z) :
    reachable s -> CPU.step s = Ok (cycles, s') -> reachable s'.

Definition U_set (s : CPU.t) : Prop := Z.testbit (CPU.p s) 5 = true.
Definition B_clear (s : CPU.t) : Prop := Z.testbit (CPU.p s) 4 = false.

(** ** Predicates used in the statements *)

Definition all_bytes : list Z := map Z.of_nat (seq 0 256).

(** Two states that agree on the accumulator and on the status byte. *)
Definition same_a_p (s s' : CPU.t) : Prop :=
  CPU.a s = CPU.a s' /\ CPU.p s = CPU.p s'.

(** [m] succeeds on both of two such states, with the same value, and leaves
    two such states. *)
Definition agrees {A : Type} (m : CPU.M A) : Prop :=
  forall s s', same_a_p s s' ->
    exists v t t', m s = Ok (v, t) /\ m s' = Ok (v, t') /\ same_a_p t t'.

(** The eight branch opcodes with the condition each handler passes to
    [branch], on the status byte [p0]. *)
Definition branch_condition (opcode p0 : Z) : option bool :=
  if opcode =? 0x10 then Some (Z.land p0 CPU.NEGATIVE =? 0)
  else if opcode =? 0x30 then Some (negb (Z.land p0 CPU.NEGATIVE =? 0))
  else if opcode =? 0x50 then Some (Z.land p0 CPU.OVERFLOW_ =? 0)
  else if opcode =? 0x70 then Some (negb (Z.land p0 CPU.OVERFLOW_ =? 0))
  else if opcode =? 0x90 then Some (Z.land p0 CPU.CARRY =? 0)
  else if opcode =? 0xB0 then Some (negb (Z.land p0 CPU.CARRY =? 0))
  else if opcode =? 0xD0 then Some (Z.land p0 CPU.ZERO =? 0)
  else if opcode =? 0xF0 then Some (negb (Z.land p0 CPU.ZERO =? 0))
  else None.

(** The signed offset [branch] adds to PC for the operand byte. *)
Definition branch_offset (operand : Z) : Z :=
  i8 (if Z.land (u8 operand) 0x80 =? 0x80 then - (0x100 - u8 operand) else u8 operand).

(** The flags the handlers set and clear by name. *)
Definition named_flag (flag : Z) : Prop :=
  In flag [CPU.CARRY; CPU.ZERO; CPU.INTERRUPT; CPU.DECIMAL; CPU.OVERFLOW_; CPU.NEGATIVE].

(** [m], run from [s], keeps the property [Q] of the status byte. *)
Definition keeps_at {A : Type} (Q : Z -> Prop) (m : CPU.M A) (s : CPU.t) : Prop :=
  Q (CPU.p s) -> forall v s', m s = Ok (v, s') -> Q (CPU.p s').

(** ** Further machines and predicates *)

(** A bus whose RAM has its 2048 cells, and one connected to a cartridge
    with at least [n] bytes of PRG ROM. *)
Definition ram_2048 (b : CPUMemoryBus.t) : Prop :=
  length (CPUMemoryBus.ram b) = Z.to_nat 2048.

Definition prg_at_least (n : Z) (b : CPUMemoryBus.t) : Prop :=
  exists c, CPUMemoryBus.cartridge b = Some c
            /\ n <= Z.of_nat (length (Mapper0.prg_rom (Cartridge.mapper c))).

(** The bus of the examples, over zeroed RAM and an NROM image without code. *)
Definition plain_bus : CPUMemoryBus.t := nrom_bus zeroed_ram [].

(** A file of one 16 KiB PRG bank of NOPs and no CHR bank, vertical
    mirroring, mapper 0; and the same bytes cut after the header's magic. *)
Definition one_bank_rom : list Z :=
  [0x4E; 0x45; 0x53; 0x1A; 1; 0; 1; 0; 0; 0; 0; 0; 0; 0; 0; 0]
  ++ replicate (Z.to_nat 0x4000) 0xEA.

Definition is_u8b (z : Z) : bool := (0 <=? z) && (z <=? 255).

(** ** The driver -- src/main.cpp

    [main] with what it reads from standard input as arguments: the file at
    the path entered and the number entered for [cycles] (an [int]).
    [storage] is what the automatic storage of [bus] held.  The prompts it
    prints are not kept. *)

Module Main.

Inductive outcome : Type :=
| Returned (status : Z) (cpu : CPU.t)   (* [return 0] *)
| Terminated                            (* an exception left [main], or [throw;] *)
| UndefinedBehaviour (f : fault)
| SignedOverflow.                       (* [cycles--] at INT_MIN *)

Definition INT_MIN : Z := - 2 ^ 31.

(** [n] iterations of the loop body. *)
Fixpoint step_times (n : nat) : CPU.M unit :=
  match n with
  | O => CPU.ret tt
  | S n' => CPU.bind CPU.step (fun _ => step_times n')
  end.

(** [while (cycles--) cpu.step();]: a count that is not negative runs that
    many steps; a negative one is tested and decremented down to INT_MIN,
    where the decrement overflows. *)
Definition main (storage : list Z) (rom : Cartridge.file) (cycles : Z) : outcome :=
  match Cartridge.construct rom with
  | Cartridge.Thrown => Terminated
  | Cartridge.Terminated _ => Terminated
  | Cartridge.Returned _ cartridge =>
      let bus :=
        CPUMemoryBus.connect_cartridge (CPUMemoryBus.construct storage) cartridge in
      let cpu := CPU.construct bus in
      let steps := if 0 <=? cycles then cycles else cycles - INT_MIN in
      match CPU.bind CPU.reset (fun _ => step_times (Z.to_nat steps)) cpu with
      | Ok (_, s) => if 0 <=? cycles then Returned 0 s else SignedOverflow
      | Undefined f => UndefinedBehaviour f
      end
  end.

End Main.

(** The state [push_stack data] leaves when SP is a byte and the RAM has its
    cells: the byte stored at 0x0100 + SP, SP one lower modulo 256. *)
Definition pushed (data : Z) (s : CPU.t) : CPU.t :=
  CPU.with_bus
    (CPUMemoryBus.make
       (<[Z.to_nat (0x0100 + CPU.sp s) := u8 data]> (CPUMemoryBus.ram (CPU.bus s)))
       (CPUMemoryBus.cartridge (CPU.bus s)))
    (CPU.with_sp (u8 (CPU.sp s - 1)) s).

(** A CPU whose SP is a byte, over a bus whose RAM has its cells. *)
Definition stack_ready (s : CPU.t) : Prop :=
  is_u8 (CPU.sp s) /\ ram_2048 (CPU.bus s).


(** A CPU after reset with A and P set, whose operand is the byte [operand]
    at 0x8001 of the PRG ROM. *)
Definition operand_machine (a0 p0 operand : Z) : CPU.t :=
  CPU.with_a a0
    (CPU.with_p p0
       (CPU.with_operand_addr 0x8001 (power_on zeroed_ram [0xEA; operand]))).

(** States reached after [reset()] by [step()] calls none of which fetches
    the opcode of RTI. *)
Inductive reachable_without_rti : CPU.t -> Prop :=
| without_rti_reset (s0 s : CPU.t) :
    CPU.reset s0 = Ok (tt, s) -> reachable_without_rti s
| without_rti_step (s s' : CPU.t) (opcode cycles : Z) :
    reachable_without_rti s ->
    CPUMemoryBus.read (CPU.bus s) (CPU.pc s) = Ok opcode ->
    opcode <> 0x40 ->
    CPU.step s = Ok (cycles, s') ->
    reachable_without_rti s'.

(** The operand byte of a branch read as a signed displacement. *)
Definition displacement (operand : Z) : Z :=
  if operand <? 128 then operand else operand - 256.

(** [m], run from [s], leaves a state in which [R] holds when it held in
    [s]; nothing is said of a call that is undefined. *)
Definition kept {A : Type} (R : CPU.t -> Prop) (m : CPU.M A) (s : CPU.t) : Prop :=
  R s -> forall v s', m s = Ok (v, s') -> R s'.

(** The parts of the bus no instruction is meant to change: the cartridge
    and the number of RAM cells. *)
Definition same_memory_map (b b' : CPUMemoryBus.t) : Prop :=
  CPUMemoryBus.cartridge b' = CPUMemoryBus.cartridge b
  /\ length (CPUMemoryBus.ram b') = length (CPUMemoryBus.ram b).

(** STA $8000 at 0x8000: a store into the cartridge window. *)
Definition store_to_rom_machine : CPU.t := power_on zeroed_ram [0x8D; 0x00; 0x80].

(** LDA $80FF,X at 0x8000 with X = 1: the operand is at 0x8100, one page
    above the base address. *)
Definition indexed_load_machine : CPU.t :=
  CPU.with_x 0x01 (power_on zeroed_ram [0xBD; 0xFF; 0x80]).


(** ROL A / ROR A operate on the accumulator. *)
Definition accumulator_machine (a0 p0 : Z) : CPU.t :=
  CPU.with_addr_mode CPU.ACCUMULATOR (operand_machine a0 p0 0x00).

(** The byte [set_flag(flag, value)] leaves in P when P held [p0]. *)
Definition flag_set (p0 flag value : Z) : Z :=
  u8 (if negb (u8 value =? 0) then Z.lor p0 flag else Z.land p0 (Z.lnot flag)).

(** * Theorems *)

(** ** Fixed-width integers and indexing *)

Lemma u8_range (z : Z) : is_u8 (u8 z).
Proof. unfold is_u8, u8. pose proof (Z.mod_pos_bound z 256). lia. Qed.

Lemma u16_range (z : Z) : is_u16 (u16 z).
Proof. unfold is_u16, u16. pose proof (Z.mod_pos_bound z 65536). lia. Qed.

Lemma u8_small (z : Z) : is_u8 z -> u8 z = z.
Proof. unfold is_u8, u8. intros H. apply Z.mod_small. lia. Qed.

Lemma u16_small (z : Z) : is_u16 z -> u16 z = z.
Proof. unfold is_u16, u16. intros H. apply Z.mod_small. lia. Qed.

Lemma u8_testbit (z k : Z) : 0 <= k < 8 -> Z.testbit (u8 z) k = Z.testbit z k.
Proof.
  intros Hk. unfold u8. change 256 with (2 ^ 8).
  apply Z.mod_pow2_bits_low. lia.
Qed.

Lemma at_index_lookup (v : list Z) (i : Z) (b : Z) :
  0 <= i -> v !! Z.to_nat i = Some b -> at_index v i = Ok b.
Proof.
  intros Hi Hb. unfold at_index. rewrite Hb.
  apply lookup_lt_Some in Hb.
  destruct (0 <=? i) eqn:E1; [ | apply Z.leb_gt in E1; lia ].
  destruct (i <? Z.of_nat (length v)) eqn:E2; [ reflexivity | apply Z.ltb_ge in E2; lia ].
Qed.

Lemma land_0x3FFF (z : Z) : Z.land z 0x3FFF = z mod 0x4000.
Proof. change 0x3FFF with (Z.ones 14). rewrite Z.land_ones by lia. reflexivity. Qed.

Lemma land_0x07FF (z : Z) : Z.land z 0x07FF = z mod 0x0800.
Proof. change 0x07FF with (Z.ones 11). rewrite Z.land_ones by lia. reflexivity. Qed.

Lemma land_0xFF (z : Z) : Z.land z 0xFF = z mod 256.
Proof. change 0xFF with (Z.ones 8). rewrite Z.land_ones by lia. reflexivity. Qed.

Lemma in_range (lo hi z : Z) : lo <= z <= hi -> (lo <=? z) && (z <=? hi) = true.
Proof. intros H. apply andb_true_iff. split; apply Z.leb_le; lia. Qed.

Lemma out_of_range (lo hi z : Z) : z < lo \/ hi < z -> (lo <=? z) && (z <=? hi) = false.
Proof.
  intros H. apply andb_false_iff.
  destruct H; [ left; apply Z.leb_gt | right; apply Z.leb_gt ]; lia.
Qed.

(** ** Mapper 0 *)

(** The PRG window of [Mapper0::read], for any PRG vector. *)
Lemma Mapper0_read_prg_window (m : Mapper0.t) (A : Z) :
  0x8000 <= A <= 0xFFFF ->
  Mapper0.read m A = at_index (Mapper0.prg_rom m) (Z.land A 0x3FFF).
Proof.
  intros HA. unfold Mapper0.read.
  rewrite u16_small by (unfold is_u16; lia).
  rewrite in_range by lia. reflexivity.
Qed.

(** C5, as amended: in 0x8000-0xFFFF [Mapper0::read] returns
    [prg_rom[A & 0x3FFF]]; that index is below 0x4000 whatever the size of
    the PRG ROM, so the read at the same offset of the window 0x8000-0xBFFF
    and of the window 0xC000-0xFFFF is the read at [A]: both windows show
    the first 16 KiB. *)
Theorem Mapper0_read_indexes_first_bank (m : Mapper0.t) (A : Z) :
  0x8000 <= A <= 0xFFFF ->
  Mapper0.read m A = at_index (Mapper0.prg_rom m) (Z.land A 0x3FFF)
  /\ 0 <= Z.land A 0x3FFF < 0x4000
  /\ Mapper0.read m (0x8000 + Z.land A 0x3FFF) = Mapper0.read m A
  /\ Mapper0.read m (0xC000 + Z.land A 0x3FFF) = Mapper0.read m A.
Proof.
  intros HA.
  assert (Hk : 0 <= Z.land A 0x3FFF < 0x4000).
  { rewrite land_0x3FFF. apply Z.mod_pos_bound. lia. }
  split; [ apply Mapper0_read_prg_window; exact HA | ].
  split; [ exact Hk | ].
  rewrite !Mapper0_read_prg_window by lia.
  split; f_equal; rewrite !land_0x3FFF in *.
  - change 0x8000 with (2 * 0x4000).
    rewrite Z.add_comm, Z_mod_plus_full. apply Z.mod_mod. lia.
  - change 0xC000 with (3 * 0x4000).
    rewrite Z.add_comm, Z_mod_plus_full. apply Z.mod_mod. lia.
Qed.

(** The theorem at address 0xC005 of the two-bank mapper. *)
Lemma Mapper0_read_witness :
  Mapper0.read two_bank_mapper 0xC005 = at_index (Mapper0.prg_rom two_bank_mapper) (Z.land 0xC005 0x3FFF)
  /\ 0 <= Z.land 0xC005 0x3FFF < 0x4000
  /\ Mapper0.read two_bank_mapper (0x8000 + Z.land 0xC005 0x3FFF) = Mapper0.read two_bank_mapper 0xC005
  /\ Mapper0.read two_bank_mapper (0xC000 + Z.land 0xC005 0x3FFF) = Mapper0.read two_bank_mapper 0xC005.
Proof. apply (Mapper0_read_indexes_first_bank two_bank_mapper 0xC005). lia. Defined.

(** C5 as stated fails: with a 32 KiB PRG ROM the read at 0xC000 returns
    the first byte of the first bank (0x11), not the first byte of the
    second bank (0x22, at index 0x4000 of the vector). *)
Lemma Mapper0_read_never_reaches_second_bank :
  Z.of_nat (length (Mapper0.prg_rom two_bank_mapper)) = 0x8000
  /\ Mapper0.read two_bank_mapper 0xC000 = Ok 0x11
  /\ at_index (Mapper0.prg_rom two_bank_mapper) 0x4000 = Ok 0x22
  /\ Mapper0.read two_bank_mapper 0xC000 <> at_index (Mapper0.prg_rom two_bank_mapper) 0x4000.
Proof.
  split; [ vm_compute; reflexivity | ].
  split; [ vm_compute; reflexivity | ].
  split; [ vm_compute; reflexivity | ].
  vm_compute. discriminate.
Qed.

(** ** CPU memory bus *)

(** What a read of the RAM window returns on a freshly constructed bus:
    the byte the storage held. *)
Lemma fresh_bus_reads_storage (storage : list Z) (A : Z) :
  length storage = Z.to_nat 2048 -> 0x0000 <= A <= 0x1FFF ->
  CPUMemoryBus.read (CPUMemoryBus.construct storage) A
  = at_index storage (Z.land A 0x07FF)
  /\ exists b, storage !! Z.to_nat (Z.land A 0x07FF) = Some b
             /\ CPUMemoryBus.read (CPUMemoryBus.construct storage) A = Ok b.
Proof.
  intros Hlen HA.
  assert (Hread : CPUMemoryBus.read (CPUMemoryBus.construct storage) A
                  = at_index storage (Z.land A 0x07FF)).
  { unfold CPUMemoryBus.read. rewrite u16_small by (unfold is_u16; lia).
    rewrite in_range by lia. reflexivity. }
  split; [ exact Hread | ].
  assert (Hk : 0 <= Z.land A 0x07FF < 0x0800).
  { rewrite land_0x07FF. apply Z.mod_pos_bound. lia. }
  destruct (lookup_lt_is_Some_2 storage (Z.to_nat (Z.land A 0x07FF))) as [b Hb]; [ lia | ].
  exists b. split; [ exact Hb | ].
  rewrite Hread. apply at_index_lookup; [ lia | exact Hb ].
Qed.

(** C6 fails on the code: the constructor does not initialise [ram].  On
    storage that held 0xAA bytes the fresh bus reads 0xAA at address 0, and
    at each of its mirrors, where the claim says 0. *)
Theorem fresh_bus_ram_is_not_zeroed :
  let bus := CPUMemoryBus.construct (replicate (Z.to_nat 2048) 0xAA) in
  CPUMemoryBus.read bus 0x0000 = Ok 0xAA
  /\ CPUMemoryBus.read bus 0x0800 = Ok 0xAA
  /\ CPUMemoryBus.read bus 0x1FFF = Ok 0xAA
  /\ CPUMemoryBus.read bus 0x0000 <> Ok 0.
Proof.
  cbv zeta. repeat split; try (vm_compute; reflexivity).
  vm_compute. discriminate.
Qed.

(** ** Cartridge construction *)

Lemma strncmp_magic (b0 b1 b2 b3 : Z) :
  (Cartridge.strncmp [b0; b1; b2; b3] Cartridge.MAGIC 4 =? 0)
  = bool_decide ([b0; b1; b2; b3] = [0x4E; 0x45; 0x53; 0x1A]).
Proof.
  unfold Cartridge.MAGIC. cbn [Cartridge.strncmp hd tl].
  destruct (b0 =? 0x4E) eqn:E0.
  2:{ apply Z.eqb_neq in E0. rewrite bool_decide_eq_false_2 by congruence.
      apply Z.eqb_neq. lia. }
  apply Z.eqb_eq in E0. subst b0. cbn [Z.eqb Pos.eqb].
  destruct (b1 =? 0x45) eqn:E1.
  2:{ apply Z.eqb_neq in E1. rewrite bool_decide_eq_false_2 by congruence.
      apply Z.eqb_neq. lia. }
  apply Z.eqb_eq in E1. subst b1. cbn [Z.eqb Pos.eqb].
  destruct (b2 =? 0x53) eqn:E2.
  2:{ apply Z.eqb_neq in E2. rewrite bool_decide_eq_false_2 by congruence.
      apply Z.eqb_neq. lia. }
  apply Z.eqb_eq in E2. subst b2. cbn [Z.eqb Pos.eqb].
  destruct (b3 =? 0x1A) eqn:E3.
  2:{ apply Z.eqb_neq in E3. rewrite bool_decide_eq_false_2 by congruence.
      apply Z.eqb_neq. lia. }
  apply Z.eqb_eq in E3. subst b3. cbn [Z.eqb Pos.eqb].
  rewrite bool_decide_eq_true_2 by reflexivity. reflexivity.
Qed.

Lemma read_vector_full (stream : list Z) (n : Z) :
  (Z.to_nat n <= length stream)%nat ->
  Cartridge.read_vector stream n = take (Z.to_nat n) stream.
Proof.
  intros H. unfold Cartridge.read_vector.
  rewrite length_take, Nat.min_l by exact H.
  rewrite Nat.sub_diag. cbn. apply app_nil_r.
Qed.

Lemma mapper_number_of_bytes (f6 f7 : Z) :
  is_u8 f6 ->
  u8 (Z.lor (u8 (Z.shiftr f6 4)) (Z.land f7 0xF0))
  = Z.lor (Z.shiftr f6 4) (Z.land f7 0xF0).
Proof.
  unfold is_u8. intros H6.
  assert (H4 : u8 (Z.shiftr f6 4) = Z.shiftr f6 4).
  { apply u8_small. unfold is_u8. rewrite Z.shiftr_div_pow2 by lia.
    change (2 ^ 4) with 16.
    split; [ apply Z.div_pos; lia | ].
    assert (f6 / 16 < 16) by (apply Z.div_lt_upper_bound; lia). lia. }
  rewrite H4. unfold u8. change 256 with (2 ^ 8).
  rewrite <- Z.land_ones by lia.
  rewrite Z.land_lor_distr_l.
  rewrite Z.land_ones by lia. change (2 ^ 8) with 256.
  fold (u8 (Z.shiftr f6 4)). rewrite H4.
  rewrite <- Z.land_assoc. reflexivity.
Qed.

Lemma byte_at_range (bytes : list Z) (i : nat) :
  Forall is_u8 bytes -> is_u8 (Cartridge.byte_at bytes i).
Proof.
  intros H. unfold Cartridge.byte_at.
  destruct (bytes !! i) eqn:E; cbn; [ | unfold is_u8; lia ].
  eapply Forall_lookup_1; eauto.
Qed.

(** The constructor's guards are those of the specification, in the same
    order, and its success path builds the mapper the specification asks
    for; what differs is how a failure ends: the constructor returns, or the
    process is terminated. *)
Lemma construct_guards_follow_spec (bytes : list Z) :
  Forall is_u8 bytes ->
  let header := Cartridge.read_header bytes in
  let file_size := Z.of_nat (length bytes) in
  match spec_load bytes with
  | inl MalformedROM =>
      Cartridge.construct (Cartridge.Readable bytes)
      = Cartridge.Returned [Cartridge.mailformed_rom file_size]
          (Cartridge.make None Mapper0.default)
  | inl InvalidMagic =>
      Cartridge.construct (Cartridge.Readable bytes)
      = Cartridge.Returned [Cartridge.invalid_header_title (Cartridge.title header)]
          (Cartridge.make None Mapper0.default)
  | inl UnsupportedMapper =>
      Cartridge.construct (Cartridge.Readable bytes)
      = Cartridge.Terminated [Cartridge.unsupported_mapper (Cartridge.mapper_number header)]
  | inr mapper =>
      Cartridge.construct (Cartridge.Readable bytes)
      = Cartridge.Returned []
          (Cartridge.make (Some (Cartridge.decode_fields header)) mapper)
  end.
Proof.
  intros Hbytes header file_size. subst header.
  unfold spec_load, Cartridge.construct, Cartridge.HEADER_SIZE.
  fold file_size.
  destruct (file_size <? 16) eqn:Esize; [ reflexivity | ].
  apply Z.ltb_ge in Esize.
  assert (Hlen : (16 <= length bytes)%nat) by (unfold file_size in Esize; lia).
  assert (Htitle : Cartridge.title (Cartridge.read_header bytes) = take 4 bytes).
  { clear - Hlen. do 4 (destruct bytes as [ | ? bytes ]; [ cbn in Hlen; lia | ]).
    reflexivity. }
  assert (Hmagic : (Cartridge.strncmp (Cartridge.title (Cartridge.read_header bytes))
                      Cartridge.MAGIC 4 =? 0)
                   = bool_decide (take 4 bytes = [0x4E; 0x45; 0x53; 0x1A])).
  { rewrite <- Htitle. apply strncmp_magic. }
  rewrite Hmagic.
  destruct (bool_decide (take 4 bytes = [0x4E; 0x45; 0x53; 0x1A])); cbn [negb];
    [ | reflexivity ].
  unfold Cartridge.prg_rom_size, Cartridge.chr_rom_size.
  cbn [Cartridge.read_header Cartridge.prg_banks Cartridge.chr_banks].
  set (prg := 16 * 1024 * Cartridge.byte_at bytes 4).
  set (chr := 8 * 1024 * Cartridge.byte_at bytes 5).
  destruct (16 + prg + chr =? file_size) eqn:Esum; cbn [negb]; [ | reflexivity ].
  apply Z.eqb_eq in Esum.
  pose proof (byte_at_range bytes 4 Hbytes) as H4.
  pose proof (byte_at_range bytes 5 Hbytes) as H5.
  pose proof (byte_at_range bytes 6 Hbytes) as H6.
  unfold is_u8 in H4, H5.
  unfold Cartridge.mapper_number.
  cbn [Cartridge.read_header Cartridge.flags6 Cartridge.flags7].
  rewrite mapper_number_of_bytes by exact H6.
  destruct (Z.lor (Z.shiftr (Cartridge.byte_at bytes 6) 4)
                  (Z.land (Cartridge.byte_at bytes 7) 0xF0) =? 0);
    cbn [negb]; [ | reflexivity ].
  rewrite !read_vector_full.
  - rewrite drop_drop. reflexivity.
  - rewrite !length_drop. unfold file_size in Esum. lia.
  - rewrite length_drop. unfold file_size in Esum. lia.
Qed.

(** Whatever the bytes of a readable file, the constructor raises nothing:
    the caller is handed an object, or the process is terminated. *)
Lemma construct_never_throws (bytes : list Z) :
  observed (Cartridge.construct (Cartridge.Readable bytes)) <> sees_filesystem_error.
Proof.
  unfold Cartridge.construct.
  repeat match goal with
         | |- context [ if ?c then _ else _ ] => destruct c
         end; cbn; discriminate.
Qed.

(** C3 fails on the code.  An empty file and a file of sixteen zero bytes
    are bad input (MalformedROM and InvalidMagic in the specification), yet
    the constructor returns and the caller holds a cartridge whose mapper is
    empty; a header that names mapper 1 (UnsupportedMapper) ends in
    [std::terminate], which reports nothing to the caller either. *)
Theorem construction_errors_do_not_reach_the_caller :
  (spec_load [] = inl MalformedROM
   /\ Cartridge.construct (Cartridge.Readable [])
      = Cartridge.Returned [Cartridge.mailformed_rom 0]
          (Cartridge.make None Mapper0.default)
   /\ observed (Cartridge.construct (Cartridge.Readable []))
      = sees_object (Cartridge.make None Mapper0.default))
  /\ (spec_load (replicate 16 0) = inl InvalidMagic
      /\ Cartridge.construct (Cartridge.Readable (replicate 16 0))
         = Cartridge.Returned [Cartridge.invalid_header_title [0; 0; 0; 0]]
             (Cartridge.make None Mapper0.default)
      /\ observed (Cartridge.construct (Cartridge.Readable (replicate 16 0)))
         = sees_object (Cartridge.make None Mapper0.default))
  /\ (spec_load mapper1_header = inl UnsupportedMapper
      /\ Cartridge.construct (Cartridge.Readable mapper1_header)
         = Cartridge.Terminated [Cartridge.unsupported_mapper 1]
      /\ observed (Cartridge.construct (Cartridge.Readable mapper1_header))
         = sees_nothing).
Proof. repeat split; vm_compute; reflexivity. Qed.

(** ** Facts about bytes, by enumeration *)

Lemma in_all_bytes (z : Z) : is_u8 z -> In z all_bytes.
Proof.
  unfold is_u8, all_bytes. intros H.
  apply in_map_iff. exists (Z.to_nat z). split; [ lia | ].
  apply in_seq. lia.
Qed.

(** A decidable property checked on the 256 bytes holds of every byte. *)
Lemma for_all_bytes (P : Z -> bool) :
  forallb P all_bytes = true -> forall z, is_u8 z -> P z = true.
Proof.
  intros H z Hz. rewrite forallb_forall in H. apply H, in_all_bytes, Hz.
Qed.

Lemma lor_page_one (z : Z) : is_u8 z -> Z.lor 0x0100 z = 0x0100 + z.
Proof.
  intros Hz. apply Z.eqb_eq.
  apply (for_all_bytes (fun b => Z.lor 0x0100 b =? 0x0100 + b)); [ | exact Hz ].
  vm_compute. reflexivity.
Qed.

(** ** Running the state transformers *)

Lemma bind_gets {A B : Type} (proj : CPU.t -> A) (k : A -> CPU.M B) (s : CPU.t) :
  CPU.bind (CPU.gets proj) k s = k (proj s) s.
Proof. reflexivity. Qed.

Lemma bind_modify {B : Type} (upd : CPU.t -> CPU.t) (k : unit -> CPU.M B) (s : CPU.t) :
  CPU.bind (CPU.modify upd) k s = k tt (upd s).
Proof. reflexivity. Qed.

Lemma bind_ret {A B : Type} (v : A) (k : A -> CPU.M B) (s : CPU.t) :
  CPU.bind (CPU.ret v) k s = k v s.
Proof. reflexivity. Qed.

Lemma bind_bind {A B C : Type} (m : CPU.M A) (k : A -> CPU.M B) (h : B -> CPU.M C)
    (s : CPU.t) :
  CPU.bind (CPU.bind m k) h s = CPU.bind m (fun v => CPU.bind (k v) h) s.
Proof. unfold CPU.bind. destruct (m s) as [ [v s'] | f ]; reflexivity. Qed.

Lemma bind_bus_read {B : Type} (address v : Z) (k : Z -> CPU.M B) (s : CPU.t) :
  CPUMemoryBus.read (CPU.bus s) address = Ok v ->
  CPU.bind (CPU.bus_read address) k s = k v s.
Proof. intros H. unfold CPU.bind, CPU.bus_read. rewrite H. reflexivity. Qed.

Lemma bus_read_run (address v : Z) (s : CPU.t) :
  CPUMemoryBus.read (CPU.bus s) address = Ok v ->
  CPU.bus_read address s = Ok (v, s).
Proof. intros H. unfold CPU.bus_read. rewrite H. reflexivity. Qed.

Ltac fields :=
  cbn [CPU.nmi CPU.a CPU.x CPU.y CPU.p CPU.sp CPU.pc CPU.addr_mode CPU.operand_addr
       CPU.curr_cycle CPU.total_cycles CPU.page_crossed CPU.bus
       CPU.with_a CPU.with_x CPU.with_y CPU.with_p CPU.with_sp CPU.with_pc
       CPU.with_addr_mode CPU.with_operand_addr CPU.with_curr_cycle
       CPU.with_total_cycles CPU.with_page_crossed CPU.with_bus] in *.

Ltac assignments :=
  unfold CPU.assign_a, CPU.assign_x, CPU.assign_y, CPU.assign_p, CPU.assign_sp,
    CPU.assign_pc, CPU.assign_addr_mode, CPU.assign_operand_addr,
    CPU.assign_curr_cycle, CPU.assign_total_cycles, CPU.assign_page_crossed.

Ltac run :=
  assignments;
  repeat (rewrite ?bind_bind, ?bind_gets, ?bind_modify, ?bind_ret; fields).

(** ** The stack *)

Lemma ram_write_in_page_one (b : CPUMemoryBus.t) (address data : Z) :
  length (CPUMemoryBus.ram b) = Z.to_nat 2048 ->
  0x0100 <= address <= 0x01FF ->
  CPUMemoryBus.write b address data
  = Ok (CPUMemoryBus.make (<[Z.to_nat address := u8 data]> (CPUMemoryBus.ram b))
                          (CPUMemoryBus.cartridge b)).
Proof.
  intros Hlen Ha. unfold CPUMemoryBus.write.
  rewrite u16_small by (unfold is_u16; lia).
  rewrite in_range by lia.
  rewrite land_0x07FF, Z.mod_small by lia.
  unfold assign_index. rewrite Hlen.
  destruct (0 <=? address) eqn:E1; [ | apply Z.leb_gt in E1; lia ].
  destruct (address <? Z.of_nat (Z.to_nat 2048)) eqn:E2;
    [ reflexivity | apply Z.ltb_ge in E2; lia ].
Qed.

Lemma ram_read_in_page_one (b : CPUMemoryBus.t) (address : Z) :
  length (CPUMemoryBus.ram b) = Z.to_nat 2048 ->
  0x0100 <= address <= 0x01FF ->
  exists v, CPUMemoryBus.ram b !! Z.to_nat address = Some v
            /\ CPUMemoryBus.read b address = Ok v.
Proof.
  intros Hlen Ha.
  destruct (lookup_lt_is_Some_2 (CPUMemoryBus.ram b) (Z.to_nat address)) as [v Hv];
    [ lia | ].
  exists v. split; [ exact Hv | ].
  unfold CPUMemoryBus.read.
  rewrite u16_small by (unfold is_u16; lia).
  rewrite in_range by lia.
  rewrite land_0x07FF, Z.mod_small by lia.
  apply at_index_lookup; [ lia | exact Hv ].
Qed.

(** C10: for every value of SP, [push_stack] is one bus write at
    0x0100 | SP, an address in 0x0100-0x01FF; it changes that RAM cell and
    leaves every other cell and the cartridge as they were.  [pop_stack] is
    one bus read at 0x0100 | (SP + 1 mod 256), an address in 0x0100-0x01FF,
    and writes nothing.  SP wraps modulo 256: a push at 0x00 leaves 0xFF, a
    pop at 0xFF leaves 0x00. *)
Theorem stack_stays_in_page_one (s : CPU.t) (data : Z) :
  is_u8 (CPU.sp s) ->
  length (CPUMemoryBus.ram (CPU.bus s)) = Z.to_nat 2048 ->
  let pushed_at := Z.lor CPU.STACK_BASE_ADDRESS (CPU.sp s) in
  let sp_after_push := if CPU.sp s =? 0x00 then 0xFF else CPU.sp s - 1 in
  let sp_after_pop := if CPU.sp s =? 0xFF then 0x00 else CPU.sp s + 1 in
  let popped_at := Z.lor CPU.STACK_BASE_ADDRESS sp_after_pop in
  (0x0100 <= pushed_at <= 0x01FF
   /\ CPU.push_stack data s = CPU.bus_write pushed_at data (CPU.with_sp sp_after_push s)
   /\ exists s',
       CPU.push_stack data s = Ok (tt, s')
       /\ CPU.sp s' = sp_after_push
       /\ CPUMemoryBus.ram (CPU.bus s')
          = <[Z.to_nat pushed_at := u8 data]> (CPUMemoryBus.ram (CPU.bus s))
       /\ (forall i : nat, i <> Z.to_nat pushed_at ->
             CPUMemoryBus.ram (CPU.bus s') !! i = CPUMemoryBus.ram (CPU.bus s) !! i)
       /\ CPUMemoryBus.cartridge (CPU.bus s') = CPUMemoryBus.cartridge (CPU.bus s))
  /\ (0x0100 <= popped_at <= 0x01FF
      /\ CPU.pop_stack s = CPU.bus_read popped_at (CPU.with_sp sp_after_pop s)
      /\ exists v,
          CPUMemoryBus.ram (CPU.bus s) !! Z.to_nat popped_at = Some v
          /\ CPU.pop_stack s = Ok (v, CPU.with_sp sp_after_pop s)).
Proof.
  intros Hsp Hlen pushed_at sp_after_push sp_after_pop popped_at.
  assert (Hpush : pushed_at = 0x0100 + CPU.sp s).
  { unfold pushed_at, CPU.STACK_BASE_ADDRESS. apply lor_page_one, Hsp. }
  assert (Hsp' : is_u8 sp_after_pop).
  { unfold sp_after_pop, is_u8 in *. destruct (CPU.sp s =? 0xFF) eqn:E; [ lia | ].
    apply Z.eqb_neq in E. lia. }
  assert (Hpop : popped_at = 0x0100 + sp_after_pop).
  { unfold popped_at, CPU.STACK_BASE_ADDRESS. apply lor_page_one, Hsp'. }
  assert (Hdec : u8 (CPU.sp s - 1) = sp_after_push).
  { unfold sp_after_push, u8, is_u8 in *. destruct (CPU.sp s =? 0x00) eqn:E.
    - apply Z.eqb_eq in E. rewrite E. reflexivity.
    - apply Z.eqb_neq in E. apply Z.mod_small. lia. }
  assert (Hinc : u8 (CPU.sp s + 1) = sp_after_pop).
  { unfold sp_after_pop, u8, is_u8 in *. destruct (CPU.sp s =? 0xFF) eqn:E.
    - apply Z.eqb_eq in E. rewrite E. reflexivity.
    - apply Z.eqb_neq in E. apply Z.mod_small. lia. }
  unfold is_u8 in *.
  assert (Hpush_run : CPU.push_stack data s
                      = CPU.bus_write pushed_at data (CPU.with_sp sp_after_push s)).
  { unfold CPU.push_stack. run. rewrite Hdec. reflexivity. }
  assert (Hpop_run : CPU.pop_stack s
                     = CPU.bus_read popped_at (CPU.with_sp sp_after_pop s)).
  { unfold CPU.pop_stack. run. rewrite Hinc. reflexivity. }
  split.
  - split; [ lia | ]. split; [ exact Hpush_run | ].
    rewrite Hpush_run. unfold CPU.bus_write. fields.
    rewrite ram_write_in_page_one by (try exact Hlen; lia).
    eexists. split; [ reflexivity | ]. fields. cbn [CPUMemoryBus.ram CPUMemoryBus.cartridge].
    split; [ reflexivity | ]. split; [ reflexivity | ].
    split; [ | reflexivity ].
    intros i Hi. apply list_lookup_insert_ne. congruence.
  - split; [ lia | ]. split; [ exact Hpop_run | ].
    destruct (ram_read_in_page_one (CPU.bus s) popped_at Hlen) as [v [Hv Hread]]; [ lia | ].
    exists v. split; [ exact Hv | ].
    rewrite Hpop_run. apply bus_read_run. fields. exact Hread.
Qed.

(** The theorem at the state after reset (SP = 0xFD), pushing 0x42. *)
Lemma stack_witness :
  let s := power_on zeroed_ram [0x48] in
  let pushed_at := Z.lor CPU.STACK_BASE_ADDRESS (CPU.sp s) in
  let sp_after_push := if CPU.sp s =? 0x00 then 0xFF else CPU.sp s - 1 in
  let sp_after_pop := if CPU.sp s =? 0xFF then 0x00 else CPU.sp s + 1 in
  let popped_at := Z.lor CPU.STACK_BASE_ADDRESS sp_after_pop in
  (0x0100 <= pushed_at <= 0x01FF
   /\ CPU.push_stack 0x42 s = CPU.bus_write pushed_at 0x42 (CPU.with_sp sp_after_push s)
   /\ exists s',
       CPU.push_stack 0x42 s = Ok (tt, s')
       /\ CPU.sp s' = sp_after_push
       /\ CPUMemoryBus.ram (CPU.bus s')
          = <[Z.to_nat pushed_at := u8 0x42]> (CPUMemoryBus.ram (CPU.bus s))
       /\ (forall i : nat, i <> Z.to_nat pushed_at ->
             CPUMemoryBus.ram (CPU.bus s') !! i = CPUMemoryBus.ram (CPU.bus s) !! i)
       /\ CPUMemoryBus.cartridge (CPU.bus s') = CPUMemoryBus.cartridge (CPU.bus s))
  /\ (0x0100 <= popped_at <= 0x01FF
      /\ CPU.pop_stack s = CPU.bus_read popped_at (CPU.with_sp sp_after_pop s)
      /\ exists v,
          CPUMemoryBus.ram (CPU.bus s) !! Z.to_nat popped_at = Some v
          /\ CPU.pop_stack s = Ok (v, CPU.with_sp sp_after_pop s)).
Proof.
  apply (stack_stays_in_page_one (power_on zeroed_ram [0x48]) 0x42).
  - vm_compute. split; discriminate.
  - vm_compute. reflexivity.
Defined.

(** ** The decode table *)

Lemma INSTRUCTIONS_length : length CPU.INSTRUCTIONS = 255%nat.
Proof. reflexivity. Qed.

(** Opcodes 0x00-0xFE index a slot of the table. *)
Lemma instruction_at_in_range (opcode : Z) (s : CPU.t) :
  0x00 <= opcode <= 0xFE ->
  exists instruction,
    CPU.INSTRUCTIONS !! Z.to_nat opcode = Some instruction
    /\ CPU.instruction_at opcode s = Ok (instruction, s).
Proof.
  intros H.
  destruct (lookup_lt_is_Some_2 CPU.INSTRUCTIONS (Z.to_nat opcode)) as [i Hi].
  { rewrite INSTRUCTIONS_length. lia. }
  exists i. split; [ exact Hi | ].
  unfold CPU.instruction_at. rewrite Hi. reflexivity.
Qed.

(** Opcode 0xFF indexes past the last slot, in every state. *)
Lemma step_on_opcode_0xFF (s : CPU.t) :
  CPUMemoryBus.read (CPU.bus s) (CPU.pc s) = Ok 0xFF ->
  CPU.step s = Undefined TableOutOfRange.
Proof.
  intros H. unfold CPU.step. run.
  rewrite bind_bus_read with (v := 0xFF) by (fields; exact H).
  reflexivity.
Qed.

(** C2 fails on the code: the table is declared [INSTRUCTIONS[0xFF]] and has
    255 slots, 0x00-0xFE.  A ROM whose first instruction byte is 0xFF makes
    [step()] index slot 255, outside the array. *)
Theorem opcode_0xFF_indexes_outside_the_table :
  Z.of_nat (length CPU.INSTRUCTIONS) = 0xFF
  /\ CPU.INSTRUCTIONS !! Z.to_nat 0xFF = None
  /\ CPUMemoryBus.read (CPU.bus (power_on zeroed_ram [0xFF])) (CPU.pc (power_on zeroed_ram [0xFF]))
     = Ok 0xFF
  /\ CPU.step (power_on zeroed_ram [0xFF]) = Undefined TableOutOfRange.
Proof.
  split; [ reflexivity | ].
  split; [ reflexivity | ].
  split; [ vm_compute; reflexivity | ].
  apply step_on_opcode_0xFF. vm_compute. reflexivity.
Qed.

(** ** The scenarios of the specification, run on the embedding

    Code at 0x8000, reset vector 0x8000, IRQ vector 0x9000, RAM zeroed. *)

(** LDA #$42 then STA $10. *)
Example scenario_lda_sta :
  let s := state_after CPU.step (state_after CPU.step
             (power_on zeroed_ram [0xA9; 0x42; 0x85; 0x10])) in
  CPU.a s = 0x42
  /\ Z.testbit (CPU.p s) 1 = false
  /\ Z.testbit (CPU.p s) 7 = false
  /\ CPUMemoryBus.read (CPU.bus s) 0x0010 = Ok 0x42
  /\ CPU.total_cycles s = 12.
Proof. cbv zeta. repeat split; vm_compute; reflexivity. Qed.

(** LDA #$80 then ASL A. *)
Example scenario_asl :
  let s := state_after CPU.step (state_after CPU.step
             (power_on zeroed_ram [0xA9; 0x80; 0x0A])) in
  CPU.a s = 0x00
  /\ Z.testbit (CPU.p s) 0 = true
  /\ Z.testbit (CPU.p s) 1 = true
  /\ Z.testbit (CPU.p s) 7 = false.
Proof. cbv zeta. repeat split; vm_compute; reflexivity. Qed.

(** LDA #$50 then ADC #$50, carry clear. *)
Example scenario_adc :
  let s := state_after CPU.step (state_after CPU.step
             (power_on zeroed_ram [0xA9; 0x50; 0x69; 0x50])) in
  CPU.a s = 0xA0
  /\ Z.testbit (CPU.p s) 0 = false
  /\ Z.testbit (CPU.p s) 6 = true
  /\ Z.testbit (CPU.p s) 7 = true
  /\ Z.testbit (CPU.p s) 1 = false.
Proof. cbv zeta. repeat split; vm_compute; reflexivity. Qed.

(** LDY #$01 then LDA $10FF,Y: 4 cycles and 1 for the page crossed. *)
Example scenario_page_cross :
  let s := state_after CPU.step (power_on zeroed_ram [0xA0; 0x01; 0xB9; 0xFF; 0x10]) in
  observe CPU.operand_addr (CPU.step s) = Ok (5, 0x1100).
Proof. vm_compute. reflexivity. Qed.

(** BRK with P = 0x24 at 0x8000. *)
Example scenario_brk :
  let s := state_after CPU.step (power_on zeroed_ram [0x00]) in
  CPUMemoryBus.read (CPU.bus s) 0x01FD = Ok 0x80
  /\ CPUMemoryBus.read (CPU.bus s) 0x01FC = Ok 0x02
  /\ CPUMemoryBus.read (CPU.bus s) 0x01FB = Ok 0x34
  /\ CPU.pc s = 0x9000
  /\ Z.testbit (CPU.p s) 2 = true
  /\ Z.testbit (CPU.p s) 4 = false.
Proof. cbv zeta. repeat split; vm_compute; reflexivity. Qed.

(** ** ADC and SBC *)

Lemma agrees_bind {A B : Type} (m : CPU.M A) (k : A -> CPU.M B) :
  agrees m -> (forall v, agrees (k v)) -> agrees (CPU.bind m k).
Proof.
  intros Hm Hk s s' Hs.
  destruct (Hm s s' Hs) as (v & t & t' & E & E' & Ht).
  destruct (Hk v t t' Ht) as (w & r & r' & F & F' & Hr).
  exists w, r, r'. unfold CPU.bind. rewrite E, E'. auto.
Qed.

Lemma agrees_gets_a : agrees (CPU.gets CPU.a).
Proof.
  intros s s' [Ha Hp]. exists (CPU.a s), s, s'.
  unfold CPU.gets. rewrite Ha. repeat split; assumption.
Qed.

Lemma agrees_gets_p : agrees (CPU.gets CPU.p).
Proof.
  intros s s' [Ha Hp]. exists (CPU.p s), s, s'.
  unfold CPU.gets. rewrite Hp. repeat split; assumption.
Qed.

Lemma agrees_assign_a (v : Z) : agrees (CPU.assign_a v).
Proof.
  intros s s' [Ha Hp]. eexists tt, _, _.
  split; [ reflexivity | ]. split; [ reflexivity | ].
  split; fields; [ reflexivity | exact Hp ].
Qed.

Lemma agrees_assign_p (v : Z) : agrees (CPU.assign_p v).
Proof.
  intros s s' [Ha Hp]. eexists tt, _, _.
  split; [ reflexivity | ]. split; [ reflexivity | ].
  split; fields; [ exact Ha | reflexivity ].
Qed.

Lemma agrees_set_flag (flag value : Z) : agrees (CPU.set_flag flag value).
Proof.
  unfold CPU.set_flag. apply agrees_bind; [ apply agrees_gets_p | ].
  intros p0. destruct (negb (u8 value =? 0)); apply agrees_assign_p.
Qed.

Lemma agrees_set_nz_flags (data : Z) : agrees (CPU.set_nz_flags data).
Proof.
  unfold CPU.set_nz_flags. cbv zeta.
  apply agrees_bind; [ apply agrees_set_flag | ].
  intros _. apply agrees_set_flag.
Qed.

Lemma agrees_adc_ (operand : Z) : agrees (CPU.adc_ operand).
Proof.
  unfold CPU.adc_. cbv zeta.
  apply agrees_bind; [ apply agrees_gets_a | intros a0 ].
  apply agrees_bind; [ apply agrees_gets_p | intros p0 ].
  apply agrees_bind; [ apply agrees_set_flag | intros _ ].
  apply agrees_bind; [ apply agrees_set_flag | intros _ ].
  apply agrees_bind; [ apply agrees_set_nz_flags | intros _ ].
  apply agrees_assign_a.
Qed.

(** C9: from two states with the same accumulator and status byte, one
    whose operand is [x] and one whose operand is [x XOR 0xFF], SBC on the
    first and ADC on the second both complete and leave the same accumulator
    and the same status byte, hence the same C, Z, V and N. *)
Theorem sbc_is_adc_of_inverted_operand (s1 s2 : CPU.t) (operand : Z) :
  CPU.a s1 = CPU.a s2 ->
  CPU.p s1 = CPU.p s2 ->
  CPU.get_operand s1 = Ok (operand, s1) ->
  CPU.get_operand s2 = Ok (Z.lxor operand 0xFF, s2) ->
  exists t1 t2,
    CPU.sbc s1 = Ok (tt, t1)
    /\ CPU.adc s2 = Ok (tt, t2)
    /\ CPU.a t1 = CPU.a t2
    /\ CPU.p t1 = CPU.p t2.
Proof.
  intros Ha Hp H1 H2.
  destruct (agrees_adc_ (Z.lxor operand 0xFF) s1 s2 (conj Ha Hp))
    as ([] & t1 & t2 & E1 & E2 & Ha' & Hp').
  exists t1, t2.
  unfold CPU.sbc, CPU.adc, CPU.bind. rewrite H1, H2.
  repeat split; assumption.
Qed.

(** The theorem at [sbc_adc_machine 0x8001] and [sbc_adc_machine 0x8003],
    whose operands are 0x30 and 0xCF. *)
Lemma sbc_adc_witness :
  exists t1 t2,
    CPU.sbc (sbc_adc_machine 0x8001) = Ok (tt, t1)
    /\ CPU.adc (sbc_adc_machine 0x8003) = Ok (tt, t2)
    /\ CPU.a t1 = CPU.a t2
    /\ CPU.p t1 = CPU.p t2.
Proof.
  apply (sbc_is_adc_of_inverted_operand
           (sbc_adc_machine 0x8001) (sbc_adc_machine 0x8003) 0x30).
  - vm_compute. reflexivity.
  - vm_compute. reflexivity.
  - vm_compute. reflexivity.
  - vm_compute. reflexivity.
Defined.

(** ** Pointer fetches and the page wrap *)

(** A decidable property checked on the 65536 words holds of every word. *)
Lemma for_all_words (P : Z -> bool) :
  forallb (fun h => forallb (fun l => P (256 * h + l)) all_bytes) all_bytes = true ->
  forall z, is_u16 z -> P z = true.
Proof.
  intros H z Hz. unfold is_u16 in Hz.
  rewrite forallb_forall in H.
  assert (Hh : is_u8 (z / 256)).
  { unfold is_u8. split; [ apply Z.div_pos; lia | ].
    assert (z / 256 < 256) by (apply Z.div_lt_upper_bound; lia). lia. }
  assert (Hl : is_u8 (z mod 256)).
  { unfold is_u8. pose proof (Z.mod_pos_bound z 256). lia. }
  specialize (H (z / 256) (in_all_bytes _ Hh)).
  rewrite forallb_forall in H.
  specialize (H (z mod 256) (in_all_bytes _ Hl)).
  rewrite <- Z.div_mod in H by lia. exact H.
Qed.

(** A pointer whose low byte is 0xFF and its successor are on two pages. *)
Lemma last_byte_of_page_crosses (ptr : Z) :
  is_u16 ptr -> Z.land ptr 0xFF = 0xFF -> CPU.is_page_crossed ptr (ptr + 1) = true.
Proof.
  intros Hptr Hlow.
  pose proof (for_all_words
                (fun z => implb (Z.land z 0xFF =? 0xFF) (CPU.is_page_crossed z (z + 1))))
    as H.
  specialize (H ltac:(vm_compute; reflexivity) ptr Hptr). cbv beta in H.
  rewrite Hlow in H. exact H.
Qed.

(** The base of the page is 0xFF below such a pointer. *)
Lemma page_base_of_last_byte (ptr : Z) :
  is_u16 ptr -> Z.land ptr 0xFF = 0xFF -> Z.land ptr 0xFF00 = ptr - 0xFF.
Proof.
  intros Hptr Hlow.
  pose proof (for_all_words
                (fun z => implb (Z.land z 0xFF =? 0xFF) (Z.land z 0xFF00 =? z - 0xFF)))
    as H.
  specialize (H ltac:(vm_compute; reflexivity) ptr Hptr). cbv beta in H.
  rewrite Hlow in H. apply Z.eqb_eq. exact H.
Qed.

(** [read_wrapped_page] on a pointer at xxFF: the low byte comes from xxFF,
    the high byte from xx00; the byte at (xx+1)00 is not read. *)
Lemma read_wrapped_page_at_page_end (s : CPU.t) (address ptr lo hi : Z) :
  u16 address = ptr ->
  Z.land ptr 0xFF = 0xFF ->
  CPUMemoryBus.read (CPU.bus s) ptr = Ok lo ->
  CPUMemoryBus.read (CPU.bus s) (Z.land ptr 0xFF00) = Ok hi ->
  CPU.read_wrapped_page address s = Ok (u16 (Z.lor (u16 lo) (Z.shiftl hi 8)), s).
Proof.
  intros Hptr Hlow Hlo Hhi.
  unfold CPU.read_wrapped_page. cbv zeta. rewrite Hptr.
  rewrite bind_bus_read with (v := lo) by exact Hlo.
  rewrite last_byte_of_page_crosses by (try exact Hlow; rewrite <- Hptr; apply u16_range).
  rewrite bind_bus_read with (v := hi) by exact Hhi.
  reflexivity.
Qed.

(** C7, as amended: in the INDIRECT, X_INDIRECT and INDIRECT_Y resolutions a
    pointer whose low byte sits at xxFF has its high byte fetched from xx00
    of the same page (the byte at (xx+1)00 is not read); in particular, with
    RAM holding 0x40 at 0x02FF and 0x80 at 0x0200 (and 0xFF at 0x0300),
    JMP ($02FF) sets PC to 0x8040. *)
Theorem pointer_fetch_wraps_within_page (s : CPU.t) (ptr lo hi : Z) :
  is_u16 ptr ->
  Z.land ptr 0xFF = 0xFF ->
  CPUMemoryBus.read (CPU.bus s) ptr = Ok lo ->
  CPUMemoryBus.read (CPU.bus s) (Z.land ptr 0xFF00) = Ok hi ->
  let word := u16 (Z.lor (u16 lo) (Z.shiftl hi 8)) in
  Z.land ptr 0xFF00 = ptr - 0xFF
  /\ (* INDIRECT: the pointer is the word after the opcode *)
     (forall l h,
        CPUMemoryBus.read (CPU.bus s) (CPU.pc s) = Ok l ->
        CPUMemoryBus.read (CPU.bus s) (CPU.pc s + 1) = Ok h ->
        u16 (Z.lor l (Z.shiftl h 8)) = ptr ->
        CPU.resolve_indirect s = Ok (word, CPU.with_pc (u16 (CPU.pc s + 2)) s))
  /\ (* X_INDIRECT: the pointer is the operand byte plus X, in page zero *)
     (forall v,
        CPUMemoryBus.read (CPU.bus s) (CPU.pc s) = Ok v ->
        u16 (Z.land (v + CPU.x s) 0xFF) = ptr ->
        CPU.resolve_preindex_indirect s = Ok (word, CPU.with_pc (u16 (CPU.pc s + 1)) s))
  /\ (* INDIRECT_Y: the pointer is the operand byte, Y is added to the word *)
     (forall v,
        CPUMemoryBus.read (CPU.bus s) (CPU.pc s) = Ok v ->
        u16 v = ptr ->
        let effective_addr := u16 (Z.land (word + CPU.y s) 0xFFFF) in
        CPU.resolve_postindex_indirect s
        = Ok (effective_addr,
              CPU.with_page_crossed (CPU.is_page_crossed word effective_addr)
                (CPU.with_pc (u16 (CPU.pc s + 1)) s)))
  /\ (* the example *)
     (CPUMemoryBus.read (CPU.bus jmp_02FF_machine) 0x02FF = Ok 0x40
      /\ CPUMemoryBus.read (CPU.bus jmp_02FF_machine) 0x0200 = Ok 0x80
      /\ CPUMemoryBus.read (CPU.bus jmp_02FF_machine) 0x0300 = Ok 0xFF
      /\ observe CPU.pc (CPU.step jmp_02FF_machine) = Ok (5, 0x8040)).
Proof.
  intros Hptr Hlow Hlo Hhi word.
  split; [ apply page_base_of_last_byte; assumption | ].
  split; [ | split; [ | split ] ].
  - intros l h Hl Hh Hw.
    unfold CPU.resolve_indirect. run.
    rewrite bind_bus_read with (v := l) by exact Hl.
    rewrite bind_bus_read with (v := h) by exact Hh.
    run.
    apply read_wrapped_page_at_page_end with (ptr := ptr); fields; try assumption.
    rewrite Hw. apply u16_small, Hptr.
  - intros v Hv Hw.
    unfold CPU.resolve_preindex_indirect. run.
    rewrite bind_bus_read with (v := v) by (fields; exact Hv).
    run.
    apply read_wrapped_page_at_page_end with (ptr := ptr); fields; try assumption.
    rewrite Hw. apply u16_small, Hptr.
  - intros v Hv Hw effective_addr.
    unfold CPU.resolve_postindex_indirect. run.
    rewrite bind_bus_read with (v := v) by (fields; exact Hv).
    unfold CPU.bind at 1.
    rewrite read_wrapped_page_at_page_end with (ptr := ptr) (lo := lo) (hi := hi);
      fields; try assumption.
    run. fold word. rewrite (u16_small word) by apply u16_range.
    reflexivity.
  - repeat split; vm_compute; reflexivity.
Qed.

(** The theorem at [zero_page_pointer_machine] and the pointer 0x00FF: each
    of the three resolutions yields 0x8040, the high byte being the one at
    0x0000. *)
Lemma pointer_fetch_witness :
  CPU.resolve_indirect zero_page_pointer_machine
  = Ok (0x8040, CPU.with_pc 0x8002 zero_page_pointer_machine)
  /\ CPU.resolve_preindex_indirect zero_page_pointer_machine
     = Ok (0x8040, CPU.with_pc 0x8001 zero_page_pointer_machine)
  /\ CPU.resolve_postindex_indirect zero_page_pointer_machine
     = Ok (0x8040, CPU.with_page_crossed false
                     (CPU.with_pc 0x8001 zero_page_pointer_machine)).
Proof.
  destruct (pointer_fetch_wraps_within_page zero_page_pointer_machine 0x00FF 0x40 0x80)
    as (_ & Hind & Hpre & Hpost & _).
  - vm_compute. split; discriminate.
  - reflexivity.
  - vm_compute. reflexivity.
  - vm_compute. reflexivity.
  - split; [ | split ].
    + apply (Hind 0xFF 0x00); vm_compute; reflexivity.
    + apply (Hpre 0xFF); vm_compute; reflexivity.
    + apply (Hpost 0xFF); vm_compute; reflexivity.
Defined.

(** Reads of the PPU register window return 0 and writes to it change
    nothing, whatever the bus holds. *)
Lemma ppu_window_is_a_stub (b : CPUMemoryBus.t) (address data : Z) :
  0x2000 <= address <= 0x3FFF ->
  CPUMemoryBus.read b address = Ok 0 /\ CPUMemoryBus.write b address data = Ok b.
Proof.
  intros H. unfold CPUMemoryBus.read, CPUMemoryBus.write.
  rewrite u16_small by (unfold is_u16; lia).
  rewrite (out_of_range 0x0000 0x1FFF) by lia.
  rewrite (in_range 0x2000 0x3FFF) by lia.
  split; reflexivity.
Qed.

(** C7 as stated fails in its example: 0x30FF and 0x3000 lie in the PPU
    register window, so after the writes of 0x40 and 0x80 both still read 0,
    and JMP ($30FF) sets PC to 0x0000, not to 0x8040. *)
Lemma jmp_indirect_through_0x30FF_reads_zero :
  CPUMemoryBus.read (CPU.bus jmp_30FF_machine) 0x30FF = Ok 0
  /\ CPUMemoryBus.read (CPU.bus jmp_30FF_machine) 0x3000 = Ok 0
  /\ observe CPU.pc (CPU.step jmp_30FF_machine) = Ok (5, 0x0000)
  /\ observe CPU.pc (CPU.step jmp_30FF_machine) <> Ok (5, 0x8040).
Proof.
  split; [ vm_compute; reflexivity | ].
  split; [ vm_compute; reflexivity | ].
  split; [ vm_compute; reflexivity | ].
  vm_compute. discriminate.
Qed.

(** ** Branches and their cycles *)

Lemma branch_decode (opcode p0 : Z) (taken : bool) :
  branch_condition opcode p0 = Some taken ->
  exists mnemonic handler,
    CPU.INSTRUCTIONS !! Z.to_nat opcode
    = Some (CPU.Instruction.make mnemonic CPU.RELATIVE 2 false (Some handler))
    /\ forall s, CPU.p s = p0 -> handler s = CPU.branch taken s.
Proof.
  unfold branch_condition. intros H.
  repeat match type of H with
         | (if ?opcode =? ?c then _ else _) = _ =>
             let E := fresh "E" in
             destruct (opcode =? c) eqn:E;
             [ apply Z.eqb_eq in E; subst opcode; injection H as <-;
               eexists _, _; split;
               [ reflexivity | intros s <-; reflexivity ]
             | ]
         end.
  discriminate.
Qed.

Lemma read_u16 (b : CPUMemoryBus.t) (address : Z) :
  CPUMemoryBus.read b (u16 address) = CPUMemoryBus.read b address.
Proof.
  unfold CPUMemoryBus.read.
  replace (u16 (u16 address)) with (u16 address); [ reflexivity | ].
  unfold u16. symmetry. apply Z.mod_mod. lia.
Qed.

Lemma u16_add_1_1 (z : Z) : u16 (u16 (z + 1) + 1) = u16 (z + 2).
Proof.
  unfold u16. rewrite Zplus_mod_idemp_l. f_equal. lia.
Qed.

(** What [step()] does on a branch, in every state: a branch that is not
    taken costs 2 cycles, a taken branch costs 3, whether or not its target
    is on another page -- [branch] records the crossing in [page_crossed],
    and [execute] does not look at it because the table entry's
    [check_page_cross] is [false]. *)
Lemma branch_step (s : CPU.t) (opcode operand : Z) (taken : bool) :
  branch_condition opcode (CPU.p s) = Some taken ->
  CPUMemoryBus.read (CPU.bus s) (CPU.pc s) = Ok opcode ->
  CPUMemoryBus.read (CPU.bus s) (CPU.pc s + 1) = Ok operand ->
  let next := u16 (CPU.pc s + 2) in
  let target := u16 (next + branch_offset operand) in
  exists s',
    CPU.step s = Ok ((if taken then 3 else 2), s')
    /\ CPU.pc s' = (if taken then target else next)
    /\ (taken = true -> CPU.page_crossed s' = CPU.is_page_crossed next target).
Proof.
  intros Hcond Hopcode Hoperand next target.
  destruct (branch_decode _ _ _ Hcond) as (mnemonic & handler & Hdecode & Hhandler).
  unfold CPU.step, CPU.instruction_at. run.
  rewrite bind_bus_read with (v := opcode) by (fields; exact Hopcode).
  rewrite Hdecode. run.
  unfold CPU.execute. cbn [CPU.Instruction.addr_mode CPU.Instruction.func
                           CPU.Instruction.check_page_cross CPU.Instruction.cycles].
  run. cbn [CPU.resolve]. unfold CPU.resolve_relative, CPU.resolve_immediate. run.
  cbn [CPU.call].
  unfold CPU.bind at 1. rewrite Hhandler by reflexivity.
  unfold CPU.branch. destruct taken; cbn [negb].
  - unfold CPU.get_operand. run.
    rewrite bind_bus_read with (v := operand)
      by (fields; rewrite !read_u16; exact Hoperand).
    run. cbn [andb]. run.
    rewrite u16_add_1_1. fold next. fold (branch_offset operand). fold target.
    eexists. split; [ reflexivity | ]. fields.
    split; [ apply u16_small, u16_range | reflexivity ].
  - run. cbn [andb]. run.
    rewrite u16_add_1_1. fold next.
    eexists. split; [ reflexivity | ]. fields.
    split; [ reflexivity | discriminate ].
Qed.

(** C1 fails on the code.  BNE -128 at 0x8000 with Z clear is taken from
    0x8002 to 0x7F82, on another page; [step()] returns 3 cycles (2 + 1),
    where the claim gives 4 (2 + 1 + 1). *)
Theorem taken_branch_across_pages_costs_three :
  let s := power_on zeroed_ram [0xD0; 0x80] in
  branch_condition 0xD0 (CPU.p s) = Some true
  /\ CPU.pc s = 0x8000
  /\ observe CPU.pc (CPU.step s) = Ok (3, 0x7F82)
  /\ CPU.is_page_crossed 0x8002 0x7F82 = true
  /\ observe CPU.page_crossed (CPU.step s) = Ok (3, true).
Proof. cbv zeta. repeat split; vm_compute; reflexivity. Qed.

(** [step()] as a fetch, a table lookup and [execute]. *)
Lemma step_decodes (s : CPU.t) :
  CPU.step s
  = match CPUMemoryBus.read (CPU.bus s) (CPU.pc s) with
    | Ok opcode =>
        match CPU.INSTRUCTIONS !! Z.to_nat opcode with
        | Some instruction =>
            CPU.bind (CPU.execute instruction) (fun _ => CPU.gets CPU.curr_cycle)
              (CPU.with_pc (u16 (CPU.pc s + 1)) (CPU.with_curr_cycle (usize 0) s))
        | None => Undefined TableOutOfRange
        end
    | Undefined f => Undefined f
    end.
Proof.
  unfold CPU.step. run. unfold CPU.bind at 1, CPU.bus_read. fields.
  destruct (CPUMemoryBus.read (CPU.bus s) (CPU.pc s)) as [ opcode | f ];
    [ | reflexivity ].
  unfold CPU.bind at 1, CPU.instruction_at.
  destruct (CPU.INSTRUCTIONS !! Z.to_nat opcode); reflexivity.
Qed.

(** ** Properties of the status byte that every instruction keeps *)

Create HintDb keeps.

Ltac named := unfold named_flag; cbn [In]; tauto.

Section StatusInvariant.

Variable Q : Z -> Prop.
Hypothesis Q_set : forall v flag, named_flag flag -> Q v -> Q (u8 (Z.lor v flag)).
Hypothesis Q_clear :
  forall v flag, named_flag flag -> Q v -> Q (u8 (Z.land v (Z.lnot flag))).
Hypothesis Q_plp : forall v, Q (u8 (Z.lor (Z.land v (Z.lnot CPU.BREAK)) CPU.UNUSED)).

Lemma keeps_ret {A : Type} (v : A) (s : CPU.t) : keeps_at Q (CPU.ret v) s.
Proof. intros H w s' [= <- <-]. exact H. Qed.

Lemma keeps_gets {A : Type} (proj : CPU.t -> A) (s : CPU.t) :
  keeps_at Q (CPU.gets proj) s.
Proof. intros H w s' [= <- <-]. exact H. Qed.

Lemma keeps_undefined {A : Type} (f : fault) (s : CPU.t) :
  keeps_at Q (@CPU.undefined A f) s.
Proof. intros H w s' [=]. Qed.

Lemma keeps_modify (upd : CPU.t -> CPU.t) (s : CPU.t) :
  (Q (CPU.p s) -> Q (CPU.p (upd s))) -> keeps_at Q (CPU.modify upd) s.
Proof. intros Hupd H w s' [= <- <-]. auto. Qed.

Lemma keeps_bind_gets {A B : Type} (proj : CPU.t -> A) (k : A -> CPU.M B) (s : CPU.t) :
  keeps_at Q (k (proj s)) s -> keeps_at Q (CPU.bind (CPU.gets proj) k) s.
Proof. intros Hk. exact Hk. Qed.

Lemma keeps_bind_modify {B : Type} (upd : CPU.t -> CPU.t) (k : unit -> CPU.M B)
    (s : CPU.t) :
  (Q (CPU.p s) -> Q (CPU.p (upd s))) ->
  keeps_at Q (k tt) (upd s) ->
  keeps_at Q (CPU.bind (CPU.modify upd) k) s.
Proof. intros Hupd Hk H w s' E. apply (Hk (Hupd H) w s' E). Qed.

Lemma keeps_bind {A B : Type} (m : CPU.M A) (k : A -> CPU.M B) (s : CPU.t) :
  keeps_at Q m s ->
  (forall v t, keeps_at Q (k v) t) ->
  keeps_at Q (CPU.bind m k) s.
Proof.
  intros Hm Hk H w s' E. unfold CPU.bind in E.
  destruct (m s) as [ [v t] | f ] eqn:Em; [ | discriminate ].
  apply (Hk v t (Hm H v t Em) w s' E).
Qed.

Lemma keeps_bus_read (address : Z) (s : CPU.t) : keeps_at Q (CPU.bus_read address) s.
Proof.
  intros H v s' E. unfold CPU.bus_read in E.
  destruct (CPUMemoryBus.read (CPU.bus s) address); [ | discriminate ].
  injection E as <- <-. exact H.
Qed.

Lemma keeps_bus_write (address data : Z) (s : CPU.t) :
  keeps_at Q (CPU.bus_write address data) s.
Proof.
  intros H v s' E. unfold CPU.bus_write in E.
  destruct (CPUMemoryBus.write (CPU.bus s) address data); [ | discriminate ].
  injection E as <- <-. exact H.
Qed.

Hint Resolve keeps_ret keeps_gets keeps_undefined keeps_bus_read keeps_bus_write : keeps.

(** One step through a sequence of calls: a read of a member, an
    assignment, a call already known to keep [Q], or a conditional. *)
Ltac keep_side :=
  fields;
  first [ exact (fun H => H)
        | intros ?; apply Q_set; [ named | assumption ]
        | intros ?; apply Q_clear; [ named | assumption ]
        | intros _; apply Q_plp ].

Ltac keep :=
  assignments; cbv zeta;
  repeat first
    [ solve [ auto with keeps ]
    | apply keeps_bind_gets; cbv beta
    | apply keeps_bind_modify; [ keep_side | cbv beta ]
    | apply keeps_modify; keep_side
    | apply keeps_bind; [ solve [ keep ] | intros ? ? ]
    | match goal with
      | |- keeps_at _ (if ?c then _ else _) _ => destruct c
      | |- keeps_at _ (CPU.bind (if ?c then _ else _) _) _ => destruct c
      | |- keeps_at _ (match ?m with _ => _ end) _ => destruct m
      end ].

Lemma keeps_push_stack (data : Z) (s : CPU.t) : keeps_at Q (CPU.push_stack data) s.
Proof. unfold CPU.push_stack. keep. Qed.

Lemma keeps_pop_stack (s : CPU.t) : keeps_at Q CPU.pop_stack s.
Proof. unfold CPU.pop_stack. keep. Qed.

Lemma keeps_set_flag (flag value : Z) (s : CPU.t) :
  named_flag flag -> keeps_at Q (CPU.set_flag flag value) s.
Proof.
  intros Hflag. unfold CPU.set_flag. assignments.
  apply keeps_bind_gets.
  destruct (negb (u8 value =? 0)); apply keeps_modify; fields; intros H;
    [ apply Q_set | apply Q_clear ]; assumption.
Qed.

Lemma keeps_set_CARRY (value : Z) (s : CPU.t) :
  keeps_at Q (CPU.set_flag CPU.CARRY value) s.
Proof. apply keeps_set_flag. named. Qed.

Lemma keeps_set_ZERO (value : Z) (s : CPU.t) :
  keeps_at Q (CPU.set_flag CPU.ZERO value) s.
Proof. apply keeps_set_flag. named. Qed.

Lemma keeps_set_OVERFLOW (value : Z) (s : CPU.t) :
  keeps_at Q (CPU.set_flag CPU.OVERFLOW_ value) s.
Proof. apply keeps_set_flag. named. Qed.

Lemma keeps_set_NEGATIVE (value : Z) (s : CPU.t) :
  keeps_at Q (CPU.set_flag CPU.NEGATIVE value) s.
Proof. apply keeps_set_flag. named. Qed.

Hint Resolve keeps_push_stack keeps_pop_stack keeps_set_CARRY keeps_set_ZERO
  keeps_set_OVERFLOW keeps_set_NEGATIVE : keeps.

Lemma keeps_set_nz_flags (data : Z) (s : CPU.t) : keeps_at Q (CPU.set_nz_flags data) s.
Proof. unfold CPU.set_nz_flags. keep. Qed.

Lemma keeps_read_wrapped_page (address : Z) (s : CPU.t) :
  keeps_at Q (CPU.read_wrapped_page address) s.
Proof. unfold CPU.read_wrapped_page. keep. Qed.

Lemma keeps_get_operand (s : CPU.t) : keeps_at Q CPU.get_operand s.
Proof. unfold CPU.get_operand. keep. Qed.

Lemma keeps_store (data : Z) (s : CPU.t) : keeps_at Q (CPU.store data) s.
Proof. unfold CPU.store. keep. Qed.

Hint Resolve keeps_set_nz_flags keeps_read_wrapped_page keeps_get_operand
  keeps_store : keeps.

Lemma keeps_resolve_immediate (s : CPU.t) : keeps_at Q CPU.resolve_immediate s.
Proof. unfold CPU.resolve_immediate. keep. Qed.

Lemma keeps_resolve_zeropage (offset : Z) (s : CPU.t) :
  keeps_at Q (CPU.resolve_zeropage offset) s.
Proof. unfold CPU.resolve_zeropage. keep. Qed.

Lemma keeps_resolve_absolute (offset : Z) (s : CPU.t) :
  keeps_at Q (CPU.resolve_absolute offset) s.
Proof. unfold CPU.resolve_absolute. keep. Qed.

Lemma keeps_resolve_indirect (s : CPU.t) : keeps_at Q CPU.resolve_indirect s.
Proof. unfold CPU.resolve_indirect. keep. Qed.

Lemma keeps_resolve_preindex_indirect (s : CPU.t) :
  keeps_at Q CPU.resolve_preindex_indirect s.
Proof. unfold CPU.resolve_preindex_indirect. keep. Qed.

Lemma keeps_resolve_postindex_indirect (s : CPU.t) :
  keeps_at Q CPU.resolve_postindex_indirect s.
Proof. unfold CPU.resolve_postindex_indirect. keep. Qed.

Hint Resolve keeps_resolve_immediate keeps_resolve_zeropage keeps_resolve_absolute
  keeps_resolve_indirect keeps_resolve_preindex_indirect
  keeps_resolve_postindex_indirect : keeps.

Lemma keeps_resolve (mode : CPU.AddressMode) (s : CPU.t) :
  keeps_at Q (CPU.resolve mode) s.
Proof. unfold CPU.resolve, CPU.resolve_relative. destruct mode; keep. Qed.

Lemma keeps_adc_ (operand : Z) (s : CPU.t) : keeps_at Q (CPU.adc_ operand) s.
Proof. unfold CPU.adc_. keep. Qed.

Lemma keeps_branch (condition : bool) (s : CPU.t) :
  keeps_at Q (CPU.branch condition) s.
Proof. unfold CPU.branch. keep. Qed.

Hint Resolve keeps_resolve keeps_adc_ keeps_branch : keeps.

Lemma keeps_plp (s : CPU.t) : keeps_at Q CPU.plp s.
Proof. unfold CPU.plp. keep. Qed.

(** RTI keeps [Q] when [Q] holds of every byte with U set. *)
Lemma keeps_rti (s : CPU.t) :
  (forall v, Q (u8 (Z.lor v CPU.UNUSED))) -> keeps_at Q CPU.rti s.
Proof.
  intros Q_rti. unfold CPU.rti.
  apply keeps_bind; [ apply keeps_pop_stack | intros v t ].
  assignments. apply keeps_bind_modify; [ fields; intros _; apply Q_rti | ].
  keep.
Qed.

Create HintDb handlers.
Hint Unfold CPU.brk CPU.ora CPU.and_ CPU.eor CPU.asl CPU.lsr CPU.rol CPU.ror
  CPU.bit CPU.php CPU.pha CPU.pla CPU.clc CPU.sec CPU.cli CPU.sei
  CPU.clv CPU.cld CPU.sed CPU.rts CPU.jmp CPU.adc CPU.sbc CPU.sta CPU.stx
  CPU.sty CPU.inx CPU.dex CPU.iny CPU.dey CPU.inc CPU.dec CPU.txa CPU.tya CPU.txs
  CPU.tay CPU.tax CPU.tsx CPU.lda CPU.ldx CPU.ldy CPU.cpx CPU.cpy CPU.cmp
  CPU.bpl CPU.bmi CPU.bvc CPU.bvs CPU.bcc CPU.bcs CPU.bne CPU.beq CPU.jsr
  CPU.nop : handlers.

(** Every handler in the table keeps [Q], provided RTI's does. *)
Lemma keeps_handlers :
  Forall (fun instruction =>
            forall handler,
              CPU.Instruction.func instruction = Some handler ->
              (CPU.Instruction.mnemonic instruction = "RTI"%string ->
               forall s, keeps_at Q CPU.rti s) ->
              forall s, keeps_at Q handler s)
         CPU.INSTRUCTIONS.
Proof.
  unfold CPU.INSTRUCTIONS.
  repeat (apply Forall_cons; split;
          [ cbn [CPU.Instruction.func CPU.Instruction.mnemonic
                 CPU.Instruction.default];
            intros handler Hfunc;
            first [ discriminate Hfunc
                  | injection Hfunc as <-; intros Hrti s;
                    first [ apply keeps_plp
                          | solve [ autounfold with handlers; keep ]
                          | apply Hrti; reflexivity ] ]
          | ]).
  apply Forall_nil_2.
Qed.

Lemma keeps_execute (instruction : CPU.Instruction.t) (s : CPU.t) :
  (forall handler, CPU.Instruction.func instruction = Some handler ->
                   forall t, keeps_at Q handler t) ->
  keeps_at Q (CPU.execute instruction) s.
Proof.
  intros Hhandler. unfold CPU.execute.
  assert (Hcall : forall t, keeps_at Q (CPU.call (CPU.Instruction.func instruction)) t).
  { intros t. destruct (CPU.Instruction.func instruction) as [ handler | ];
      cbn [CPU.call]; [ apply Hhandler; reflexivity | apply keeps_undefined ]. }
  keep.
Qed.

(** [step()] keeps [Q] when RTI's handler does, or is not the one decoded. *)
Lemma keeps_step_if (s : CPU.t) :
  (forall opcode instruction,
     CPUMemoryBus.read (CPU.bus s) (CPU.pc s) = Ok opcode ->
     CPU.INSTRUCTIONS !! Z.to_nat opcode = Some instruction ->
     CPU.Instruction.mnemonic instruction = "RTI"%string ->
     forall t, keeps_at Q CPU.rti t) ->
  keeps_at Q CPU.step s.
Proof.
  intros Hrti H v s' E. rewrite step_decodes in E.
  destruct (CPUMemoryBus.read (CPU.bus s) (CPU.pc s)) as [ opcode | ] eqn:Eread;
    [ | discriminate ].
  destruct (CPU.INSTRUCTIONS !! Z.to_nat opcode) as [ instruction | ] eqn:Eins;
    [ | discriminate ].
  assert (Hk : forall t,
             keeps_at Q (CPU.bind (CPU.execute instruction)
                                  (fun _ => CPU.gets CPU.curr_cycle)) t).
  { intros t. apply keeps_bind; [ | intros; apply keeps_gets ].
    apply keeps_execute. intros handler Hfunc t'.
    pose proof keeps_handlers as Hall. rewrite Forall_lookup in Hall.
    apply (Hall _ _ Eins handler Hfunc).
    apply (Hrti opcode); [ reflexivity | exact Eins ]. }
  refine (Hk _ _ v s' E). exact H.
Qed.

Lemma keeps_step_other_than_rti (s : CPU.t) :
  (forall opcode instruction,
     CPUMemoryBus.read (CPU.bus s) (CPU.pc s) = Ok opcode ->
     CPU.INSTRUCTIONS !! Z.to_nat opcode = Some instruction ->
     CPU.Instruction.mnemonic instruction <> "RTI"%string) ->
  keeps_at Q CPU.step s.
Proof.
  intros Hnot. apply keeps_step_if. intros opcode instruction Hread Hins Hmn.
  exfalso. exact (Hnot opcode instruction Hread Hins Hmn).
Qed.

Lemma keeps_step (s : CPU.t) :
  (forall v, Q (u8 (Z.lor v CPU.UNUSED))) -> keeps_at Q CPU.step s.
Proof.
  intros Q_rti. apply keeps_step_if. intros _ _ _ _ _ t.
  apply keeps_rti, Q_rti.
Qed.

End StatusInvariant.

(** ** Bit 5 (U) and bit 4 (B) of the status byte *)

Lemma named_flag_bits (flag : Z) :
  named_flag flag -> Z.testbit flag 4 = false /\ Z.testbit flag 5 = false.
Proof.
  unfold named_flag. cbn [In].
  intros [<- | [<- | [<- | [<- | [<- | [<- | []]]]]]]; split; reflexivity.
Qed.

Lemma U_kept_by_set (v flag : Z) :
  named_flag flag -> Z.testbit v 5 = true -> Z.testbit (u8 (Z.lor v flag)) 5 = true.
Proof.
  intros _ H. rewrite u8_testbit by lia. rewrite Z.lor_spec, H. reflexivity.
Qed.

Lemma U_kept_by_clear (v flag : Z) :
  named_flag flag -> Z.testbit v 5 = true ->
  Z.testbit (u8 (Z.land v (Z.lnot flag))) 5 = true.
Proof.
  intros Hflag H. destruct (named_flag_bits flag Hflag) as [_ H5].
  rewrite u8_testbit by lia.
  rewrite Z.land_spec, Z.lnot_spec, H, H5 by lia. reflexivity.
Qed.

Lemma U_forced_by_plp (v : Z) :
  Z.testbit (u8 (Z.lor (Z.land v (Z.lnot CPU.BREAK)) CPU.UNUSED)) 5 = true.
Proof.
  rewrite u8_testbit by lia. rewrite Z.lor_spec. apply orb_true_r.
Qed.

Lemma U_forced_by_rti (v : Z) : Z.testbit (u8 (Z.lor v CPU.UNUSED)) 5 = true.
Proof.
  rewrite u8_testbit by lia. rewrite Z.lor_spec. apply orb_true_r.
Qed.

Lemma B_kept_by_set (v flag : Z) :
  named_flag flag -> Z.testbit v 4 = false -> Z.testbit (u8 (Z.lor v flag)) 4 = false.
Proof.
  intros Hflag H. destruct (named_flag_bits flag Hflag) as [H4 _].
  rewrite u8_testbit by lia. rewrite Z.lor_spec, H, H4. reflexivity.
Qed.

Lemma B_kept_by_clear (v flag : Z) :
  named_flag flag -> Z.testbit v 4 = false ->
  Z.testbit (u8 (Z.land v (Z.lnot flag))) 4 = false.
Proof.
  intros _ H. rewrite u8_testbit by lia. rewrite Z.land_spec, H. reflexivity.
Qed.

Lemma B_cleared_by_plp (v : Z) :
  Z.testbit (u8 (Z.lor (Z.land v (Z.lnot CPU.BREAK)) CPU.UNUSED)) 4 = false.
Proof.
  rewrite u8_testbit by lia.
  rewrite Z.lor_spec, Z.land_spec, Z.lnot_spec by lia.
  change (Z.testbit CPU.BREAK 4) with true.
  change (Z.testbit CPU.UNUSED 4) with false.
  cbn [negb]. rewrite andb_false_r. reflexivity.
Qed.

(** [reset()] leaves P = I | U = 0x24 whenever it completes. *)
Lemma reset_status (s0 s : CPU.t) :
  CPU.reset s0 = Ok (tt, s) -> CPU.p s = 0x24.
Proof.
  unfold CPU.reset. run.
  unfold CPU.bind at 1, CPU.bus_read. fields.
  destruct (CPUMemoryBus.read (CPU.bus s0) CPU.RESET_VECTOR_ADDRESS) as [ lo | ];
    [ | discriminate ].
  unfold CPU.bind at 1, CPU.bus_read. fields.
  destruct (CPUMemoryBus.read (CPU.bus s0) (CPU.RESET_VECTOR_ADDRESS + 1)) as [ hi | ];
    [ | discriminate ].
  run. intros [= <-]. reflexivity.
Qed.

(** [step()] keeps U set, whatever the instruction. *)
Lemma step_keeps_U (s s' : CPU.t) (cycles : Z) :
  U_set s -> CPU.step s = Ok (cycles, s') -> U_set s'.
Proof.
  intros H E.
  apply (keeps_step (fun v => Z.testbit v 5 = true)
           U_kept_by_set U_kept_by_clear U_forced_by_plp s U_forced_by_rti H cycles s' E).
Qed.

(** C8: in every state reachable after [reset()] by any sequence of
    [step()] calls, bit 5 (U) of P is 1. *)
Theorem U_reads_one_in_every_reachable_state (s : CPU.t) :
  reachable s -> Z.testbit (CPU.p s) 5 = true.
Proof.
  induction 1 as [ s0 s Hreset | s s' cycles Hreach IH Hstep ].
  - rewrite (reset_status s0 s Hreset). reflexivity.
  - exact (step_keeps_U s s' cycles IH Hstep).
Qed.

(** The theorem at the state after LDA #$00, PHA, PLP. *)
Lemma U_witness : Z.testbit (CPU.p pull_zero_machine_3) 5 = true.
Proof.
  apply U_reads_one_in_every_reachable_state.
  apply (reachable_step pull_zero_machine_2 pull_zero_machine_3 4);
    [ | vm_compute; reflexivity ].
  apply (reachable_step pull_zero_machine_1 pull_zero_machine_2 3);
    [ | vm_compute; reflexivity ].
  apply (reachable_step pull_zero_machine pull_zero_machine_1 2);
    [ | vm_compute; reflexivity ].
  apply (reachable_reset
           (CPU.construct (nrom_bus zeroed_ram [0xA9; 0x00; 0x48; 0x28]))
           pull_zero_machine).
  vm_compute. reflexivity.
Defined.

(** [step()] keeps B clear on every instruction other than RTI. *)
Lemma step_keeps_B_clear_unless_rti (s s' : CPU.t) (cycles : Z) :
  (forall opcode instruction,
     CPUMemoryBus.read (CPU.bus s) (CPU.pc s) = Ok opcode ->
     CPU.INSTRUCTIONS !! Z.to_nat opcode = Some instruction ->
     CPU.Instruction.mnemonic instruction <> "RTI"%string) ->
  B_clear s -> CPU.step s = Ok (cycles, s') -> B_clear s'.
Proof.
  intros Hnot H E.
  apply (keeps_step_other_than_rti (fun v => Z.testbit v 4 = false)
           B_kept_by_set B_kept_by_clear B_cleared_by_plp s Hnot H cycles s' E).
Qed.

(** C4 fails on the code.  After reset, PHP pushes 0x34 (B asserted in the
    copy) and RTI pops it: the state is reachable and its live P is 0x34,
    with bit 4 set.  [rti] ORs in U and does not clear B; [plp], on the same
    stacked byte, leaves 0x24. *)
Theorem rti_leaves_B_set_in_P :
  reachable php_rti_machine_2
  /\ B_clear php_rti_machine
  /\ CPUMemoryBus.read (CPU.bus php_rti_machine_1) 0x01FD = Ok 0x34
  /\ CPU.p php_rti_machine_2 = 0x34
  /\ Z.testbit (CPU.p php_rti_machine_2) 4 = true
  /\ CPU.p php_plp_machine_2 = 0x24.
Proof.
  split.
  { apply (reachable_step php_rti_machine_1 php_rti_machine_2 6);
      [ | vm_compute; reflexivity ].
    apply (reachable_step php_rti_machine php_rti_machine_1 3);
      [ | vm_compute; reflexivity ].
    apply (reachable_reset (CPU.construct (nrom_bus zeroed_ram [0x08; 0x40]))
             php_rti_machine).
    vm_compute. reflexivity. }
  repeat split; vm_compute; reflexivity.
Qed.


(** * Further properties of the code *)

(** ** The bus *)

Lemma ram_index_range (A : Z) : 0 <= Z.land A 0x07FF < 0x0800.
Proof. rewrite land_0x07FF. apply Z.mod_pos_bound. lia. Qed.

Lemma bus_read_ram (b : CPUMemoryBus.t) (A : Z) :
  0x0000 <= A <= 0x1FFF ->
  CPUMemoryBus.read b A = at_index (CPUMemoryBus.ram b) (Z.land A 0x07FF).
Proof.
  intros HA. unfold CPUMemoryBus.read.
  rewrite u16_small by (unfold is_u16; lia).
  rewrite in_range by lia. reflexivity.
Qed.

Lemma bus_write_ram (b : CPUMemoryBus.t) (A data : Z) :
  ram_2048 b -> 0x0000 <= A <= 0x1FFF ->
  CPUMemoryBus.write b A data
  = Ok (CPUMemoryBus.make
          (<[Z.to_nat (Z.land A 0x07FF) := u8 data]> (CPUMemoryBus.ram b))
          (CPUMemoryBus.cartridge b)).
Proof.
  intros Hlen HA. unfold CPUMemoryBus.write.
  rewrite u16_small by (unfold is_u16; lia).
  rewrite in_range by lia.
  pose proof (ram_index_range A) as Hk.
  unfold assign_index. rewrite Hlen.
  destruct (0 <=? Z.land A 0x07FF) eqn:E1; [ | apply Z.leb_gt in E1; lia ].
  destruct (Z.land A 0x07FF <? Z.of_nat (Z.to_nat 2048)) eqn:E2;
    [ reflexivity | apply Z.ltb_ge in E2; lia ].
Qed.

(** X1: a byte written to an address of 0x0000-0x1FFF is read back, as
    converted to [uint8_t], at that address and at each of its mirrors (the
    addresses with the same low eleven bits); the write keeps the RAM at
    2048 cells and the cartridge as it was. *)
Theorem ram_write_is_read_at_every_mirror (b : CPUMemoryBus.t) (A B data : Z) :
  ram_2048 b ->
  0x0000 <= A <= 0x1FFF ->
  0x0000 <= B <= 0x1FFF ->
  Z.land B 0x07FF = Z.land A 0x07FF ->
  exists b',
    CPUMemoryBus.write b A data = Ok b'
    /\ CPUMemoryBus.read b' B = Ok (u8 data)
    /\ ram_2048 b'
    /\ CPUMemoryBus.cartridge b' = CPUMemoryBus.cartridge b.
Proof.
  intros Hlen HA HB Hmirror.
  pose proof (ram_index_range A) as Hk.
  eexists. split; [ apply bus_write_ram; assumption | ].
  split; [ | split; [ | reflexivity ] ].
  - rewrite bus_read_ram by exact HB. cbn [CPUMemoryBus.ram]. rewrite Hmirror.
    apply at_index_lookup; [ lia | ].
    apply list_lookup_insert_eq. unfold ram_2048 in Hlen. lia.
  - unfold ram_2048. cbn [CPUMemoryBus.ram]. rewrite length_insert. exact Hlen.
Qed.

(** The theorem for a write of 0x1AB (stored as 0xAB) at 0x0123, read at
    the mirror 0x1923. *)
Lemma ram_write_is_read_at_every_mirror_witness :
  exists b',
    CPUMemoryBus.write plain_bus 0x0123 0x1AB = Ok b'
    /\ CPUMemoryBus.read b' 0x1923 = Ok (u8 0x1AB)
    /\ ram_2048 b'
    /\ CPUMemoryBus.cartridge b' = CPUMemoryBus.cartridge plain_bus.
Proof.
  apply (ram_write_is_read_at_every_mirror plain_bus 0x0123 0x1923 0x1AB).
  - vm_compute. reflexivity.
  - lia.
  - lia.
  - reflexivity.
Defined.

(** X2: a write to an address of 0x0000-0x1FFF changes one RAM cell: every
    address of the bus that is not a mirror of the written one reads as it
    did before the write. *)
Theorem ram_write_leaves_other_addresses (b : CPUMemoryBus.t) (A B data : Z) :
  ram_2048 b ->
  0x0000 <= A <= 0x1FFF ->
  0x0000 <= B <= 0xFFFF ->
  (0x1FFF < B \/ Z.land B 0x07FF <> Z.land A 0x07FF) ->
  exists b',
    CPUMemoryBus.write b A data = Ok b'
    /\ CPUMemoryBus.read b' B = CPUMemoryBus.read b B.
Proof.
  intros Hlen HA HB Hother.
  eexists. split; [ apply bus_write_ram; assumption | ].
  destruct (Z_le_gt_dec B 0x1FFF) as [ Hram | Hhigh ].
  - destruct Hother as [ Hhigh | Hcell ]; [ lia | ].
    rewrite !bus_read_ram by lia. cbn [CPUMemoryBus.ram].
    pose proof (ram_index_range A) as HkA. pose proof (ram_index_range B) as HkB.
    unfold at_index. rewrite length_insert.
    rewrite list_lookup_insert_ne by lia. reflexivity.
  - unfold CPUMemoryBus.read.
    rewrite u16_small by (unfold is_u16; lia).
    rewrite (out_of_range 0x0000 0x1FFF) by lia. reflexivity.
Qed.

Lemma ram_write_leaves_other_addresses_witness :
  exists b',
    CPUMemoryBus.write plain_bus 0x0123 0x42 = Ok b'
    /\ CPUMemoryBus.read b' 0x0124 = CPUMemoryBus.read plain_bus 0x0124.
Proof.
  apply (ram_write_leaves_other_addresses plain_bus 0x0123 0x0124 0x42).
  - vm_compute. reflexivity.
  - lia.
  - lia.
  - right. vm_compute. discriminate.
Defined.

Lemma cartridge_write_is_identity (c : Cartridge.t) (A data : Z) :
  Cartridge.write c A data = c.
Proof. destruct c. reflexivity. Qed.

(** X3: a write to any address of 0x2000-0xFFFF changes nothing on a bus
    with a cartridge: the PPU and APU windows discard it and Mapper 0
    ignores it, so ROM cannot be written. *)
Theorem write_outside_ram_is_discarded (b : CPUMemoryBus.t) (c : Cartridge.t)
    (A data : Z) :
  CPUMemoryBus.cartridge b = Some c ->
  0x2000 <= A <= 0xFFFF ->
  CPUMemoryBus.write b A data = Ok b.
Proof.
  intros Hc HA. unfold CPUMemoryBus.write.
  rewrite u16_small by (unfold is_u16; lia).
  rewrite (out_of_range 0x0000 0x1FFF) by lia.
  repeat match goal with
         | |- (if ?t then _ else _) = _ => destruct t; [ reflexivity | ]
         end.
  rewrite Hc.
  destruct ((0x4020 <=? A) && (A <=? 0xFFFF)); [ | reflexivity ].
  rewrite cartridge_write_is_identity. destruct b. cbn in *. rewrite Hc. reflexivity.
Qed.

Lemma write_outside_ram_is_discarded_witness :
  CPUMemoryBus.write plain_bus 0x8000 0xFF = Ok plain_bus.
Proof.
  apply (write_outside_ram_is_discarded plain_bus
           (nrom_cartridge [] 0x8000 0x9000) 0x8000 0xFF).
  - reflexivity.
  - lia.
Defined.

(** X4: on a bus with its RAM and a cartridge of at least 16 KiB of PRG
    ROM, a read is defined at every address of 0x0000-0x401F and of
    0x8000-0xFFFF. *)
Theorem bus_read_is_defined (b : CPUMemoryBus.t) (A : Z) :
  ram_2048 b ->
  prg_at_least 0x4000 b ->
  (0x0000 <= A <= 0x401F \/ 0x8000 <= A <= 0xFFFF) ->
  exists v, CPUMemoryBus.read b A = Ok v.
Proof.
  intros Hlen (c & Hc & Hprg) HA.
  destruct (Z_le_gt_dec A 0x1FFF) as [ Hram | Hhigh ].
  - rewrite bus_read_ram by lia.
    pose proof (ram_index_range A) as Hk.
    destruct (lookup_lt_is_Some_2 (CPUMemoryBus.ram b) (Z.to_nat (Z.land A 0x07FF)))
      as [v Hv]; [ unfold ram_2048 in Hlen; lia | ].
    exists v. apply at_index_lookup; [ lia | exact Hv ].
  - unfold CPUMemoryBus.read.
    rewrite u16_small by (unfold is_u16; lia).
    rewrite (out_of_range 0x0000 0x1FFF) by lia.
    repeat match goal with
           | |- exists v, (if ?t then Ok 0 else _) = _ =>
               destruct t eqn:?; [ exists 0; reflexivity | ]
           end.
    destruct ((0x4020 <=? A) && (A <=? 0xFFFF)) eqn:Ecart; [ | exists 0; reflexivity ].
    rewrite Hc. unfold Cartridge.read.
    assert (HA' : 0x8000 <= A <= 0xFFFF).
    { destruct HA as [ Hlow | Hrom ]; [ | exact Hrom ].
      apply andb_true_iff in Ecart. destruct Ecart as [E1 _].
      apply Z.leb_le in E1. lia. }
    rewrite Mapper0_read_prg_window by exact HA'.
    assert (Hk : 0 <= Z.land A 0x3FFF < 0x4000).
    { rewrite land_0x3FFF. apply Z.mod_pos_bound. lia. }
    destruct (lookup_lt_is_Some_2 (Mapper0.prg_rom (Cartridge.mapper c))
                (Z.to_nat (Z.land A 0x3FFF))) as [v Hv]; [ lia | ].
    exists v. apply at_index_lookup; [ lia | exact Hv ].
Qed.

Lemma bus_read_is_defined_witness :
  exists v, CPUMemoryBus.read plain_bus 0xFFFC = Ok v.
Proof.
  apply (bus_read_is_defined plain_bus 0xFFFC).
  - vm_compute. reflexivity.
  - exists (nrom_cartridge [] 0x8000 0x9000). split; [ reflexivity | ].
    vm_compute. discriminate.
  - right. lia.
Defined.

(** X5: a read at any address of 0x4020-0x7FFF on a bus with a cartridge is
    forwarded to [Mapper0::read], which returns nothing there: it flows off
    the end of the function, whatever the ROM holds. *)
Theorem bus_read_below_prg_is_undefined (b : CPUMemoryBus.t) (c : Cartridge.t) (A : Z) :
  CPUMemoryBus.cartridge b = Some c ->
  0x4020 <= A <= 0x7FFF ->
  CPUMemoryBus.read b A = Undefined MissingReturn.
Proof.
  intros Hc HA. unfold CPUMemoryBus.read.
  rewrite u16_small by (unfold is_u16; lia).
  rewrite (out_of_range 0x0000 0x1FFF), (out_of_range 0x2000 0x3FFF),
    (out_of_range 0x4000 0x4017), (out_of_range 0x4018 0x401F) by lia.
  rewrite (in_range 0x4020 0xFFFF) by lia.
  rewrite Hc. unfold Cartridge.read, Mapper0.read.
  rewrite u16_small by (unfold is_u16; lia).
  rewrite (out_of_range 0x8000 0xFFFF), (out_of_range 0x0000 0x1FFF) by lia.
  reflexivity.
Qed.

Lemma bus_read_below_prg_is_undefined_witness :
  CPUMemoryBus.read plain_bus 0x6000 = Undefined MissingReturn.
Proof.
  apply (bus_read_below_prg_is_undefined plain_bus (nrom_cartridge [] 0x8000 0x9000)).
  - reflexivity.
  - lia.
Defined.

(** X6: no read through the CPU bus depends on the CHR ROM: the bus
    forwards to the mapper only from 0x4020 up, and the mapper serves CHR
    only below 0x2000. *)
Theorem bus_read_ignores_chr_rom (ram : list Z) (fields : option Cartridge.Fields)
    (prg chr chr' : list Z) (A : Z) :
  CPUMemoryBus.read
    (CPUMemoryBus.make ram (Some (Cartridge.make fields (Mapper0.make prg chr)))) A
  = CPUMemoryBus.read
      (CPUMemoryBus.make ram (Some (Cartridge.make fields (Mapper0.make prg chr')))) A.
Proof.
  unfold CPUMemoryBus.read. cbn [CPUMemoryBus.ram CPUMemoryBus.cartridge].
  repeat match goal with
         | |- (if ?t then ?x else _) = (if ?t then ?x else _) =>
             destruct t eqn:?; [ reflexivity | ]
         end.
  destruct ((0x4020 <=? u16 A) && (u16 A <=? 0xFFFF)) eqn:Ecart; [ | reflexivity ].
  apply andb_true_iff in Ecart. destruct Ecart as [E1 E2].
  apply Z.leb_le in E1. apply Z.leb_le in E2.
  unfold Cartridge.read, Mapper0.read. cbn [Cartridge.mapper Mapper0.prg_rom Mapper0.chr_rom].
  rewrite (u16_small (u16 A)) by apply u16_range.
  destruct ((0x8000 <=? u16 A) && (u16 A <=? 0xFFFF)); [ reflexivity | ].
  rewrite (out_of_range 0x0000 0x1FFF) by lia. reflexivity.
Qed.

(** ** The loader *)

(** X7: the title check, [strncmp] over four characters against the
    literal, succeeds exactly on the bytes 4E 45 53 1A; a NUL among the four
    bytes never ends the comparison with a match. *)
Theorem magic_check_is_exact (b0 b1 b2 b3 : Z) :
  Cartridge.strncmp [b0; b1; b2; b3] Cartridge.MAGIC 4 = 0
  <-> [b0; b1; b2; b3] = [0x4E; 0x45; 0x53; 0x1A].
Proof.
  rewrite <- Z.eqb_eq, strncmp_magic. apply bool_decide_eq_true.
Qed.

Lemma Forall_is_u8 (l : list Z) : forallb is_u8b l = true -> Forall is_u8 l.
Proof.
  intros H. apply Forall_forall. intros z Hz.
  rewrite forallb_forall in H. specialize (H z).
  rewrite list_elem_of_In in Hz. specialize (H Hz).
  unfold is_u8b in H. apply andb_true_iff in H. destruct H as [H1 H2].
  apply Z.leb_le in H1. apply Z.leb_le in H2. unfold is_u8. lia.
Qed.

(** X8: a file of bytes that starts with the magic tag, whose length is 16
    plus the declared PRG and CHR sizes, and whose header names mapper 0 is
    loaded: the constructor prints nothing and returns a cartridge whose PRG
    ROM is the declared number of bytes from offset 16 and whose CHR ROM is
    the rest of the file. *)
Theorem construct_loads_prg_then_chr (bytes : list Z) :
  Forall is_u8 bytes ->
  take 4 bytes = [0x4E; 0x45; 0x53; 0x1A] ->
  Z.of_nat (length bytes)
  = 16 + 16384 * Cartridge.byte_at bytes 4 + 8192 * Cartridge.byte_at bytes 5 ->
  Z.shiftr (Cartridge.byte_at bytes 6) 4 = 0 ->
  Z.land (Cartridge.byte_at bytes 7) 0xF0 = 0 ->
  let prg_size := Z.to_nat (16384 * Cartridge.byte_at bytes 4) in
  let prg := take prg_size (drop 16 bytes) in
  let chr := drop (16 + prg_size) bytes in
  Cartridge.construct (Cartridge.Readable bytes)
  = Cartridge.Returned []
      (Cartridge.make (Some (Cartridge.decode_fields (Cartridge.read_header bytes)))
                      (Mapper0.make prg chr))
  /\ Z.of_nat (length prg) = 16384 * Cartridge.byte_at bytes 4
  /\ Z.of_nat (length chr) = 8192 * Cartridge.byte_at bytes 5.
Proof.
  intros Hbytes Hmagic Hsize H6 H7 prg_size prg chr.
  pose proof (byte_at_range bytes 4 Hbytes) as H4.
  pose proof (byte_at_range bytes 5 Hbytes) as H5.
  unfold is_u8 in H4, H5.
  assert (Hprg : Z.of_nat (length prg) = 16384 * Cartridge.byte_at bytes 4).
  { unfold prg, prg_size. rewrite length_take, length_drop. lia. }
  assert (Hchr : Z.of_nat (length chr) = 8192 * Cartridge.byte_at bytes 5).
  { unfold chr, prg_size. rewrite length_drop. lia. }
  split; [ | split; assumption ].
  pose proof (construct_guards_follow_spec bytes Hbytes) as Hspec.
  cbv zeta in Hspec. unfold spec_load in Hspec.
  destruct (Z.of_nat (length bytes) <? 16) eqn:E16; [ apply Z.ltb_lt in E16; lia | ].
  rewrite Hmagic in Hspec.
  rewrite bool_decide_eq_true_2 in Hspec by reflexivity. cbn [negb] in Hspec.
  replace (16 + 16 * 1024 * Cartridge.byte_at bytes 4
           + 8 * 1024 * Cartridge.byte_at bytes 5 =? Z.of_nat (length bytes))
    with true in Hspec by (symmetry; apply Z.eqb_eq; lia).
  rewrite H6, H7 in Hspec. cbn [negb Z.lor Z.eqb] in Hspec.
  rewrite Hspec. do 2 f_equal.
  change (16 * 1024) with 16384. change (8 * 1024) with 8192.
  fold prg_size. fold prg. f_equal.
  apply take_ge. fold chr. lia.
Qed.

Lemma construct_loads_prg_then_chr_witness :
  let prg_size := Z.to_nat (16384 * Cartridge.byte_at one_bank_rom 4) in
  let prg := take prg_size (drop 16 one_bank_rom) in
  let chr := drop (16 + prg_size) one_bank_rom in
  Cartridge.construct (Cartridge.Readable one_bank_rom)
  = Cartridge.Returned []
      (Cartridge.make
         (Some (Cartridge.decode_fields (Cartridge.read_header one_bank_rom)))
         (Mapper0.make prg chr))
  /\ Z.of_nat (length prg) = 16384 * Cartridge.byte_at one_bank_rom 4
  /\ Z.of_nat (length chr) = 8192 * Cartridge.byte_at one_bank_rom 5.
Proof.
  apply (construct_loads_prg_then_chr one_bank_rom).
  - apply Forall_is_u8. vm_compute. reflexivity.
  - reflexivity.
  - vm_compute. reflexivity.
  - reflexivity.
  - reflexivity.
Defined.

(** Whenever the constructor prints a diagnostic and returns, the cartridge
    it leaves has the default, empty mapper. *)
Lemma construct_with_diagnostic_leaves_empty_mapper (rom : Cartridge.file)
    (out : list Cartridge.diagnostic) (c : Cartridge.t) :
  Cartridge.construct rom = Cartridge.Returned out c ->
  out <> [] ->
  c = Cartridge.make None Mapper0.default.
Proof.
  unfold Cartridge.construct. intros H Hout.
  destruct rom as [ | size | bytes ]; [ discriminate | congruence | ].
  repeat match type of H with
         | (if ?t then _ else _) = _ => destruct t
         end; try discriminate; injection H as <- <-; congruence.
Qed.

(** [reset()] on a CPU whose cartridge has an empty PRG ROM reads the reset
    vector out of range. *)
Lemma reset_on_empty_prg (ram : list Z) (fields : option Cartridge.Fields)
    (chr : list Z) :
  CPU.reset
    (CPU.construct
       (CPUMemoryBus.make ram (Some (Cartridge.make fields (Mapper0.make [] chr)))))
  = Undefined IndexOutOfRange.
Proof. reflexivity. Qed.

(** X9: when the constructor rejects the ROM with a diagnostic (file not
    opened, too short, wrong magic, sizes that do not add up), [main] goes on
    with the cartridge it was left, and [reset()] indexes the empty PRG
    vector: the run is undefined, whatever the cycle count. *)
Theorem main_on_rejected_rom_is_undefined (storage : list Z) (rom : Cartridge.file)
    (cycles : Z) (out : list Cartridge.diagnostic) (c : Cartridge.t) :
  Cartridge.construct rom = Cartridge.Returned out c ->
  out <> [] ->
  Main.main storage rom cycles = Main.UndefinedBehaviour IndexOutOfRange.
Proof.
  intros H Hout.
  pose proof (construct_with_diagnostic_leaves_empty_mapper rom out c H Hout) as Hc.
  unfold Main.main. rewrite H. subst c. cbv zeta.
  unfold CPU.bind.
  change (CPU.reset _) with
    (CPU.reset
       (CPU.construct
          (CPUMemoryBus.make storage
             (Some (Cartridge.make None (Mapper0.make [] [])))))).
  rewrite reset_on_empty_prg. reflexivity.
Qed.

Lemma main_on_rejected_rom_is_undefined_witness :
  Main.main zeroed_ram (Cartridge.Readable (replicate 16 0)) 10
  = Main.UndefinedBehaviour IndexOutOfRange.
Proof.
  apply (main_on_rejected_rom_is_undefined zeroed_ram
           (Cartridge.Readable (replicate 16 0)) 10
           [Cartridge.invalid_header_title [0; 0; 0; 0]]
           (Cartridge.make None Mapper0.default)).
  - vm_compute. reflexivity.
  - discriminate.
Defined.

(** ** Flags and arithmetic *)

Lemma set_flag_run (flag value : Z) (s : CPU.t) :
  CPU.set_flag flag value s
  = Ok (tt, CPU.with_p
              (u8 (if negb (u8 value =? 0) then Z.lor (CPU.p s) flag
                   else Z.land (CPU.p s) (Z.lnot flag))) s).
Proof.
  unfold CPU.set_flag. run. destruct (negb (u8 value =? 0)); reflexivity.
Qed.

Lemma testbit_set_flag (p0 flag value k : Z) :
  0 <= k < 8 ->
  Z.testbit (u8 (if negb (u8 value =? 0) then Z.lor p0 flag
                 else Z.land p0 (Z.lnot flag))) k
  = if Z.testbit flag k then negb (u8 value =? 0) else Z.testbit p0 k.
Proof.
  intros Hk. rewrite u8_testbit by exact Hk.
  destruct (negb (u8 value =? 0)).
  - rewrite Z.lor_spec. destruct (Z.testbit flag k), (Z.testbit p0 k); reflexivity.
  - rewrite Z.land_spec, Z.lnot_spec by lia.
    destruct (Z.testbit flag k), (Z.testbit p0 k); reflexivity.
Qed.

Lemma with_p_with_p (v w : Z) (s : CPU.t) :
  CPU.with_p v (CPU.with_p w s) = CPU.with_p v s.
Proof. reflexivity. Qed.

Lemma bit_index_cases (k : Z) :
  0 <= k < 8 -> k = 0 \/ k = 1 \/ k = 2 \/ k = 3 \/ k = 4 \/ k = 5 \/ k = 6 \/ k = 7.
Proof. lia. Qed.

Lemma negative_argument (d : Z) :
  is_u8 d -> negb (u8 (Z.land (Z.shiftr d 7) 1) =? 0) = Z.testbit d 7.
Proof.
  intros Hd. apply eqb_prop.
  apply (for_all_bytes
           (fun b => eqb (negb (u8 (Z.land (Z.shiftr b 7) 1) =? 0)) (Z.testbit b 7)));
    [ vm_compute; reflexivity | exact Hd ].
Qed.

Lemma flag_argument (c : bool) : negb (u8 (if c then 1 else 0) =? 0) = c.
Proof. destruct c; reflexivity. Qed.

(** The status byte [set_nz_flags] leaves. *)
Lemma set_nz_flags_run (data : Z) (s : CPU.t) :
  exists p',
    CPU.set_nz_flags data s = Ok (tt, CPU.with_p p' s)
    /\ is_u8 p'
    /\ forall k, 0 <= k < 8 ->
         Z.testbit p' k
         = if k =? 1 then u8 data =? 0
           else if k =? 7 then Z.testbit (u8 data) 7
           else Z.testbit (CPU.p s) k.
Proof.
  unfold CPU.set_nz_flags. cbv zeta.
  unfold CPU.bind. rewrite set_flag_run, set_flag_run. fields. rewrite with_p_with_p.
  eexists. split; [ reflexivity | ]. split; [ apply u8_range | ].
  intros k Hk. rewrite !testbit_set_flag by exact Hk.
  rewrite flag_argument, negative_argument by apply u8_range.
  destruct (bit_index_cases k Hk) as [-> | [-> | [-> | [-> | [-> | [-> | [-> | ->]]]]]]];
    reflexivity.
Qed.

(** X10: [set_nz_flags(data)] sets Z exactly when the byte is zero, sets N
    to bit 7 of the byte, leaves the other six bits of P and every other
    member of the CPU as they were. *)
Theorem set_nz_flags_sets_Z_and_N_only (data : Z) (s : CPU.t) :
  exists p',
    CPU.set_nz_flags data s = Ok (tt, CPU.with_p p' s)
    /\ Z.testbit p' 1 = (u8 data =? 0)
    /\ Z.testbit p' 7 = Z.testbit (u8 data) 7
    /\ Z.testbit p' 0 = Z.testbit (CPU.p s) 0
    /\ Z.testbit p' 2 = Z.testbit (CPU.p s) 2
    /\ Z.testbit p' 3 = Z.testbit (CPU.p s) 3
    /\ Z.testbit p' 4 = Z.testbit (CPU.p s) 4
    /\ Z.testbit p' 5 = Z.testbit (CPU.p s) 5
    /\ Z.testbit p' 6 = Z.testbit (CPU.p s) 6.
Proof.
  destruct (set_nz_flags_run data s) as (p' & Hrun & _ & Hbits).
  exists p'. split; [ exact Hrun | ].
  repeat split; rewrite Hbits by lia; reflexivity.
Qed.

Lemma for_all_byte_pairs (P : Z -> Z -> bool) :
  forallb (fun a => forallb (P a) all_bytes) all_bytes = true ->
  forall a b, is_u8 a -> is_u8 b -> P a b = true.
Proof.
  intros H a b Ha Hb.
  pose proof (for_all_bytes (fun a => forallb (P a) all_bytes) H a Ha) as Hrow.
  cbv beta in Hrow. apply (for_all_bytes (P a) Hrow b Hb).
Qed.

Lemma carry_in (p0 : Z) : Z.land p0 CPU.CARRY = Z.b2z (Z.testbit p0 0).
Proof.
  change CPU.CARRY with (Z.ones 1). rewrite Z.land_ones by lia.
  change (2 ^ 1) with 2. symmetry. apply Z.bit0_mod.
Qed.

Lemma sign_bit (b : Z) : is_u8 b -> Z.testbit b 7 = (128 <=? b).
Proof.
  intros Hb. apply eqb_prop.
  apply (for_all_bytes (fun z => eqb (Z.testbit z 7) (128 <=? z)));
    [ vm_compute; reflexivity | exact Hb ].
Qed.

(** The value [adc_] passes for V is the overflow of the signed sum. *)
Lemma overflow_rule (a0 operand : Z) (c : bool) :
  is_u8 a0 -> is_u8 operand ->
  negb (Z.shiftr (Z.land (Z.land (Z.lxor a0 (a0 + operand + Z.b2z c))
                                 (Z.lxor operand (a0 + operand + Z.b2z c))) 0x80) 7 =? 0)
  = negb ((-128 <=? i8 a0 + i8 operand + Z.b2z c) && (i8 a0 + i8 operand + Z.b2z c <=? 127)).
Proof.
  intros Ha Ho. apply eqb_prop.
  apply (for_all_byte_pairs
           (fun x y =>
              eqb (negb (Z.shiftr (Z.land (Z.land (Z.lxor x (x + y + Z.b2z c))
                                                  (Z.lxor y (x + y + Z.b2z c))) 0x80) 7 =? 0))
                  (negb ((-128 <=? i8 x + i8 y + Z.b2z c) && (i8 x + i8 y + Z.b2z c <=? 127)))));
    [ | exact Ha | exact Ho ].
  destruct c; vm_compute; reflexivity.
Qed.

(** [adc_] on bytes, bit by bit. *)
Lemma adc__run (operand : Z) (s : CPU.t) :
  is_u8 (CPU.a s) -> is_u8 operand ->
  let c := Z.b2z (Z.testbit (CPU.p s) 0) in
  let sum := CPU.a s + operand + c in
  let signed := i8 (CPU.a s) + i8 operand + c in
  exists p',
    CPU.adc_ operand s = Ok (tt, CPU.with_a (sum mod 256) (CPU.with_p p' s))
    /\ Z.testbit p' 0 = (255 <? sum)
    /\ Z.testbit p' 1 = (sum mod 256 =? 0)
    /\ Z.testbit p' 6 = negb ((-128 <=? signed) && (signed <=? 127))
    /\ Z.testbit p' 7 = (128 <=? sum mod 256)
    /\ Z.testbit p' 2 = Z.testbit (CPU.p s) 2
    /\ Z.testbit p' 3 = Z.testbit (CPU.p s) 3
    /\ Z.testbit p' 4 = Z.testbit (CPU.p s) 4
    /\ Z.testbit p' 5 = Z.testbit (CPU.p s) 5.
Proof.
  intros Ha Ho c sum signed.
  assert (Hc : 0 <= c <= 1) by (unfold c; destruct (Z.testbit (CPU.p s) 0); cbn; lia).
  unfold is_u8 in Ha, Ho.
  unfold CPU.adc_. cbv zeta. run.
  rewrite (u8_small operand) by (unfold is_u8; lia).
  rewrite carry_in. fold c. fold sum.
  rewrite (u16_small sum) by (unfold is_u16, sum; lia).
  assert (Hlow : u16 (Z.land sum 0xFF) = sum mod 256).
  { rewrite land_0xFF. apply u16_small.
    pose proof (Z.mod_pos_bound sum 256). unfold is_u16. lia. }
  rewrite Hlow.
  unfold CPU.bind. rewrite set_flag_run, set_flag_run. fields. rewrite with_p_with_p.
  set (p2 := u8 (if negb (u8 (if negb (Z.shiftr _ 7 =? 0) then 1 else 0) =? 0)
                 then _ else _)).
  destruct (set_nz_flags_run (sum mod 256) (CPU.with_p p2 s)) as (p3 & Hnz & _ & Hbits).
  rewrite Hnz. rewrite with_p_with_p.
  assert (Hr : u8 (sum mod 256) = sum mod 256).
  { apply u8_small. pose proof (Z.mod_pos_bound sum 256). unfold is_u8. lia. }
  exists p3. split.
  { unfold CPU.assign_a, CPU.modify. rewrite Hr. reflexivity. }
  fields. rewrite Hr in Hbits.
  assert (Hp2 : forall k, 0 <= k < 8 ->
            Z.testbit p2 k
            = if Z.testbit CPU.OVERFLOW_ k then
                negb ((-128 <=? signed) && (signed <=? 127))
              else if Z.testbit CPU.CARRY k then 255 <? sum
              else Z.testbit (CPU.p s) k).
  { intros k Hk. unfold p2. rewrite !testbit_set_flag by exact Hk.
    rewrite !flag_argument.
    unfold sum, c. rewrite overflow_rule by (unfold is_u8; lia). reflexivity. }
  repeat split; rewrite Hbits by lia; cbn [Z.eqb Pos.eqb];
    first [ reflexivity
          | apply sign_bit; pose proof (Z.mod_pos_bound sum 256); unfold is_u8; lia
          | rewrite Hp2 by lia; reflexivity ].
Qed.

(** X11: ADC on bytes adds the operand and the carry to A: A becomes the
    sum modulo 256, C is set exactly when the sum exceeds 255, V exactly when
    the sum of the two bytes read as signed, plus the carry, leaves
    -128..127, Z and N follow the new A, and I, D, B, U are left alone. *)
Theorem adc_adds_with_carry (s : CPU.t) (operand : Z) :
  is_u8 (CPU.a s) ->
  is_u8 operand ->
  CPU.get_operand s = Ok (operand, s) ->
  let c := Z.b2z (Z.testbit (CPU.p s) 0) in
  let sum := CPU.a s + operand + c in
  let signed := i8 (CPU.a s) + i8 operand + c in
  exists p',
    CPU.adc s = Ok (tt, CPU.with_a (sum mod 256) (CPU.with_p p' s))
    /\ Z.testbit p' 0 = (255 <? sum)
    /\ Z.testbit p' 1 = (sum mod 256 =? 0)
    /\ Z.testbit p' 6 = negb ((-128 <=? signed) && (signed <=? 127))
    /\ Z.testbit p' 7 = (128 <=? sum mod 256)
    /\ Z.testbit p' 2 = Z.testbit (CPU.p s) 2
    /\ Z.testbit p' 3 = Z.testbit (CPU.p s) 3
    /\ Z.testbit p' 4 = Z.testbit (CPU.p s) 4
    /\ Z.testbit p' 5 = Z.testbit (CPU.p s) 5.
Proof.
  intros Ha Ho Hop c sum signed.
  unfold CPU.adc, CPU.bind. rewrite Hop.
  apply (adc__run operand s Ha Ho).
Qed.

Lemma lxor_0xFF (b : Z) : is_u8 b -> Z.lxor b 0xFF = 255 - b.
Proof.
  intros Hb. apply Z.eqb_eq.
  apply (for_all_bytes (fun z => Z.lxor z 0xFF =? 255 - z));
    [ vm_compute; reflexivity | exact Hb ].
Qed.

Lemma i8_of_complement (b : Z) : is_u8 b -> i8 (255 - b) = - i8 b - 1.
Proof.
  intros Hb. apply Z.eqb_eq.
  apply (for_all_bytes (fun z => i8 (255 - z) =? - i8 z - 1));
    [ vm_compute; reflexivity | exact Hb ].
Qed.

Lemma bool_eq_of_iff (x y : bool) : (x = true <-> y = true) -> x = y.
Proof. destruct x, y; intros [H1 H2]; auto; symmetry; auto. Qed.

(** X12: SBC on bytes subtracts the operand and the borrow (the inverse of
    C) from A: A becomes the difference modulo 256, C is set exactly when no
    borrow is needed (the difference is not negative), V exactly when the
    signed difference leaves -128..127, Z and N follow the new A, and I, D,
    B, U are left alone. *)
Theorem sbc_subtracts_with_borrow (s : CPU.t) (operand : Z) :
  is_u8 (CPU.a s) ->
  is_u8 operand ->
  CPU.get_operand s = Ok (operand, s) ->
  let c := Z.b2z (Z.testbit (CPU.p s) 0) in
  let diff := CPU.a s - operand - (1 - c) in
  let signed := i8 (CPU.a s) - i8 operand - (1 - c) in
  exists p',
    CPU.sbc s = Ok (tt, CPU.with_a (diff mod 256) (CPU.with_p p' s))
    /\ Z.testbit p' 0 = (0 <=? diff)
    /\ Z.testbit p' 1 = (diff mod 256 =? 0)
    /\ Z.testbit p' 6 = negb ((-128 <=? signed) && (signed <=? 127))
    /\ Z.testbit p' 7 = (128 <=? diff mod 256)
    /\ Z.testbit p' 2 = Z.testbit (CPU.p s) 2
    /\ Z.testbit p' 3 = Z.testbit (CPU.p s) 3
    /\ Z.testbit p' 4 = Z.testbit (CPU.p s) 4
    /\ Z.testbit p' 5 = Z.testbit (CPU.p s) 5.
Proof.
  intros Ha Ho Hop c diff signed.
  assert (Ho' : is_u8 (255 - operand)) by (unfold is_u8 in *; lia).
  pose proof (adc__run (255 - operand) s Ha Ho') as H. cbv zeta in H.
  fold c in H. rewrite (i8_of_complement operand Ho) in H.
  replace (CPU.a s + (255 - operand) + c) with (diff + 1 * 256) in H
    by (unfold diff; lia).
  rewrite Z_mod_plus_full in H.
  replace (i8 (CPU.a s) + (- i8 operand - 1) + c) with signed in H
    by (unfold signed; lia).
  destruct H as (p' & Hrun & H0 & H1 & H6 & H7 & Hrest).
  exists p'. split.
  { unfold CPU.sbc, CPU.bind. rewrite Hop, (lxor_0xFF operand Ho). exact Hrun. }
  split.
  { rewrite H0. apply bool_eq_of_iff.
    rewrite Z.ltb_lt, Z.leb_le. lia. }
  repeat split; try assumption; apply Hrest.
Qed.

(** X13: CMP on bytes leaves A alone and sets C exactly when A is not below
    the operand, Z exactly when they are equal, N to bit 7 of the difference
    modulo 256; I, D, B, U and V are left alone. *)
Theorem cmp_compares (s : CPU.t) (operand : Z) :
  is_u8 (CPU.a s) ->
  is_u8 operand ->
  CPU.get_operand s = Ok (operand, s) ->
  exists p',
    CPU.cmp s = Ok (tt, CPU.with_p p' s)
    /\ Z.testbit p' 0 = (operand <=? CPU.a s)
    /\ Z.testbit p' 1 = (CPU.a s =? operand)
    /\ Z.testbit p' 7 = (128 <=? (CPU.a s - operand) mod 256)
    /\ Z.testbit p' 2 = Z.testbit (CPU.p s) 2
    /\ Z.testbit p' 3 = Z.testbit (CPU.p s) 3
    /\ Z.testbit p' 4 = Z.testbit (CPU.p s) 4
    /\ Z.testbit p' 5 = Z.testbit (CPU.p s) 5
    /\ Z.testbit p' 6 = Z.testbit (CPU.p s) 6.
Proof.
  intros Ha Ho Hop.
  unfold CPU.cmp. unfold CPU.bind at 1. rewrite Hop. cbv zeta. run.
  rewrite (u8_small operand) by exact Ho.
  unfold CPU.bind. rewrite set_flag_run. fields.
  set (p1 := u8 (if negb (u8 (if operand <=? CPU.a s then 1 else 0) =? 0) then _ else _)).
  destruct (set_nz_flags_run (u8 (CPU.a s - operand)) (CPU.with_p p1 s))
    as (p2 & Hnz & _ & Hbits).
  rewrite Hnz, with_p_with_p. fields.
  assert (Hd : u8 (u8 (CPU.a s - operand)) = (CPU.a s - operand) mod 256).
  { unfold u8. apply Z.mod_mod. lia. }
  rewrite Hd in Hbits.
  assert (Hp1 : forall k, 0 <= k < 8 ->
            Z.testbit p1 k
            = if Z.testbit CPU.CARRY k then operand <=? CPU.a s
              else Z.testbit (CPU.p s) k).
  { intros k Hk. unfold p1. rewrite testbit_set_flag by exact Hk.
    rewrite flag_argument. reflexivity. }
  exists p2. split; [ reflexivity | ].
  assert (Hz : ((CPU.a s - operand) mod 256 =? 0) = (CPU.a s =? operand)).
  { apply bool_eq_of_iff. rewrite !Z.eqb_eq.
    unfold is_u8 in Ha, Ho. split; [ | intros ->; rewrite Z.sub_diag; reflexivity ].
    intros Hm. apply Z.mod_divide in Hm; [ | lia ].
    destruct Hm as [q Hq]. lia. }
  repeat split; rewrite Hbits by lia; cbn [Z.eqb Pos.eqb];
    first [ exact Hz
          | apply sign_bit; pose proof (Z.mod_pos_bound (CPU.a s - operand) 256);
            unfold is_u8; lia
          | rewrite Hp1 by lia; reflexivity ].
Qed.

(** ** The stack, calls and returns *)

Lemma sp_decrement (sp0 : Z) :
  is_u8 sp0 ->
  is_u8 (u8 (sp0 - 1)) /\ u8 (sp0 - 1) <> sp0 /\ u8 (u8 (sp0 - 1) + 1) = sp0.
Proof.
  intros H.
  pose proof (for_all_bytes
                (fun z => negb (u8 (z - 1) =? z) && (u8 (u8 (z - 1) + 1) =? z))
                ltac:(vm_compute; reflexivity) sp0 H) as E.
  cbv beta in E. apply andb_true_iff in E. destruct E as [E1 E2].
  apply negb_true_iff, Z.eqb_neq in E1. apply Z.eqb_eq in E2.
  split; [ apply u8_range | ]. split; assumption.
Qed.

Lemma push_stack_run (data : Z) (s : CPU.t) :
  stack_ready s -> CPU.push_stack data s = Ok (tt, pushed data s).
Proof.
  intros [Hsp Hlen].
  unfold CPU.push_stack. run. unfold CPU.bus_write. fields.
  unfold CPU.STACK_BASE_ADDRESS. rewrite lor_page_one by exact Hsp.
  rewrite ram_write_in_page_one by (try exact Hlen; unfold is_u8 in Hsp; lia).
  reflexivity.
Qed.

Lemma pop_stack_run (v : Z) (s : CPU.t) :
  CPUMemoryBus.ram (CPU.bus s) !! Z.to_nat (0x0100 + u8 (CPU.sp s + 1)) = Some v ->
  CPU.pop_stack s = Ok (v, CPU.with_sp (u8 (CPU.sp s + 1)) s).
Proof.
  intros Hv. pose proof (u8_range (CPU.sp s + 1)) as Hr. unfold is_u8 in Hr.
  unfold CPU.pop_stack. run. apply bus_read_run. fields.
  unfold CPU.STACK_BASE_ADDRESS. rewrite lor_page_one by apply u8_range.
  rewrite bus_read_ram by lia.
  rewrite land_0x07FF, Z.mod_small by lia.
  apply at_index_lookup; [ lia | exact Hv ].
Qed.


Lemma pushed_top (data : Z) (s : CPU.t) :
  stack_ready s ->
  CPUMemoryBus.ram (CPU.bus (pushed data s)) !! Z.to_nat (0x0100 + CPU.sp s)
  = Some (u8 data).
Proof.
  intros [Hsp Hlen]. unfold pushed. fields. cbn [CPUMemoryBus.ram].
  apply list_lookup_insert_eq. unfold ram_2048 in Hlen. unfold is_u8 in Hsp. lia.
Qed.


(** X14: with SP a byte, [pop_stack] after [push_stack(data)] returns the
    byte pushed and restores SP, for every SP (0x00 included, where the push
    wraps to 0xFF and the pop back to 0x00); of the whole CPU only the RAM
    cell at 0x0100 + SP has changed. *)
Theorem pop_after_push_returns_the_byte (s : CPU.t) (data : Z) :
  stack_ready s ->
  CPU.bind (CPU.push_stack data) (fun _ => CPU.pop_stack) s
  = Ok (u8 data,
        CPU.with_bus
          (CPUMemoryBus.make
             (<[Z.to_nat (0x0100 + CPU.sp s) := u8 data]> (CPUMemoryBus.ram (CPU.bus s)))
             (CPUMemoryBus.cartridge (CPU.bus s)))
          s).
Proof.
  intros Hready. pose proof Hready as [Hsp Hlen].
  destruct (sp_decrement (CPU.sp s) Hsp) as (_ & _ & Hback).
  unfold CPU.bind. rewrite push_stack_run by exact Hready.
  rewrite (pop_stack_run (u8 data)).
  - unfold pushed. fields. rewrite Hback. destruct s. reflexivity.
  - replace (CPU.sp (pushed data s)) with (u8 (CPU.sp s - 1)) by reflexivity.
    rewrite Hback. apply pushed_top, Hready.
Qed.

Lemma pop_after_push_returns_the_byte_witness :
  CPU.bind (CPU.push_stack 0x1AB) (fun _ => CPU.pop_stack)
    (CPU.with_sp 0x00 (power_on zeroed_ram []))
  = Ok (u8 0x1AB,
        CPU.with_bus
          (CPUMemoryBus.make
             (<[Z.to_nat (0x0100 + CPU.sp (CPU.with_sp 0x00 (power_on zeroed_ram [])))
                := u8 0x1AB]>
                (CPUMemoryBus.ram (CPU.bus (CPU.with_sp 0x00 (power_on zeroed_ram [])))))
             (CPUMemoryBus.cartridge (CPU.bus (CPU.with_sp 0x00 (power_on zeroed_ram [])))))
          (CPU.with_sp 0x00 (power_on zeroed_ram []))).
Proof.
  apply (pop_after_push_returns_the_byte (CPU.with_sp 0x00 (power_on zeroed_ram [])) 0x1AB).
  split; [ vm_compute; split; discriminate | vm_compute; reflexivity ].
Defined.


Lemma u16_pred_succ (z : Z) : is_u16 z -> u16 (u16 (z - 1) + 1) = z.
Proof.
  intros H. unfold u16. rewrite Zplus_mod_idemp_l.
  replace (z - 1 + 1) with z by lia. apply Z.mod_small. unfold is_u16 in H. lia.
Qed.




Lemma read_same_word (b : CPUMemoryBus.t) (A B : Z) :
  u16 A = u16 B -> CPUMemoryBus.read b A = CPUMemoryBus.read b B.
Proof. intros H. rewrite <- (read_u16 b A), <- (read_u16 b B), H. reflexivity. Qed.










Lemma adc_adds_with_carry_witness :
  exists p',
    CPU.adc (operand_machine 0x7F 0x25 0x01)
    = Ok (tt, CPU.with_a 0x81 (CPU.with_p p' (operand_machine 0x7F 0x25 0x01)))
    /\ Z.testbit p' 0 = false
    /\ Z.testbit p' 6 = true.
Proof.
  destruct (adc_adds_with_carry (operand_machine 0x7F 0x25 0x01) 0x01)
    as (p' & Hrun & Hc & _ & Hv & _).
  - vm_compute. split; discriminate.
  - vm_compute. split; discriminate.
  - vm_compute. reflexivity.
  - exists p'. split; [ exact Hrun | split; [ exact Hc | exact Hv ] ].
Defined.

Lemma sbc_subtracts_with_borrow_witness :
  exists p',
    CPU.sbc (operand_machine 0x80 0x25 0x01)
    = Ok (tt, CPU.with_a 0x7F (CPU.with_p p' (operand_machine 0x80 0x25 0x01)))
    /\ Z.testbit p' 0 = true
    /\ Z.testbit p' 6 = true.
Proof.
  destruct (sbc_subtracts_with_borrow (operand_machine 0x80 0x25 0x01) 0x01)
    as (p' & Hrun & Hc & _ & Hv & _).
  - vm_compute. split; discriminate.
  - vm_compute. split; discriminate.
  - vm_compute. reflexivity.
  - exists p'. split; [ exact Hrun | split; [ exact Hc | exact Hv ] ].
Defined.

Lemma cmp_compares_witness :
  exists p',
    CPU.cmp (operand_machine 0x10 0x24 0x20)
    = Ok (tt, CPU.with_p p' (operand_machine 0x10 0x24 0x20))
    /\ Z.testbit p' 0 = false
    /\ Z.testbit p' 1 = false
    /\ Z.testbit p' 7 = true.
Proof.
  destruct (cmp_compares (operand_machine 0x10 0x24 0x20) 0x20)
    as (p' & Hrun & Hc & Hz & Hn & _).
  - vm_compute. split; discriminate.
  - vm_compute. split; discriminate.
  - vm_compute. reflexivity.
  - exists p'. split; [ exact Hrun | ]. split; [ exact Hc | ].
    split; [ exact Hz | exact Hn ].
Defined.

(** ** Pushing and pulling a register *)

(** A push followed by a pull hands the byte pushed to what comes next, with
    SP back where it was. *)
Lemma push_then_pop {B : Type} (data : Z) (k : Z -> CPU.M B) (s : CPU.t) :
  stack_ready s ->
  CPU.bind (CPU.push_stack data) (fun _ => CPU.bind CPU.pop_stack k) s
  = k (u8 data) (CPU.with_bus (CPU.bus (pushed data s)) s).
Proof.
  intros Hready. pose proof Hready as [Hsp Hlen].
  destruct (sp_decrement (CPU.sp s) Hsp) as (_ & _ & Hback).
  unfold CPU.bind at 1. rewrite push_stack_run by exact Hready.
  unfold CPU.bind. rewrite (pop_stack_run (u8 data)).
  - unfold pushed. fields. rewrite Hback. destruct s. reflexivity.
  - replace (CPU.sp (pushed data s)) with (u8 (CPU.sp s - 1)) by reflexivity.
    rewrite Hback. apply pushed_top, Hready.
Qed.

Lemma pulled_status (p0 : Z) :
  is_u8 p0 ->
  u8 (Z.lor (Z.land (u8 (Z.lor p0 CPU.BREAK)) (Z.lnot CPU.BREAK)) CPU.UNUSED)
  = Z.lor (Z.land p0 (Z.lnot CPU.BREAK)) CPU.UNUSED
  /\ (Z.testbit p0 5 = true -> Z.testbit p0 4 = false ->
      Z.lor (Z.land p0 (Z.lnot CPU.BREAK)) CPU.UNUSED = p0).
Proof.
  intros H.
  pose proof (for_all_bytes
                (fun z =>
                   (u8 (Z.lor (Z.land (u8 (Z.lor z CPU.BREAK)) (Z.lnot CPU.BREAK))
                          CPU.UNUSED)
                    =? Z.lor (Z.land z (Z.lnot CPU.BREAK)) CPU.UNUSED)
                   && implb (Z.testbit z 5 && negb (Z.testbit z 4))
                        (Z.lor (Z.land z (Z.lnot CPU.BREAK)) CPU.UNUSED =? z))
                ltac:(vm_compute; reflexivity) p0 H) as E.
  cbv beta in E. apply andb_true_iff in E. destruct E as [E1 E2].
  apply Z.eqb_eq in E1. split; [ exact E1 | ].
  intros H5 H4. rewrite H5, H4 in E2. cbn [negb andb implb] in E2.
  apply Z.eqb_eq, E2.
Qed.

(** X16.  PLP run after PHP, with P and SP bytes.  The byte PHP stores has B
    set; PLP clears B and sets U in what it pulls, so P comes back as
    (P and not B) or U: the flags C, Z, I, D, V, N are restored, and P
    itself when it had U set and B clear.  SP is back where it was, and of
    the whole CPU only the stack cell at 0x0100 + SP has changed. *)
Theorem plp_after_php_restores_the_flags (s : CPU.t) :
  stack_ready s ->
  is_u8 (CPU.p s) ->
  let p' := Z.lor (Z.land (CPU.p s) (Z.lnot CPU.BREAK)) CPU.UNUSED in
  CPU.bind CPU.php (fun _ => CPU.plp) s
  = Ok (tt, CPU.with_p p'
              (CPU.with_bus (CPU.bus (pushed (Z.lor (CPU.p s) CPU.BREAK) s)) s))
  /\ (U_set s -> B_clear s -> p' = CPU.p s).
Proof.
  intros Hready Hp p'.
  destruct (pulled_status (CPU.p s) Hp) as [Hpull Hsame].
  split; [ | exact Hsame ].
  unfold CPU.php, CPU.plp. run.
  rewrite push_then_pop by exact Hready.
  run. rewrite Hpull. reflexivity.
Qed.

Lemma plp_after_php_restores_the_flags_witness :
  CPU.bind CPU.php (fun _ => CPU.plp) (operand_machine 0x00 0xE7 0x00)
  = Ok (tt, CPU.with_p 0xE7
              (CPU.with_bus
                 (CPU.bus (pushed (Z.lor (CPU.p (operand_machine 0x00 0xE7 0x00)) CPU.BREAK)
                             (operand_machine 0x00 0xE7 0x00)))
                 (operand_machine 0x00 0xE7 0x00)))
  /\ (U_set (operand_machine 0x00 0xE7 0x00) ->
      B_clear (operand_machine 0x00 0xE7 0x00) ->
      0xE7 = CPU.p (operand_machine 0x00 0xE7 0x00)).
Proof.
  apply (plp_after_php_restores_the_flags (operand_machine 0x00 0xE7 0x00)).
  - split; [ vm_compute; split; discriminate | vm_compute; reflexivity ].
  - vm_compute. split; discriminate.
Defined.

(** X17.  PLA run after PHA, with A and SP bytes: A and SP are back where
    they were, Z and N are set from A, the other six bits of P are left
    alone, and only the stack cell at 0x0100 + SP has changed. *)
Theorem pla_after_pha_restores_A (s : CPU.t) :
  stack_ready s ->
  is_u8 (CPU.a s) ->
  exists p',
    CPU.bind CPU.pha (fun _ => CPU.pla) s
    = Ok (tt, CPU.with_p p' (CPU.with_bus (CPU.bus (pushed (CPU.a s) s)) s))
    /\ forall k, 0 <= k < 8 ->
         Z.testbit p' k
         = if k =? 1 then CPU.a s =? 0
           else if k =? 7 then Z.testbit (CPU.a s) 7
           else Z.testbit (CPU.p s) k.
Proof.
  intros Hready Ha.
  unfold CPU.pha, CPU.pla. run.
  rewrite push_then_pop by exact Hready.
  run. rewrite !(u8_small (CPU.a s)) by exact Ha.
  destruct (set_nz_flags_run (CPU.a s)
              (CPU.with_a (CPU.a s) (CPU.with_bus (CPU.bus (pushed (CPU.a s) s)) s)))
    as (p' & Hrun & _ & Hbits).
  rewrite (u8_small (CPU.a s)) in Hbits by exact Ha.
  exists p'. split; [ | exact Hbits ].
  rewrite Hrun. destruct s. reflexivity.
Qed.

Lemma pla_after_pha_restores_A_witness :
  exists p',
    CPU.bind CPU.pha (fun _ => CPU.pla) (operand_machine 0x80 0x24 0x00)
    = Ok (tt, CPU.with_p p'
                (CPU.with_bus
                   (CPU.bus (pushed (CPU.a (operand_machine 0x80 0x24 0x00))
                               (operand_machine 0x80 0x24 0x00)))
                   (operand_machine 0x80 0x24 0x00)))
    /\ forall k, 0 <= k < 8 ->
         Z.testbit p' k
         = if k =? 1 then CPU.a (operand_machine 0x80 0x24 0x00) =? 0
           else if k =? 7 then Z.testbit (CPU.a (operand_machine 0x80 0x24 0x00)) 7
           else Z.testbit (CPU.p (operand_machine 0x80 0x24 0x00)) k.
Proof.
  apply (pla_after_pha_restores_A (operand_machine 0x80 0x24 0x00)).
  - split; [ vm_compute; split; discriminate | vm_compute; reflexivity ].
  - vm_compute. split; discriminate.
Defined.

(** ** Branches *)

Lemma branch_offset_of_byte (operand : Z) :
  is_u8 operand -> branch_offset operand = displacement operand.
Proof.
  intros H.
  apply Z.eqb_eq.
  apply (for_all_bytes (fun z => branch_offset z =? displacement z)
           ltac:(vm_compute; reflexivity) operand H).
Qed.

(** X18.  What [step()] does on each of the eight branch opcodes, for any
    PC, flags and operand byte: a branch whose condition fails costs 2
    cycles and goes on at PC + 2; one whose condition holds costs 3 cycles
    and goes to PC + 2 plus the operand read as a signed byte, modulo
    65536.  No fourth cycle is counted, wherever the target lies. *)
Theorem branch_costs_two_or_three_cycles (s : CPU.t) (opcode operand : Z) (taken : bool) :
  is_u8 operand ->
  branch_condition opcode (CPU.p s) = Some taken ->
  CPUMemoryBus.read (CPU.bus s) (CPU.pc s) = Ok opcode ->
  CPUMemoryBus.read (CPU.bus s) (CPU.pc s + 1) = Ok operand ->
  exists s',
    CPU.step s = Ok ((if taken then 3 else 2), s')
    /\ CPU.pc s' = u16 (CPU.pc s + 2 + (if taken then displacement operand else 0)).
Proof.
  intros Hbyte Hcond Hopcode Hoperand.
  destruct (branch_step s opcode operand taken Hcond Hopcode Hoperand)
    as (s' & Hstep & Hpc & _).
  exists s'. split; [ exact Hstep | ].
  rewrite Hpc. destruct taken.
  - rewrite branch_offset_of_byte by exact Hbyte.
    unfold u16. rewrite Zplus_mod_idemp_l. reflexivity.
  - rewrite Z.add_0_r. reflexivity.
Qed.

Lemma branch_costs_two_or_three_cycles_witness :
  exists s',
    CPU.step (power_on zeroed_ram [0xD0; 0x80]) = Ok (3, s')
    /\ CPU.pc s' = 0x7F82.
Proof.
  destruct (branch_costs_two_or_three_cycles
              (power_on zeroed_ram [0xD0; 0x80]) 0xD0 0x80 true)
    as (s' & Hstep & Hpc).
  - vm_compute. split; discriminate.
  - vm_compute. reflexivity.
  - vm_compute. reflexivity.
  - vm_compute. reflexivity.
  - exists s'. split; [ exact Hstep | ].
    rewrite Hpc. vm_compute. reflexivity.
Defined.

(** ** B without RTI *)

Lemma rti_decodes_from_0x40 (n : nat) (instruction : CPU.Instruction.t) :
  CPU.INSTRUCTIONS !! n = Some instruction ->
  CPU.Instruction.mnemonic instruction = "RTI"%string ->
  n = 64%nat.
Proof.
  intros Hlookup Hname.
  assert (E : forallb (fun b : bool => b)
                (imap (fun k ins =>
                         implb (String.eqb (CPU.Instruction.mnemonic ins) "RTI")
                               (Nat.eqb k 64))
                      CPU.INSTRUCTIONS) = true) by (vm_compute; reflexivity).
  rewrite forallb_forall in E.
  assert (Hin : In (implb (String.eqb (CPU.Instruction.mnemonic instruction) "RTI")
                          (Nat.eqb n 64))
                   (imap (fun k ins =>
                            implb (String.eqb (CPU.Instruction.mnemonic ins) "RTI")
                                  (Nat.eqb k 64))
                         CPU.INSTRUCTIONS)).
  { apply list_elem_of_In.
    apply (elem_of_lookup_imap_2
             (fun k ins =>
                implb (String.eqb (CPU.Instruction.mnemonic ins) "RTI") (Nat.eqb k 64))
             CPU.INSTRUCTIONS instruction n Hlookup). }
  specialize (E _ Hin). rewrite Hname in E.
  rewrite String.eqb_refl in E. cbn [implb] in E. apply Nat.eqb_eq, E.
Qed.

(** X19.  In every state reached after [reset()] by [step()] calls that
    never fetch RTI (opcode 0x40), bit 4 (B) of P is 0: PHP and BRK set B
    only in the byte they push, PLP clears it in what it pulls, and no
    other handler touches it. *)
Theorem B_reads_zero_until_an_rti (s : CPU.t) :
  reachable_without_rti s -> Z.testbit (CPU.p s) 4 = false.
Proof.
  induction 1 as [ s0 s Hreset | s s' opcode cycles _ IH Hread Hnot Hstep ].
  - rewrite (reset_status s0 s Hreset). reflexivity.
  - refine (keeps_step_other_than_rti (fun v => Z.testbit v 4 = false)
              B_kept_by_set B_kept_by_clear B_cleared_by_plp s _ IH cycles s' Hstep).
    intros opcode' instruction Hread' Hlookup Hname.
    rewrite Hread in Hread'. injection Hread' as <-.
    pose proof (rti_decodes_from_0x40 _ _ Hlookup Hname) as E.
    apply Hnot. lia.
Qed.

Lemma B_reads_zero_until_an_rti_witness :
  Z.testbit (CPU.p pull_zero_machine_3) 4 = false.
Proof.
  apply B_reads_zero_until_an_rti.
  apply (without_rti_step pull_zero_machine_2 pull_zero_machine_3 0x28 4);
    [ | vm_compute; reflexivity | discriminate | vm_compute; reflexivity ].
  apply (without_rti_step pull_zero_machine_1 pull_zero_machine_2 0x48 3);
    [ | vm_compute; reflexivity | discriminate | vm_compute; reflexivity ].
  apply (without_rti_step pull_zero_machine pull_zero_machine_1 0xA9 2);
    [ | vm_compute; reflexivity | discriminate | vm_compute; reflexivity ].
  apply (without_rti_reset
           (CPU.construct (nrom_bus zeroed_ram [0xA9; 0x00; 0x48; 0x28]))
           pull_zero_machine).
  vm_compute. reflexivity.
Defined.

(** ** What every instruction leaves alone *)

Lemma bind_ok {A B : Type} (m : CPU.M A) (k : A -> CPU.M B) (s s' : CPU.t) (v : B) :
  CPU.bind m k s = Ok (v, s') ->
  exists w t, m s = Ok (w, t) /\ k w t = Ok (v, s').
Proof.
  unfold CPU.bind. destruct (m s) as [ [w t] | f ]; [ | discriminate ].
  intros E. exists w, t. split; [ reflexivity | exact E ].
Qed.

Section Frame.

Variable R : CPU.t -> Prop.
Hypothesis R_a : forall v s, R s -> R (CPU.with_a (u8 v) s).
Hypothesis R_x : forall v s, R s -> R (CPU.with_x (u8 v) s).
Hypothesis R_y : forall v s, R s -> R (CPU.with_y (u8 v) s).
Hypothesis R_p : forall v s, R s -> R (CPU.with_p (u8 v) s).
Hypothesis R_sp : forall v s, R s -> R (CPU.with_sp (u8 v) s).
Hypothesis R_pc : forall v s, R s -> R (CPU.with_pc (u16 v) s).
Hypothesis R_addr_mode : forall v s, R s -> R (CPU.with_addr_mode v s).
Hypothesis R_operand_addr : forall v s, R s -> R (CPU.with_operand_addr (u16 v) s).
Hypothesis R_curr_cycle : forall v s, R s -> R (CPU.with_curr_cycle (usize v) s).
Hypothesis R_page_crossed : forall v s, R s -> R (CPU.with_page_crossed v s).
Hypothesis R_total_cycles : forall v s, R s -> R (CPU.with_total_cycles (usize v) s).
Hypothesis R_write :
  forall address data b s,
    CPUMemoryBus.write (CPU.bus s) address data = Ok b -> R s -> R (CPU.with_bus b s).

Lemma kept_ret {A : Type} (v : A) (s : CPU.t) : kept R (CPU.ret v) s.
Proof. intros H w s' [= <- <-]. exact H. Qed.

Lemma kept_gets {A : Type} (proj : CPU.t -> A) (s : CPU.t) : kept R (CPU.gets proj) s.
Proof. intros H w s' [= <- <-]. exact H. Qed.

Lemma kept_undefined {A : Type} (f : fault) (s : CPU.t) : kept R (@CPU.undefined A f) s.
Proof. intros H w s' [=]. Qed.

Lemma kept_modify (upd : CPU.t -> CPU.t) (s : CPU.t) :
  (R s -> R (upd s)) -> kept R (CPU.modify upd) s.
Proof. intros Hupd H w s' [= <- <-]. auto. Qed.

Lemma kept_bind_gets {A B : Type} (proj : CPU.t -> A) (k : A -> CPU.M B) (s : CPU.t) :
  kept R (k (proj s)) s -> kept R (CPU.bind (CPU.gets proj) k) s.
Proof. intros Hk. exact Hk. Qed.

Lemma kept_bind_modify {B : Type} (upd : CPU.t -> CPU.t) (k : unit -> CPU.M B)
    (s : CPU.t) :
  (R s -> R (upd s)) ->
  kept R (k tt) (upd s) ->
  kept R (CPU.bind (CPU.modify upd) k) s.
Proof. intros Hupd Hk H w s' E. apply (Hk (Hupd H) w s' E). Qed.

Lemma kept_bind {A B : Type} (m : CPU.M A) (k : A -> CPU.M B) (s : CPU.t) :
  kept R m s -> (forall v t, kept R (k v) t) -> kept R (CPU.bind m k) s.
Proof.
  intros Hm Hk H w s' E.
  apply bind_ok in E. destruct E as (v & t & Em & Ek).
  apply (Hk v t (Hm H v t Em) w s' Ek).
Qed.

Lemma kept_bus_read (address : Z) (s : CPU.t) : kept R (CPU.bus_read address) s.
Proof.
  intros H v s' E. unfold CPU.bus_read in E.
  destruct (CPUMemoryBus.read (CPU.bus s) address); [ | discriminate ].
  injection E as <- <-. exact H.
Qed.

Lemma kept_bus_write (address data : Z) (s : CPU.t) :
  kept R (CPU.bus_write address data) s.
Proof.
  intros H v s' E. unfold CPU.bus_write in E.
  destruct (CPUMemoryBus.write (CPU.bus s) address data) as [ b | ] eqn:Ew;
    [ | discriminate ].
  injection E as <- <-. apply (R_write address data b s Ew H).
Qed.

Create HintDb frame.
Hint Resolve kept_ret kept_gets kept_undefined kept_bus_read kept_bus_write : frame.

Ltac frame_side :=
  intros ?;
  first [ apply R_a | apply R_x | apply R_y | apply R_p | apply R_sp | apply R_pc
        | apply R_addr_mode | apply R_operand_addr | apply R_curr_cycle
        | apply R_page_crossed | apply R_total_cycles ];
  assumption.

Ltac frame :=
  assignments; cbv zeta;
  repeat first
    [ solve [ auto with frame ]
    | apply kept_bind_gets; cbv beta
    | apply kept_bind_modify; [ frame_side | cbv beta ]
    | apply kept_modify; frame_side
    | apply kept_bind; [ solve [ frame ] | intros ? ? ]
    | match goal with
      | |- kept _ (if ?c then _ else _) _ => destruct c
      | |- kept _ (CPU.bind (if ?c then _ else _) _) _ => destruct c
      | |- kept _ (match ?m with _ => _ end) _ => destruct m
      end ].

Lemma kept_push_stack (data : Z) (s : CPU.t) : kept R (CPU.push_stack data) s.
Proof. unfold CPU.push_stack. frame. Qed.

Lemma kept_pop_stack (s : CPU.t) : kept R CPU.pop_stack s.
Proof. unfold CPU.pop_stack. frame. Qed.

Lemma kept_set_flag (flag value : Z) (s : CPU.t) : kept R (CPU.set_flag flag value) s.
Proof. unfold CPU.set_flag. frame. Qed.

Hint Resolve kept_push_stack kept_pop_stack kept_set_flag : frame.

Lemma kept_set_nz_flags (data : Z) (s : CPU.t) : kept R (CPU.set_nz_flags data) s.
Proof. unfold CPU.set_nz_flags. frame. Qed.

Lemma kept_read_wrapped_page (address : Z) (s : CPU.t) :
  kept R (CPU.read_wrapped_page address) s.
Proof. unfold CPU.read_wrapped_page. frame. Qed.

Lemma kept_get_operand (s : CPU.t) : kept R CPU.get_operand s.
Proof. unfold CPU.get_operand. frame. Qed.

Lemma kept_store (data : Z) (s : CPU.t) : kept R (CPU.store data) s.
Proof. unfold CPU.store. frame. Qed.

Hint Resolve kept_set_nz_flags kept_read_wrapped_page kept_get_operand kept_store
  : frame.

Lemma kept_resolve (mode : CPU.AddressMode) (s : CPU.t) : kept R (CPU.resolve mode) s.
Proof.
  unfold CPU.resolve, CPU.resolve_relative, CPU.resolve_immediate,
    CPU.resolve_zeropage, CPU.resolve_absolute, CPU.resolve_indirect,
    CPU.resolve_preindex_indirect, CPU.resolve_postindex_indirect.
  destruct mode; frame.
Qed.

Lemma kept_adc_ (operand : Z) (s : CPU.t) : kept R (CPU.adc_ operand) s.
Proof. unfold CPU.adc_. frame. Qed.

Lemma kept_branch (condition : bool) (s : CPU.t) : kept R (CPU.branch condition) s.
Proof. unfold CPU.branch. frame. Qed.

Hint Resolve kept_resolve kept_adc_ kept_branch : frame.

Create HintDb instructions.
Hint Unfold CPU.brk CPU.ora CPU.and_ CPU.eor CPU.asl CPU.lsr CPU.rol CPU.ror
  CPU.bit CPU.php CPU.plp CPU.pha CPU.pla CPU.clc CPU.sec CPU.cli CPU.sei
  CPU.clv CPU.cld CPU.sed CPU.rti CPU.rts CPU.jmp CPU.adc CPU.sbc CPU.sta CPU.stx
  CPU.sty CPU.inx CPU.dex CPU.iny CPU.dey CPU.inc CPU.dec CPU.txa CPU.tya CPU.txs
  CPU.tay CPU.tax CPU.tsx CPU.lda CPU.ldx CPU.ldy CPU.cpx CPU.cpy CPU.cmp
  CPU.bpl CPU.bmi CPU.bvc CPU.bvs CPU.bcc CPU.bcs CPU.bne CPU.beq CPU.jsr
  CPU.nop : instructions.

(** Every handler in the table keeps [R]. *)
Lemma kept_handlers :
  Forall (fun instruction =>
            forall handler,
              CPU.Instruction.func instruction = Some handler ->
              forall s, kept R handler s)
         CPU.INSTRUCTIONS.
Proof.
  unfold CPU.INSTRUCTIONS.
  repeat (apply Forall_cons; split;
          [ cbn [CPU.Instruction.func CPU.Instruction.default];
            intros handler Hfunc;
            first [ discriminate Hfunc
                  | injection Hfunc as <-; intros s;
                    solve [ autounfold with instructions; frame ] ]
          | ]).
  apply Forall_nil_2.
Qed.

(** What [execute] runs before it counts the cycles: the operand address
    and the handler. *)
Lemma kept_call (instruction : CPU.Instruction.t) (n : nat) (s : CPU.t) :
  CPU.INSTRUCTIONS !! n = Some instruction ->
  kept R (CPU.call (CPU.Instruction.func instruction)) s.
Proof.
  intros Hlookup.
  destruct (CPU.Instruction.func instruction) as [ handler | ] eqn:Hfunc;
    cbn [CPU.call]; [ | apply kept_undefined ].
  pose proof kept_handlers as Hall. rewrite Forall_lookup in Hall.
  apply (Hall n instruction Hlookup handler Hfunc).
Qed.

Lemma kept_execute (instruction : CPU.Instruction.t) (n : nat) (s : CPU.t) :
  CPU.INSTRUCTIONS !! n = Some instruction ->
  kept R (CPU.execute instruction) s.
Proof.
  intros Hlookup.
  pose proof (kept_call instruction n) as Hcall. specialize (fun t => Hcall t Hlookup).
  unfold CPU.execute. frame.
Qed.

Lemma kept_step (s : CPU.t) : kept R CPU.step s.
Proof.
  intros H v s' E. rewrite step_decodes in E.
  destruct (CPUMemoryBus.read (CPU.bus s) (CPU.pc s)) as [ opcode | ];
    [ | discriminate ].
  destruct (CPU.INSTRUCTIONS !! Z.to_nat opcode) as [ instruction | ] eqn:Hlookup;
    [ | discriminate ].
  assert (Hk : forall t,
             kept R (CPU.bind (CPU.execute instruction)
                              (fun _ => CPU.gets CPU.curr_cycle)) t).
  { intros t. apply kept_bind; [ | intros; apply kept_gets ].
    apply (kept_execute instruction (Z.to_nat opcode) t Hlookup). }
  refine (Hk _ _ v s' E).
  apply R_pc, R_curr_cycle, H.
Qed.

End Frame.

(** ** The memory map *)

Lemma write_same_memory_map (b b' : CPUMemoryBus.t) (address data : Z) :
  CPUMemoryBus.write b address data = Ok b' -> same_memory_map b b'.
Proof.
  unfold CPUMemoryBus.write, assign_index, same_memory_map.
  repeat match goal with
         | |- context [if ?c then _ else _] => destruct c
         end;
    try (intros [= <-]; split; reflexivity);
    try discriminate.
  - intros [= <-]. cbn [CPUMemoryBus.ram CPUMemoryBus.cartridge].
    split; [ reflexivity | apply length_insert ].
  - destruct (CPUMemoryBus.cartridge b) as [ c | ] eqn:Hc; [ | discriminate ].
    intros [= <-]. cbn [CPUMemoryBus.ram CPUMemoryBus.cartridge].
    rewrite cartridge_write_is_identity. split; [ reflexivity | reflexivity ].
Qed.

(** X20.  No instruction changes the memory map: after any [step()] that
    completes, whatever it stored and wherever, the bus holds the same
    cartridge, PRG and CHR ROM included, and as many RAM cells as before.
    A store to the cartridge window is dropped by the mapper, and a store to
    the RAM window replaces one cell. *)
Theorem step_keeps_the_memory_map (s s' : CPU.t) (cycles : Z) :
  CPU.step s = Ok (cycles, s') -> same_memory_map (CPU.bus s) (CPU.bus s').
Proof.
  intros E.
  refine (kept_step (fun t => same_memory_map (CPU.bus s) (CPU.bus t))
            _ _ _ _ _ _ _ _ _ _ _ _ s _ cycles s' E);
    try (intros v t H; exact H).
  - intros address data b t Hw [Hc Hl].
    destruct (write_same_memory_map _ _ _ _ Hw) as [Hc' Hl'].
    cbn [CPU.bus CPU.with_bus]. split; congruence.
  - split; reflexivity.
Qed.

(** ** The cycle counter *)

(** X21.  Whatever number of cycles [step()] returns, it has added that
    same number to [total_cycles], modulo 2^64, and it is what the step
    leaves in [curr_cycle]: the counter and the return values of the steps
    never drift apart. *)
Theorem step_adds_its_cycles_to_the_total (s s' : CPU.t) (cycles : Z) :
  CPU.step s = Ok (cycles, s') ->
  CPU.total_cycles s' = usize (CPU.total_cycles s + cycles)
  /\ CPU.curr_cycle s' = cycles.
Proof.
  intros E. rewrite step_decodes in E.
  destruct (CPUMemoryBus.read (CPU.bus s) (CPU.pc s)) as [ opcode | ];
    [ | discriminate ].
  destruct (CPU.INSTRUCTIONS !! Z.to_nat opcode) as [ instruction | ] eqn:Hlookup;
    [ | discriminate ].
  set (R := fun t => CPU.total_cycles t = CPU.total_cycles s).
  assert (Hresolve : forall mode t, kept R (CPU.resolve mode) t).
  { intros mode t. apply kept_resolve; intros; assumption. }
  assert (Hcall : forall t, kept R (CPU.call (CPU.Instruction.func instruction)) t).
  { intros t. apply (kept_call R) with (n := Z.to_nat opcode);
      try exact Hlookup; intros; assumption. }
  revert E. unfold CPU.execute. run. intros E.
  apply bind_ok in E. destruct E as ([] & t1 & Er & E).
  apply Hresolve in Er; [ | reflexivity ].
  rewrite bind_bind in E.
  apply bind_ok in E. destruct E as ([] & t2 & Ec & E).
  apply Hcall in Ec; [ | exact Er ].
  revert E. run.
  destruct (CPU.Instruction.check_page_cross instruction && CPU.page_crossed t2);
    run; unfold CPU.gets; intros [= <- <-]; fields;
    unfold R in Ec; rewrite Ec; split; reflexivity.
Qed.

Lemma step_keeps_the_memory_map_witness :
  same_memory_map (CPU.bus store_to_rom_machine)
                  (CPU.bus (state_after CPU.step store_to_rom_machine)).
Proof.
  apply (step_keeps_the_memory_map store_to_rom_machine
           (state_after CPU.step store_to_rom_machine) 4).
  vm_compute. reflexivity.
Defined.

Lemma step_adds_its_cycles_to_the_total_witness :
  CPU.total_cycles (state_after CPU.step store_to_rom_machine)
  = usize (CPU.total_cycles store_to_rom_machine + 4)
  /\ CPU.curr_cycle (state_after CPU.step store_to_rom_machine) = 4.
Proof.
  apply (step_adds_its_cycles_to_the_total store_to_rom_machine
           (state_after CPU.step store_to_rom_machine) 4).
  vm_compute. reflexivity.
Defined.

(** ** Indexed absolute addressing *)

Lemma word_of_bytes (lo hi : Z) :
  is_u8 lo -> is_u8 hi -> u16 (Z.lor lo (Z.shiftl hi 8)) = lo + 256 * hi.
Proof.
  intros Hlo Hhi. apply Z.eqb_eq.
  apply (for_all_byte_pairs
           (fun l h => u16 (Z.lor l (Z.shiftl h 8)) =? l + 256 * h)
           ltac:(vm_compute; reflexivity) lo hi Hlo Hhi).
Qed.

Lemma page_of_word (z : Z) : is_u16 z -> Z.land z 0xFF00 = 256 * (z / 256).
Proof.
  intros H. apply Z.eqb_eq.
  apply (for_all_words (fun w => Z.land w 0xFF00 =? 256 * (w / 256))
           ltac:(vm_compute; reflexivity) z H).
Qed.

Lemma indexed_page_cross (lo hi offset : Z) :
  is_u8 lo -> is_u8 hi -> is_u8 offset ->
  CPU.is_page_crossed (lo + 256 * hi) ((lo + 256 * hi + offset) mod 65536)
  = (255 <? lo + offset).
Proof.
  intros Hlo Hhi Hoff. unfold is_u8 in *. unfold CPU.is_page_crossed.
  pose proof (Z.mod_pos_bound (lo + 256 * hi + offset) 65536 ltac:(lia)) as Hm.
  rewrite !u16_small by (unfold is_u16; lia).
  rewrite !page_of_word by (unfold is_u16; lia).
  assert (Hbase : (lo + 256 * hi) / 256 = hi).
  { symmetry. apply (Z.div_unique _ 256 hi lo); lia. }
  rewrite Hbase.
  destruct (Z.ltb_spec 255 (lo + offset)) as [ Hcross | Hsame ].
  - apply negb_true_iff, Z.eqb_neq. intros E.
    destruct (Z.ltb_spec (lo + 256 * hi + offset) 65536) as [ Hin | Hout ].
    + rewrite Z.mod_small in E by lia.
      assert ((lo + 256 * hi + offset) / 256 = hi + 1).
      { symmetry. apply (Z.div_unique _ 256 (hi + 1) (lo + offset - 256)); lia. }
      lia.
    + assert (Hw : (lo + 256 * hi + offset) mod 65536 = lo + 256 * hi + offset - 65536).
      { symmetry. apply (Z.mod_unique _ 65536 1); lia. }
      rewrite Hw in E.
      assert ((lo + 256 * hi + offset - 65536) / 256 = 0).
      { apply Z.div_small. lia. }
      lia.
  - apply negb_false_iff, Z.eqb_eq.
    rewrite Z.mod_small by lia.
    assert ((lo + 256 * hi + offset) / 256 = hi).
    { symmetry. apply (Z.div_unique _ 256 hi (lo + offset)); lia. }
    lia.
Qed.

Lemma resolve_absolute_run (s : CPU.t) (lo hi offset : Z) :
  is_u8 lo -> is_u8 hi -> is_u8 offset ->
  CPUMemoryBus.read (CPU.bus s) (CPU.pc s) = Ok lo ->
  CPUMemoryBus.read (CPU.bus s) (CPU.pc s + 1) = Ok hi ->
  CPU.resolve_absolute offset s
  = Ok ((lo + 256 * hi + offset) mod 65536,
        CPU.with_page_crossed (255 <? lo + offset)
          (CPU.with_pc (u16 (CPU.pc s + 2)) s)).
Proof.
  intros Hlo Hhi Hoff Hrlo Hrhi.
  unfold CPU.resolve_absolute. cbv zeta. run.
  rewrite bind_bus_read with (v := lo) by exact Hrlo.
  rewrite bind_bus_read with (v := hi) by exact Hrhi.
  run. unfold CPU.ret.
  rewrite word_of_bytes by assumption.
  rewrite (u8_small offset) by exact Hoff.
  assert (Heff : u16 (Z.land (lo + 256 * hi + offset) 0xFFFF)
                 = (lo + 256 * hi + offset) mod 65536).
  { change 0xFFFF with (Z.ones 16). rewrite Z.land_ones by lia.
    change (2 ^ 16) with 65536. apply u16_small.
    pose proof (Z.mod_pos_bound (lo + 256 * hi + offset) 65536 ltac:(lia)).
    unfold is_u16. lia. }
  rewrite Heff, indexed_page_cross by assumption.
  reflexivity.
Qed.

(** X22.  [resolve_absolute(offset)] on the two operand bytes [lo], [hi]
    at PC: the effective address is the 16-bit word plus the index, modulo
    65536, PC moves past the two bytes, and [page_crossed] is set exactly
    when the low byte plus the index carries, that is when the effective
    address is on another page than the base address. *)
Theorem resolve_absolute_flags_the_carry (s : CPU.t) (lo hi offset : Z) :
  is_u8 lo -> is_u8 hi -> is_u8 offset ->
  CPUMemoryBus.read (CPU.bus s) (CPU.pc s) = Ok lo ->
  CPUMemoryBus.read (CPU.bus s) (CPU.pc s + 1) = Ok hi ->
  CPU.resolve_absolute offset s
  = Ok ((lo + 256 * hi + offset) mod 65536,
        CPU.with_page_crossed (255 <? lo + offset)
          (CPU.with_pc (u16 (CPU.pc s + 2)) s)).
Proof. apply resolve_absolute_run. Qed.

Lemma resolve_absolute_flags_the_carry_witness :
  CPU.resolve_absolute 0x01 (CPU.with_pc 0x8001 indexed_load_machine)
  = Ok ((0xFF + 256 * 0x80 + 0x01) mod 65536,
        CPU.with_page_crossed (255 <? 0xFF + 0x01)
          (CPU.with_pc (u16 (CPU.pc (CPU.with_pc 0x8001 indexed_load_machine) + 2))
             (CPU.with_pc 0x8001 indexed_load_machine))).
Proof.
  apply (resolve_absolute_flags_the_carry
           (CPU.with_pc 0x8001 indexed_load_machine) 0xFF 0x80 0x01).
  - vm_compute. split; discriminate.
  - vm_compute. split; discriminate.
  - vm_compute. split; discriminate.
  - vm_compute. reflexivity.
  - vm_compute. reflexivity.
Defined.

Lemma u16_add_1_2 (z : Z) : u16 (u16 (z + 1) + 2) = u16 (z + 3).
Proof.
  unfold u16. rewrite Zplus_mod_idemp_l. f_equal. lia.
Qed.

Lemma decode_0xBD :
  CPU.INSTRUCTIONS !! Z.to_nat 0xBD
  = Some (CPU.Instruction.make "LDA" CPU.ABSOLUTE_X 4 true (Some CPU.lda)).
Proof. reflexivity. Qed.

(** X23.  LDA absolute,X as [step()] runs it, with the operand bytes [lo],
    [hi] after the opcode 0xBD and [v] at the effective address: A takes
    the byte, PC moves three bytes on, and the step costs 4 cycles, or 5
    when the low byte plus X carries into the next page.  The extra cycle
    is counted once and [page_crossed] is cleared again. *)
Theorem lda_absolute_x_pays_for_the_page_cross (s : CPU.t) (lo hi v : Z) :
  is_u8 lo -> is_u8 hi -> is_u8 (CPU.x s) ->
  CPUMemoryBus.read (CPU.bus s) (CPU.pc s) = Ok 0xBD ->
  CPUMemoryBus.read (CPU.bus s) (CPU.pc s + 1) = Ok lo ->
  CPUMemoryBus.read (CPU.bus s) (CPU.pc s + 2) = Ok hi ->
  CPUMemoryBus.read (CPU.bus s) ((lo + 256 * hi + CPU.x s) mod 65536) = Ok v ->
  exists s',
    CPU.step s = Ok ((if 255 <? lo + CPU.x s then 5 else 4), s')
    /\ CPU.a s' = u8 v
    /\ CPU.pc s' = u16 (CPU.pc s + 3)
    /\ ((255 <? lo + CPU.x s) = true -> CPU.page_crossed s' = false).
Proof.
  intros Hlo Hhi Hx Hopcode Hrlo Hrhi Hv.
  rewrite step_decodes, Hopcode, decode_0xBD.
  unfold CPU.execute. cbn [CPU.Instruction.addr_mode CPU.Instruction.func
                           CPU.Instruction.check_page_cross CPU.Instruction.cycles].
  run. cbn [CPU.resolve]. run.
  unfold CPU.bind at 1.
  rewrite (resolve_absolute_run _ lo hi (CPU.x s))
    by (try assumption; fields;
        first [ rewrite read_u16; exact Hrlo
              | rewrite <- Hrhi; apply read_same_word, u16_add_1_1 ]).
  run. cbn [CPU.call]. unfold CPU.lda, CPU.get_operand. run.
  rewrite bind_bus_read with (v := v) by (fields; rewrite read_u16; exact Hv).
  run. unfold CPU.bind at 1.
  match goal with
  | |- context [CPU.set_nz_flags ?d ?t] =>
      destruct (set_nz_flags_run d t) as (p' & Hnz & _); rewrite Hnz
  end.
  run. cbn [andb].
  destruct (255 <? lo + CPU.x s); run; unfold CPU.gets; fields;
    (eexists; split; [ reflexivity | ]); fields;
    (split; [ reflexivity | ]);
    (split; [ apply u16_add_1_2 | ]);
    [ reflexivity | discriminate ].
Qed.

Lemma lda_absolute_x_pays_for_the_page_cross_witness :
  exists s',
    CPU.step indexed_load_machine = Ok (5, s')
    /\ CPU.a s' = 0x00
    /\ CPU.pc s' = 0x8003.
Proof.
  destruct (lda_absolute_x_pays_for_the_page_cross indexed_load_machine 0xFF 0x80 0x00)
    as (s' & Hstep & Ha & Hpc & _).
  - vm_compute. split; discriminate.
  - vm_compute. split; discriminate.
  - vm_compute. split; discriminate.
  - vm_compute. reflexivity.
  - vm_compute. reflexivity.
  - vm_compute. reflexivity.
  - vm_compute. reflexivity.
  - exists s'. split; [ exact Hstep | ]. split; [ exact Ha | ].
    rewrite Hpc. vm_compute. reflexivity.
Defined.

(** ** BRK and RTI *)












(** ** Rotating the accumulator *)

Ltac by_byte_pairs a0 p0 Ha Hp :=
  apply Z.eqb_eq;
  match goal with
  | |- ?lhs = true =>
      let P := eval pattern a0, p0 in lhs in
      match P with
      | ?f _ _ =>
          change (f a0 p0 = true);
          apply (for_all_byte_pairs f); [ vm_compute; reflexivity | exact Ha | exact Hp ]
      end
  end.

Lemma bind_set_flag {B : Type} (flag value : Z) (k : unit -> CPU.M B) (s : CPU.t) :
  CPU.bind (CPU.set_flag flag value) k s
  = k tt (CPU.with_p (flag_set (CPU.p s) flag value) s).
Proof. unfold CPU.bind. rewrite set_flag_run. reflexivity. Qed.

Lemma set_flag_stores (flag value : Z) (s : CPU.t) :
  CPU.set_flag flag value s = Ok (tt, CPU.with_p (flag_set (CPU.p s) flag value) s).
Proof. apply set_flag_run. Qed.

Lemma state_ext (s t : CPU.t) :
  CPU.nmi s = CPU.nmi t -> CPU.a s = CPU.a t -> CPU.x s = CPU.x t ->
  CPU.y s = CPU.y t -> CPU.p s = CPU.p t -> CPU.sp s = CPU.sp t ->
  CPU.pc s = CPU.pc t -> CPU.addr_mode s = CPU.addr_mode t ->
  CPU.operand_addr s = CPU.operand_addr t -> CPU.curr_cycle s = CPU.curr_cycle t ->
  CPU.total_cycles s = CPU.total_cycles t -> CPU.page_crossed s = CPU.page_crossed t ->
  CPU.bus s = CPU.bus t ->
  s = t.
Proof. destruct s, t. fields. intros. subst. reflexivity. Qed.

(** X25.  ROR A run after ROL A, with A and P bytes: the nine bits of A
    and C go round once and back, so A and C are what they were, and the
    CPU is left as [set_nz_flags(A)] would leave it, Z and N describing A
    and the other flags untouched. *)
Theorem ror_after_rol_restores_A_and_C (s : CPU.t) :
  CPU.addr_mode s = CPU.ACCUMULATOR ->
  is_u8 (CPU.a s) ->
  is_u8 (CPU.p s) ->
  CPU.bind CPU.rol (fun _ => CPU.ror) s = CPU.set_nz_flags (CPU.a s) s.
Proof.
  intros Hmode Ha Hp.
  unfold CPU.rol, CPU.ror, CPU.get_operand, CPU.store, CPU.set_nz_flags.
  cbv zeta. assignments.
  repeat (rewrite ?bind_bind, ?bind_gets, ?bind_modify, ?bind_ret, ?bind_set_flag;
          fields; rewrite ?Hmode).
  rewrite !set_flag_stores. unfold CPU.modify. fields.
  do 2 f_equal. apply state_ext; fields; try reflexivity.
  - revert Ha Hp. generalize (CPU.a s) as a0, (CPU.p s) as p0. intros a0 p0 Ha Hp.
    by_byte_pairs a0 p0 Ha Hp.
  - revert Ha Hp. generalize (CPU.a s) as a0, (CPU.p s) as p0. intros a0 p0 Ha Hp.
    by_byte_pairs a0 p0 Ha Hp.
Qed.

Lemma ror_after_rol_restores_A_and_C_witness :
  CPU.bind CPU.rol (fun _ => CPU.ror) (accumulator_machine 0x81 0x24)
  = CPU.set_nz_flags (CPU.a (accumulator_machine 0x81 0x24)) (accumulator_machine 0x81 0x24).
Proof.
  apply (ror_after_rol_restores_A_and_C (accumulator_machine 0x81 0x24)).
  - reflexivity.
  - vm_compute. split; discriminate.
  - vm_compute. split; discriminate.
Defined.

(** ** Opcodes without a handler *)

Lemma no_handler_no_operand :
  Forall (fun instruction =>
            CPU.Instruction.func instruction = None ->
            CPU.Instruction.addr_mode instruction = CPU.NONE)
         CPU.INSTRUCTIONS.
Proof.
  unfold CPU.INSTRUCTIONS.
  repeat (apply Forall_cons; split;
          [ cbn [CPU.Instruction.func CPU.Instruction.addr_mode
                 CPU.Instruction.default];
            intros Hfunc; first [ reflexivity | discriminate Hfunc ]
          | ]).
  apply Forall_nil_2.
Qed.

(** X26.  An opcode whose table entry has no handler (the entries the
    source fills with [Instruction()]) makes [step()] call a null function
    pointer: whatever the state, the step is undefined; it is neither
    skipped nor run as a NOP. *)
Theorem step_on_an_opcode_without_handler_is_undefined
    (s : CPU.t) (opcode : Z) (instruction : CPU.Instruction.t) :
  CPUMemoryBus.read (CPU.bus s) (CPU.pc s) = Ok opcode ->
  CPU.INSTRUCTIONS !! Z.to_nat opcode = Some instruction ->
  CPU.Instruction.func instruction = None ->
  CPU.step s = Undefined NullHandler.
Proof.
  intros Hopcode Hlookup Hfunc.
  pose proof no_handler_no_operand as Hall. rewrite Forall_lookup in Hall.
  pose proof (Hall _ _ Hlookup Hfunc) as Hmode.
  rewrite step_decodes, Hopcode, Hlookup.
  unfold CPU.execute. rewrite Hmode, Hfunc. run.
  cbn [CPU.resolve]. run. reflexivity.
Qed.

Lemma step_on_an_opcode_without_handler_is_undefined_witness :
  CPU.step (power_on zeroed_ram [0x02]) = Undefined NullHandler.
Proof.
  apply (step_on_an_opcode_without_handler_is_undefined
           (power_on zeroed_ram [0x02]) 0x02 CPU.Instruction.default).
  - vm_compute. reflexivity.
  - reflexivity.
  - reflexivity.
Defined.
